(** * Meeting hub: the lifecycle of meetings and their links to users

    The development follows the request handlers of the backend:
    - [routers/bots.py]        ([request_bot]),
    - [routers/webhooks.py]    ([handle_webhook]),
    - [routers/transcripts.py] ([get_transcript]),
    - [routers/admin.py]       ([generate_secure_token],
                                [create_token_for_user]).

    A handler is a computation in a small state-and-exception monad.  The
    state holds the committed database, the unit of work of the SQLAlchemy
    session of the request (objects added or flagged as modified and not yet
    flushed), the log of calls made to the upstream bot service and the
    schedule of storage faults the commits of the request will meet. *)

From Stdlib Require Import ZArith QArith String Ascii List Permutation Sorted Lia.
From stdpp Require Import base option list strings gmap.

#[local] Open Scope Z_scope.
#[local] Open Scope string_scope.

(** ** Data model *)

(** [core/schemas.py], [class Platform(str, Enum)]. *)
Inductive Platform := google_meet | zoom.

(** [Platform.value]: the string stored in [Meeting.platform]. *)
Definition value (p : Platform) : string :=
  match p with
  | google_meet => "google_meet"
  | zoom => "zoom"
  end.

(** The JSON values an attribute bag ([Meeting.data], a JSONB column) or an
    upstream response holds. *)
Inductive json :=
| JNull
| JBool (b : bool)
| JInt (z : Z)
| JStr (s : string).

(** Python truth value, as [if meeting.data.get("is_live", False):] tests it. *)
Definition truthy (j : json) : bool :=
  match j with
  | JNull => false
  | JBool b => b
  | JInt z => negb (Z.eqb z 0)
  | JStr s => negb (String.eqb s "")
  end.

(** [dict.get(key, default)]. *)
Definition dict_get (d : gmap string json) (k : string) (dflt : json) : json :=
  default dflt (d !! k).

(** [core/schemas.py], [class TranscriptionSegment]: also the shape of the
    segments of an upstream transcript.  Offsets are seconds; a finite double
    is a rational, and only their order is used. *)
Record TranscriptionSegment := {
  seg_start_time : Q;
  seg_end_time : Q;
  seg_text : string;
  seg_speaker : option string;
  seg_language : option string
}.

(** Modelled from the spec: the ORM classes [User], [APIToken], [Meeting],
    [UserMeeting] and [Transcription] of [core/models.py], which is not part
    of the sources at hand.  Their columns are those the handlers read and
    write, as the data model of the specification lists them; a primary key
    [id] is named after its table ([user_id], [meeting_id], ...) and the
    foreign keys of a link are [um_user_id] and [um_meeting_id]. *)
Record User := {
  user_id : Z;
  user_email : string
}.

Record APIToken := {
  token_id : Z;
  token : string;
  token_user_id : Z
}.

Record Meeting := {
  meeting_id : Z;
  platform : string;
  platform_specific_id : string;
  status : string;
  data : option (gmap string json)
}.

Record UserMeeting := {
  um_id : Z;
  um_user_id : Z;
  um_meeting_id : Z
}.

(** The handlers import [Transcription] as [TranscriptionModel]. *)
Record Transcription := {
  tr_id : Z;
  tr_meeting_id : Z;
  start_time : Q;
  end_time : Q;
  text : string;
  speaker : option string;
  language : option string
}.

(** [core/schemas.py]: [MeetingCreate] and [WebhookPayload] carry the natural
    key; the optional bot fields of [MeetingCreate] are not read by the
    handlers. *)
Record MeetingCreate := {
  mc_platform : Platform;
  mc_native_meeting_id : string
}.

Record WebhookPayload := {
  wp_platform : Platform;
  wp_native_meeting_id : string
}.

(** The committed database: one list of rows per table, in insertion order,
    and the next value of each primary-key sequence. *)
Record Database := {
  users : list User;
  api_tokens : list APIToken;
  meetings : list Meeting;
  user_meetings : list UserMeeting;
  transcriptions : list Transcription;
  token_seq : Z;
  meeting_seq : Z;
  user_meeting_seq : Z;
  transcription_seq : Z
}.

(** Modelled from the spec: the constraints declared by [core/models.py],
    which is not part of the sources at hand.  The specification lists a
    foreign key from a token to its user and unique constraints on the token
    string, on the natural key of a meeting and on the (user, meeting) pair of
    a link.  Each is a flag, so that a result stated for every [Schema] holds
    whether or not the models declare the constraint. *)
Record Schema := {
  fk_token_user : bool;
  uq_token : bool;
  uq_natural_key : bool;
  uq_user_meeting : bool
}.

(** ** Queries *)

Definition has_key (p n : string) (m : Meeting) : bool :=
  String.eqb (platform m) p && String.eqb (platform_specific_id m) n.

(** [select(Meeting).filter(platform == p, platform_specific_id == n)] followed
    by [.scalars().first()]. *)
Definition find_meeting (p n : string) (db : Database) : option Meeting :=
  List.find (has_key p n) (meetings db).

Definition is_link (uid mid : Z) (l : UserMeeting) : bool :=
  Z.eqb (um_user_id l) uid && Z.eqb (um_meeting_id l) mid.

(** [select(UserMeeting).filter(user_id == uid, meeting_id == mid)], first row. *)
Definition find_link (uid mid : Z) (db : Database) : option UserMeeting :=
  List.find (is_link uid mid) (user_meetings db).

(** [select(Meeting).join(UserMeeting).filter(platform == p,
    platform_specific_id == n, UserMeeting.user_id == uid)], first row. *)
Definition find_meeting_of_user (p n : string) (uid : Z) (db : Database)
  : option Meeting :=
  List.find
    (fun m => has_key p n m
              && existsb (is_link uid (meeting_id m)) (user_meetings db))
    (meetings db).

(** [ORDER BY start_time]: a stable insertion sort on the rational offsets. *)
Fixpoint insert_by_start (t : Transcription) (l : list Transcription)
  : list Transcription :=
  match l with
  | [] => [t]
  | x :: l' =>
      if Qle_bool (start_time t) (start_time x)
      then t :: l
      else x :: insert_by_start t l'
  end.

Fixpoint order_by_start_time (l : list Transcription) : list Transcription :=
  match l with
  | [] => []
  | x :: l' => insert_by_start x (order_by_start_time l')
  end.

(** [select(Transcription).filter(meeting_id == mid).order_by(start_time)]. *)
Definition transcripts_of (mid : Z) (db : Database) : list Transcription :=
  order_by_start_time
    (List.filter (fun t => Z.eqb (tr_meeting_id t) mid) (transcriptions db)).

(** [TranscriptionSegment.from_orm]. *)
Definition from_orm (t : Transcription) : TranscriptionSegment :=
  {| seg_start_time := start_time t;
     seg_end_time := end_time t;
     seg_text := text t;
     seg_speaker := speaker t;
     seg_language := language t |}.

(** ** Exceptions *)

(** The exceptions the handlers raise or meet.  [SQLAlchemyError] stands for
    what a failed commit raises (an [IntegrityError] on a violated constraint,
    an [OperationalError] on a storage fault); [AttributeError] for a method
    called on [None]. *)
Inductive exn :=
| HTTPException (status_code : Z) (detail : string)
| VexaClientError (msg : string)
| SQLAlchemyError (msg : string)
| AttributeError (msg : string).

(** [str(e)], as the f-strings of the handlers format it. *)
Definition exn_str (e : exn) : string :=
  match e with
  | HTTPException _ detail => detail
  | VexaClientError msg => msg
  | SQLAlchemyError msg => msg
  | AttributeError msg => msg
  end.

(** What the framework answers: the status of an [HTTPException], 500 for any
    other exception that leaves the handler, the status of the route else. *)
Definition http_status {A} (success : Z) (r : exn + A) : Z :=
  match r with
  | inr _ => success
  | inl (HTTPException c _) => c
  | inl _ => 500
  end.

(** ** The upstream bot service *)

(** The dictionary [get_transcript] answers; [segments] is its only key read. *)
Record InfraTranscript := {
  segments : option (list TranscriptionSegment)
}.

(** The answers of the upstream service during one request: a failure is the
    message of the [VexaClientError] the client raises. *)
Record VexaClient := {
  vc_request_bot : string -> string -> string + gmap string json;
  vc_get_transcript : string -> string -> string + InfraTranscript;
  vc_delete_meeting : string -> string -> string + unit
}.

Inductive UpstreamCall :=
| CallRequestBot (p n : string)
| CallGetTranscript (p n : string)
| CallDeleteMeeting (p n : string).

(** ** The session and its unit of work *)

(** An object the session holds until the next flush: a new instance passed to
    [db.add], or the [data] of a loaded meeting after [flag_modified]. *)
Inductive Pending :=
| NewTranscription (mid : Z) (seg : TranscriptionSegment)
| NewUserMeeting (uid mid : Z)
| NewMeeting (p n st : string) (d : gmap string json)
| NewAPIToken (tok : string) (uid : Z)
| ModifiedMeetingData (mid : Z) (d : gmap string json).

Definition set_data (mid : Z) (d : gmap string json) (m : Meeting) : Meeting :=
  if Z.eqb (meeting_id m) mid
  then {| meeting_id := meeting_id m;
          platform := platform m;
          platform_specific_id := platform_specific_id m;
          status := status m;
          data := Some d |}
  else m.

Definition with_meetings (db : Database) (ms : list Meeting) : Database :=
  {| users := users db; api_tokens := api_tokens db; meetings := ms;
     user_meetings := user_meetings db; transcriptions := transcriptions db;
     token_seq := token_seq db; meeting_seq := meeting_seq db;
     user_meeting_seq := user_meeting_seq db;
     transcription_seq := transcription_seq db |}.

Definition insert_meeting (db : Database) (p n st : string)
    (d : gmap string json) : Database :=
  {| users := users db; api_tokens := api_tokens db;
     meetings := meetings db ++
       [{| meeting_id := meeting_seq db; platform := p;
           platform_specific_id := n; status := st; data := Some d |}];
     user_meetings := user_meetings db; transcriptions := transcriptions db;
     token_seq := token_seq db; meeting_seq := meeting_seq db + 1;
     user_meeting_seq := user_meeting_seq db;
     transcription_seq := transcription_seq db |}.

Definition insert_user_meeting (db : Database) (uid mid : Z) : Database :=
  {| users := users db; api_tokens := api_tokens db; meetings := meetings db;
     user_meetings := user_meetings db ++
       [{| um_id := user_meeting_seq db; um_user_id := uid;
           um_meeting_id := mid |}];
     transcriptions := transcriptions db;
     token_seq := token_seq db; meeting_seq := meeting_seq db;
     user_meeting_seq := user_meeting_seq db + 1;
     transcription_seq := transcription_seq db |}.

Definition insert_transcription (db : Database) (mid : Z)
    (seg : TranscriptionSegment) : Database :=
  {| users := users db; api_tokens := api_tokens db; meetings := meetings db;
     user_meetings := user_meetings db;
     transcriptions := transcriptions db ++
       [{| tr_id := transcription_seq db; tr_meeting_id := mid;
           start_time := seg_start_time seg; end_time := seg_end_time seg;
           text := seg_text seg; speaker := seg_speaker seg;
           language := seg_language seg |}];
     token_seq := token_seq db; meeting_seq := meeting_seq db;
     user_meeting_seq := user_meeting_seq db;
     transcription_seq := transcription_seq db + 1 |}.

Definition insert_token (db : Database) (tok : string) (uid : Z) : Database :=
  {| users := users db;
     api_tokens := api_tokens db ++
       [{| token_id := token_seq db; token := tok; token_user_id := uid |}];
     meetings := meetings db; user_meetings := user_meetings db;
     transcriptions := transcriptions db;
     token_seq := token_seq db + 1; meeting_seq := meeting_seq db;
     user_meeting_seq := user_meeting_seq db;
     transcription_seq := transcription_seq db |}.

(** One statement of a flush: the row is written, or the constraint it
    violates is reported. *)
Definition flush_one (sch : Schema) (op : Pending) (db : Database)
  : string + Database :=
  match op with
  | NewTranscription mid seg => inr (insert_transcription db mid seg)
  | NewUserMeeting uid mid =>
      if uq_user_meeting sch && existsb (is_link uid mid) (user_meetings db)
      then inl "IntegrityError: duplicate (user_id, meeting_id)"
      else inr (insert_user_meeting db uid mid)
  | NewMeeting p n st d =>
      if uq_natural_key sch && existsb (has_key p n) (meetings db)
      then inl "IntegrityError: duplicate (platform, platform_specific_id)"
      else inr (insert_meeting db p n st d)
  | NewAPIToken tok uid =>
      if fk_token_user sch
         && negb (existsb (fun u => Z.eqb (user_id u) uid) (users db))
      then inl "IntegrityError: api_tokens.user_id is not a user"
      else if uq_token sch
              && existsb (fun t => String.eqb (token t) tok) (api_tokens db)
      then inl "IntegrityError: duplicate token"
      else inr (insert_token db tok uid)
  | ModifiedMeetingData mid d =>
      inr (with_meetings db (set_data mid d <$> meetings db))
  end.

(** The flush of a unit of work, one statement after the other inside the
    transaction: the first violation aborts it. *)
Fixpoint flush (sch : Schema) (ops : list Pending) (db : Database)
  : string + Database :=
  match ops with
  | [] => inr db
  | op :: ops' =>
      match flush_one sch op db with
      | inl msg => inl msg
      | inr db' => flush sch ops' db'
      end
  end.

(** The state a handler runs in.  [w_faults] schedules the storage faults of
    the request: the n-th commit fails when its n-th entry is [true], and a
    commit beyond the schedule meets no fault. *)
Record World := {
  w_db : Database;
  w_session : list Pending;
  w_calls : list UpstreamCall;
  w_faults : list bool
}.

Definition M (A : Type) : Type := World -> (exn + A) * World.

Definition ret {A} (a : A) : M A := fun w => (inr a, w).

Definition bind {A B} (m : M A) (k : A -> M B) : M B :=
  fun w =>
    match m w with
    | (inl e, w') => (inl e, w')
    | (inr a, w') => k a w'
    end.

#[global] Instance M_ret : MRet M := @ret.
#[global] Instance M_bind : MBind M := fun A B k m => bind m k.

(** [raise e]. *)
Definition raise {A} (e : exn) : M A := fun w => (inl e, w).

(** [try: body  except Exception as e: handler e]. *)
Definition try_except {A} (body : M A) (handler : exn -> M A) : M A :=
  fun w =>
    match body w with
    | (inl e, w') => handler e w'
    | (inr a, w') => (inr a, w')
    end.

(** [await db.execute(select ...)] on the committed rows. *)
Definition query {A} (q : Database -> A) : M A :=
  fun w => (inr (q (w_db w)), w).

(** [db.add(obj)] and [attributes.flag_modified(obj, "data")]. *)
Definition db_add (op : Pending) : M unit :=
  fun w =>
    (inr tt,
     {| w_db := w_db w; w_session := w_session w ++ [op];
        w_calls := w_calls w; w_faults := w_faults w |}).

(** [await db.commit()]: the unit of work is flushed and committed as one
    transaction; on a fault or a violated constraint nothing of it reaches the
    database and the exception is raised. *)
Definition commit (sch : Schema) : M unit :=
  fun w =>
    match w_faults w with
    | true :: fs =>
        (inl (SQLAlchemyError "OperationalError"),
         {| w_db := w_db w; w_session := w_session w;
            w_calls := w_calls w; w_faults := fs |})
    | fs =>
        match flush sch (w_session w) (w_db w) with
        | inl msg =>
            (inl (SQLAlchemyError msg),
             {| w_db := w_db w; w_session := w_session w;
                w_calls := w_calls w; w_faults := tail fs |})
        | inr db' =>
            (inr tt,
             {| w_db := db'; w_session := [];
                w_calls := w_calls w; w_faults := tail fs |})
        end
    end.

(** [await db.rollback()]: the unit of work is dropped; committed rows stay. *)
Definition rollback : M unit :=
  fun w =>
    (inr tt,
     {| w_db := w_db w; w_session := [];
        w_calls := w_calls w; w_faults := w_faults w |}).

(** A call of the upstream client: logged, then answered or failed. *)
Definition upstream {A} (c : UpstreamCall) (answer : string + A) : M A :=
  fun w =>
    let w' := {| w_db := w_db w; w_session := w_session w;
                 w_calls := w_calls w ++ [c]; w_faults := w_faults w |} in
    match answer with
    | inl msg => (inl (VexaClientError msg), w')
    | inr a => (inr a, w')
    end.

(** A request: the handler runs in a fresh session of [get_db], which is
    closed when it returns or raises; what the request leaves is its answer,
    the committed database and the upstream calls it made. *)
Definition run {A} (h : M A) (db : Database) (faults : list bool)
  : (exn + A) * Database * list UpstreamCall :=
  let '(r, w) := h {| w_db := db; w_session := []; w_calls := [];
                      w_faults := faults |} in
  (r, w_db w, w_calls w).

(** [for x in xs: body x]. *)
Fixpoint for_each {A} (xs : list A) (body : A -> M unit) : M unit :=
  match xs with
  | [] => mret tt
  | x :: xs' => body x;; for_each xs' body
  end.

(** [await db.refresh(obj)] on an instance the last commit inserted: the
    session reads back its row, the newest of the table. *)
Definition refresh {A} (table : Database -> list A) : M A :=
  row ← query (fun db => last (table db));
  match row with
  | Some r => mret r
  | None => raise (SQLAlchemyError "InvalidRequestError: instance is not persistent")
  end.

(** ** [routers/bots.py] *)

Definition request_bot (sch : Schema) (infra : VexaClient)
    (meeting_data : MeetingCreate) (current_user : User) : M Meeting :=
  let p := value (mc_platform meeting_data) in
  let n := mc_native_meeting_id meeting_data in
  existing_meeting ← query (find_meeting p n);
  match existing_meeting with
  | Some existing_meeting =>
      link ← query (find_link (user_id current_user)
                              (meeting_id existing_meeting));
      match link with
      | None =>
          db_add (NewUserMeeting (user_id current_user)
                                 (meeting_id existing_meeting));;
          commit sch;;
          mret existing_meeting
      | Some _ => mret existing_meeting
      end
  | None =>
      infra_response ←
        try_except
          (upstream (CallRequestBot p n) (vc_request_bot infra p n))
          (fun e =>
             match e with
             | VexaClientError msg =>
                 raise (HTTPException 502 ("Infra API error: " ++ msg))
             | _ => raise e
             end);
      db_add (NewMeeting p n "active"
                (<["infra_meeting_id" := dict_get infra_response "id" JNull]>
                   {["is_live" := JBool true]}));;
      commit sch;;
      new_meeting ← refresh meetings;
      db_add (NewUserMeeting (user_id current_user) (meeting_id new_meeting));;
      commit sch;;
      mret new_meeting
  end.

(** ** [routers/webhooks.py] *)

(** [meeting.data] after the handler has set its two flags (an absent bag is
    first replaced by an empty one). *)
Definition archived_data (d : option (gmap string json)) : gmap string json :=
  <["transcript_cached" := JBool true]>
    (<["is_live" := JBool false]> (default ∅ d)).

Definition handle_webhook (sch : Schema) (infra : VexaClient)
    (payload : WebhookPayload) : M string :=
  let p := value (wp_platform payload) in
  let n := wp_native_meeting_id payload in
  meeting ← query (find_meeting p n);
  match meeting with
  | None => raise (HTTPException 404 "Meeting not found")
  | Some meeting =>
      try_except
        (final_transcript ←
           upstream (CallGetTranscript p n) (vc_get_transcript infra p n);
         for_each (default [] (segments final_transcript))
           (fun segment =>
              db_add (NewTranscription (meeting_id meeting) segment));;
         db_add (ModifiedMeetingData (meeting_id meeting)
                   (archived_data (data meeting)));;
         commit sch;;
         upstream (CallDeleteMeeting p n) (vc_delete_meeting infra p n))
        (fun e =>
           match e with
           | VexaClientError msg =>
               rollback;;
               raise (HTTPException 502 ("Infra API Error: " ++ msg))
           | _ =>
               rollback;;
               raise (HTTPException 500
                        ("Error processing webhook: " ++ exn_str e))
           end);;
      mret "Webhook processed successfully"
  end.

(** ** [routers/transcripts.py] *)

(** What [get_transcript] returns: the upstream answer as it is while the
    meeting is live, a [TranscriptionResponse] built from the cache else.
    [segments] is the only field of that schema: the other keyword arguments
    the handler passes to its constructor are not kept. *)
Inductive TranscriptAnswer :=
| InfraResponse (t : InfraTranscript)
| TranscriptionResponse (segs : list TranscriptionSegment).

Definition get_transcript (infra : VexaClient) (plat : Platform)
    (native_meeting_id : string) (current_user : User) : M TranscriptAnswer :=
  let p := value plat in
  meeting ← query (find_meeting_of_user p native_meeting_id
                                        (user_id current_user));
  match meeting with
  | None =>
      raise (HTTPException 404 "Meeting not found or you do not have access")
  | Some meeting =>
      match data meeting with
      | None =>
          raise (AttributeError "'NoneType' object has no attribute 'get'")
      | Some d =>
          if truthy (dict_get d "is_live" (JBool false))
          then
            try_except
              (infra_response ←
                 upstream (CallGetTranscript p native_meeting_id)
                          (vc_get_transcript infra p native_meeting_id);
               mret (InfraResponse infra_response))
              (fun e =>
                 raise (HTTPException 502 ("Infra API error: " ++ exn_str e)))
          else
            transcripts ← query (transcripts_of (meeting_id meeting));
            mret (TranscriptionResponse (from_orm <$> transcripts))
      end
  end.

(** ** [routers/admin.py] *)

Definition ascii_letters : string :=
  "abcdefghijklmnopqrstuvwxyzABCDEFGHIJKLMNOPQRSTUVWXYZ".

Definition digits : string := "0123456789".

(** [secrets.choice(seq)]: the element at a position drawn below [len(seq)];
    [r] is the entropy of the draw. *)
Definition choice (seq : string) (r : nat) : ascii :=
  match String.get (r mod String.length seq) seq with
  | Some c => c
  | None => "000"%char
  end.

(** [generate_secure_token(length)]; [rng i] is the entropy of the i-th draw. *)
Definition generate_secure_token (rng : nat -> nat) (length : nat) : string :=
  let alphabet := ascii_letters ++ digits in
  string_of_list_ascii
    (List.map (fun i => choice alphabet (rng i)) (List.seq 0 length)).

Definition create_token_for_user (sch : Schema) (rng : nat -> nat)
    (uid : Z) : M APIToken :=
  db_add (NewAPIToken (generate_secure_token rng 40) uid);;
  commit sch;;
  new_token ← refresh api_tokens;
  mret new_token.

(** ** Observations on a database *)

Definition natural_key (m : Meeting) : string * string :=
  (platform m, platform_specific_id m).

Definition link_pair (l : UserMeeting) : Z * Z :=
  (um_user_id l, um_meeting_id l).

(** Number of [Meeting] rows of a natural key. *)
Definition count_meetings (p n : string) (db : Database) : nat :=
  List.length (List.filter (has_key p n) (meetings db)).

(** Number of [UserMeeting] rows of a (user, meeting) pair. *)
Definition count_links (uid mid : Z) (db : Database) : nat :=
  List.length (List.filter (is_link uid mid) (user_meetings db)).

(** Number of [UserMeeting] rows that reference a meeting. *)
Definition count_links_to (mid : Z) (db : Database) : nat :=
  List.length
    (List.filter (fun l => Z.eqb (um_meeting_id l) mid) (user_meetings db)).

(** Number of [UserMeeting] rows that reference a meeting of a natural key. *)
Definition count_links_of_key (p n : string) (db : Database) : nat :=
  List.length
    (List.filter
       (fun l => existsb (fun m => has_key p n m
                                   && Z.eqb (meeting_id m) (um_meeting_id l))
                         (meetings db))
       (user_meetings db)).

(** The cached segments of a meeting, in insertion order. *)
Definition segments_of (mid : Z) (db : Database) : list TranscriptionSegment :=
  from_orm <$>
    List.filter (fun t => Z.eqb (tr_meeting_id t) mid) (transcriptions db).

(** The archived state of a meeting: both flags of its attribute bag. *)
Definition archived (m : Meeting) : Prop :=
  exists d, data m = Some d
            /\ d !! "is_live" = Some (JBool false)
            /\ d !! "transcript_cached" = Some (JBool true).

(** The invariant of the data model that sequential requests maintain: the
    natural key and the (user, meeting) pair are unique, and the identifiers
    of meetings, stored or referenced by a link, were handed out by the
    sequence. *)
Record db_wf (db : Database) : Prop := {
  wf_natural_key : NoDup (natural_key <$> meetings db);
  wf_meeting_seq : Forall (fun m => meeting_id m < meeting_seq db) (meetings db);
  wf_user_meeting : NoDup (link_pair <$> user_meetings db);
  wf_link_meeting :
    Forall (fun l => um_meeting_id l < meeting_seq db) (user_meetings db)
}.

(** The state a finalization commits: the segments appended for the meeting,
    then its attribute bag replaced. *)
Definition append_segments (db : Database) (mid : Z)
    (segs : list TranscriptionSegment) : Database :=
  fold_left (fun db seg => insert_transcription db mid seg) segs db.

Definition archive (db : Database) (m : Meeting)
    (segs : list TranscriptionSegment) : Database :=
  let db' := append_segments db (meeting_id m) segs in
  with_meetings db'
    (set_data (meeting_id m) (archived_data (data m)) <$> meetings db').

(** What "fully applied" means for a finalization of meeting [m] that fetched
    the segments [segs], between the databases before and after: the rows
    appended to the transcript table are those segments, under the identifier
    of [m], and the natural key now leads to the same meeting, archived. *)
Definition fully_applied (p n : string) (m : Meeting)
    (segs : list TranscriptionSegment) (db db' : Database) : Prop :=
  (exists rows,
      transcriptions db' = (transcriptions db ++ rows)%list
      /\ from_orm <$> rows = segs
      /\ Forall (fun t => tr_meeting_id t = meeting_id m) rows)
  /\ (exists m',
         find_meeting p n db' = Some m'
         /\ meeting_id m' = meeting_id m
         /\ archived m').

(** The row [request_bot] inserts for a new meeting, under the identifier the
    sequence hands out. *)
Definition new_meeting_row (db : Database) (p n : string)
    (infra_response : gmap string json) : Meeting :=
  {| meeting_id := meeting_seq db; platform := p; platform_specific_id := n;
     status := "active";
     data := Some (<["infra_meeting_id" := dict_get infra_response "id" JNull]>
                     {["is_live" := JBool true]}) |}.

(** The database after the first commit of the creation path. *)
Definition created (db : Database) (p n : string)
    (infra_response : gmap string json) : Database :=
  insert_meeting db p n "active"
    (<["infra_meeting_id" := dict_get infra_response "id" JNull]>
       {["is_live" := JBool true]}).

(** Ascending order of start offsets, on rows and on response segments. *)
Definition start_le (a b : Transcription) : Prop :=
  (start_time a <= start_time b)%Q.

Definition seg_le (a b : TranscriptionSegment) : Prop :=
  (seg_start_time a <= seg_start_time b)%Q.

(** The characters of an opaque token: ASCII letters and digits. *)
Definition is_alnum (c : ascii) : bool :=
  let k := nat_of_ascii c in
  ((48 <=? k) && (k <=? 57) || (65 <=? k) && (k <=? 90)
   || (97 <=? k) && (k <=? 122))%nat.

(** Projections of what a request leaves. *)
Definition answer {A} (x : (exn + A) * Database * list UpstreamCall)
  : exn + A := x.1.1.

Definition final_db {A} (x : (exn + A) * Database * list UpstreamCall)
  : Database := x.1.2.

Definition upstream_calls {A} (x : (exn + A) * Database * list UpstreamCall)
  : list UpstreamCall := x.2.

(** ** Concrete requests, for the examples *)

Module Ex.
Definition sch : Schema :=
  {| fk_token_user := true; uq_token := true;
     uq_natural_key := true; uq_user_meeting := true |}.

Definition U1 : User := {| user_id := 1; user_email := "u1@example.com" |}.
Definition U2 : User := {| user_id := 2; user_email := "u2@example.com" |}.
Definition U3 : User := {| user_id := 3; user_email := "u3@example.com" |}.

Definition db0 : Database :=
  {| users := [U1; U2; U3]; api_tokens := []; meetings := [];
     user_meetings := []; transcriptions := [];
     token_seq := 1; meeting_seq := 1; user_meeting_seq := 1;
     transcription_seq := 1 |}.

Definition seg5 : TranscriptionSegment :=
  {| seg_start_time := 5; seg_end_time := 6; seg_text := "second";
     seg_speaker := None; seg_language := None |}.

Definition seg1 : TranscriptionSegment :=
  {| seg_start_time := 1; seg_end_time := 2; seg_text := "first";
     seg_speaker := Some "Ada"; seg_language := Some "en" |}.

Definition transcript : InfraTranscript :=
  {| segments := Some [seg5; seg1] |}.

Definition infra : VexaClient :=
  {| vc_request_bot := fun _ _ => inr {["id" := JInt 77]};
     vc_get_transcript := fun _ _ => inr transcript;
     vc_delete_meeting := fun _ _ => inr tt |}.

Definition infra_down : VexaClient :=
  {| vc_request_bot := fun _ _ => inl "503 Service Unavailable";
     vc_get_transcript := fun _ _ => inl "503 Service Unavailable";
     vc_delete_meeting := fun _ _ => inl "503 Service Unavailable" |}.

Definition infra_cleanup_fails : VexaClient :=
  {| vc_request_bot := fun _ _ => inr {["id" := JInt 77]};
     vc_get_transcript := fun _ _ => inr transcript;
     vc_delete_meeting := fun _ _ => inl "404 Not Found" |}.

Definition meeting_data : MeetingCreate :=
  {| mc_platform := google_meet; mc_native_meeting_id := "abc-123" |}.

Definition payload : WebhookPayload :=
  {| wp_platform := google_meet; wp_native_meeting_id := "abc-123" |}.

(** [U1] has requested a bot for the meeting: it is live. *)
Definition db_live : Database :=
  final_db (run (request_bot sch infra meeting_data U1) db0 []).

(** Then [U2] has requested the same meeting. *)
Definition db_shared : Database :=
  final_db (run (request_bot sch infra meeting_data U2) db_live []).

(** Then the webhook has finalized it. *)
Definition db_archived : Database :=
  final_db (run (handle_webhook sch infra payload) db_shared []).

Definition the_meeting : Meeting :=
  {| meeting_id := 1; platform := "google_meet";
     platform_specific_id := "abc-123"; status := "active";
     data := Some (<["infra_meeting_id" := JInt 77]>
                     {["is_live" := JBool true]}) |}.
End Ex.

(** ** [core/auth.py] and the guards of [routers/admin.py] *)

(** [not s] on an optional string: [None] and the empty string are falsy. *)
Definition not_str (s : option string) : bool :=
  match s with
  | None => true
  | Some s => String.eqb s ""
  end.

(** [a != b] on optional strings. *)
Definition str_ne (a b : option string) : bool :=
  match a, b with
  | None, None => false
  | Some a, Some b => negb (String.eqb a b)
  | _, _ => true
  end.

(** [select(APIToken).where(APIToken.token == api_key)], first row. *)
Definition find_token (api_key : string) (db : Database) : option APIToken :=
  List.find (fun t => String.eqb (token t) api_key) (api_tokens db).

(** The relationship [APIToken.user], loaded with the token: the user row
    the foreign key designates, if there is one. *)
Definition token_owner (t : APIToken) (db : Database) : option User :=
  List.find (fun u => Z.eqb (user_id u) (token_user_id t)) (users db).

(** [get_current_user]; [api_key] is the [X-API-Key] header, [None] when the
    request carries none. *)
Definition get_current_user (api_key : option string) : M User :=
  if not_str api_key
  then raise (HTTPException 401 "Missing API Key")
  else
    db_token ← query (fun db => api_key ≫= fun key => find_token key db);
    match db_token with
    | None => raise (HTTPException 403 "Invalid API Key")
    | Some db_token =>
        user ← query (token_owner db_token);
        match user with
        | None => raise (HTTPException 403 "Invalid API Key")
        | Some user => mret user
        end
    end.

(** [verify_admin_token]: [ADMIN_API_TOKEN] is what the environment held when
    the module was loaded, [admin_api_key] the [X-Admin-API-Key] header.  The
    function returns nothing; its log lines are not kept. *)
Definition verify_admin_token (ADMIN_API_TOKEN admin_api_key : option string)
  : exn + unit :=
  if not_str ADMIN_API_TOKEN
  then inl (HTTPException 500
              "Admin authentication is not configured on the server.")
  else if not_str admin_api_key || str_ne admin_api_key ADMIN_API_TOKEN
  then inl (HTTPException 403 "Invalid or missing admin token.")
  else inr tt.

(** ** More of [routers/admin.py] *)

(** [get_user]: the user of an id with the tokens [selectinload] fetches for
    it, or 404. *)
Definition get_user (uid : Z) : M (User * list APIToken) :=
  user ← query (fun db =>
                  List.find (fun u => Z.eqb (user_id u) uid) (users db));
  match user with
  | None => raise (HTTPException 404 "User not found")
  | Some user =>
      tokens ← query (fun db =>
                        List.filter
                          (fun t => Z.eqb (token_user_id t) (user_id user))
                          (api_tokens db));
      mret (user, tokens)
  end.

(** [delete(APIToken).where(APIToken.id == token_id)] on the rows of a
    transaction. *)
Definition without_token (db : Database) (tid : Z) : Database :=
  {| users := users db;
     api_tokens :=
       List.filter (fun t => negb (Z.eqb (token_id t) tid)) (api_tokens db);
     meetings := meetings db; user_meetings := user_meetings db;
     transcriptions := transcriptions db;
     token_seq := token_seq db; meeting_seq := meeting_seq db;
     user_meeting_seq := user_meeting_seq db;
     transcription_seq := transcription_seq db |}.

(** [await db.execute(stmt)] for that statement: it runs in the transaction
    of the session, on the committed rows since the session of [delete_token]
    holds nothing else.  It answers the [rowcount] of the statement together
    with the rows of the transaction, which the database takes at the commit
    and not before. *)
Definition execute_delete_token (tid : Z) : M (nat * Database) :=
  query (fun db =>
           (List.length
              (List.filter (fun t => Z.eqb (token_id t) tid) (api_tokens db)),
            without_token db tid)).

(** [await db.commit()] of a transaction that executed a statement: a commit
    as before, after which the rows of the transaction [tx] are the
    committed ones. *)
Definition commit_transaction (sch : Schema) (tx : Database) : M unit :=
  fun w =>
    match commit sch w with
    | (inl e, w') => (inl e, w')
    | (inr _, w') =>
        (inr tt,
         {| w_db := tx; w_session := w_session w';
            w_calls := w_calls w'; w_faults := w_faults w' |})
    end.

Definition delete_token (sch : Schema) (tid : Z) : M unit :=
  '(rowcount, tx) ← execute_delete_token tid;
  if Nat.eqb rowcount 0
  then raise (HTTPException 404 "Token not found")
  else commit_transaction sch tx.

(** ** More of [routers/transcripts.py] *)

(** [select(Meeting).join(UserMeeting).filter(UserMeeting.user_id == uid)]:
    one row for each pair of a meeting and a link of the user to it. *)
Definition meetings_of_user (uid : Z) (db : Database) : list Meeting :=
  flat_map
    (fun m =>
       (fun _ => m) <$>
         List.filter (is_link uid (meeting_id m)) (user_meetings db))
    (meetings db).

Definition get_meetings (current_user : User) : M (list Meeting) :=
  query (meetings_of_user (user_id current_user)).

(** ** Sequences of requests *)

(** A request to one of the handlers that write, or to [get_transcript], with
    what the upstream service answers while it runs. *)
Inductive Request :=
| RequestBot (infra : VexaClient) (meeting_data : MeetingCreate)
    (current_user : User)
| Webhook (infra : VexaClient) (payload : WebhookPayload)
| GetTranscript (infra : VexaClient) (plat : Platform) (n : string)
    (current_user : User)
| CreateToken (rng : nat -> nat) (uid : Z)
| DeleteToken (tid : Z).

(** The database a request leaves, under the storage faults it meets. *)
Definition serve (sch : Schema) (rq : Request) (faults : list bool)
    (db : Database) : Database :=
  match rq with
  | RequestBot infra meeting_data current_user =>
      final_db (run (request_bot sch infra meeting_data current_user)
                    db faults)
  | Webhook infra payload =>
      final_db (run (handle_webhook sch infra payload) db faults)
  | GetTranscript infra plat n current_user =>
      final_db (run (get_transcript infra plat n current_user) db faults)
  | CreateToken rng uid =>
      final_db (run (create_token_for_user sch rng uid) db faults)
  | DeleteToken tid =>
      final_db (run (delete_token sch tid) db faults)
  end.

(** Requests served one after the other. *)
Definition serve_all (sch : Schema) (rqs : list (Request * list bool))
    (db : Database) : Database :=
  fold_left (fun db rq => serve sch rq.1 rq.2 db) rqs db.

(** A meeting row kept in place: same identifier, natural key and
    [status]; its attribute bag is the one it had, or holds the two flags of
    an archival. *)
Definition kept (x y : Meeting) : Prop :=
  meeting_id y = meeting_id x
  /\ natural_key y = natural_key x
  /\ status y = status x
  /\ (data y = data x \/ archived y).

(** No cached segment references an identifier the sequence of meetings has
    yet to hand out. *)
Definition transcripts_wf (db : Database) : Prop :=
  Forall (fun t => tr_meeting_id t < meeting_seq db) (transcriptions db).

(** ** More concrete requests *)

Module Ex2.
(** The entropy of the draws of a token. *)
Definition rng (i : nat) : nat := (7 * i + 3)%nat.

Definition rng' (i : nat) : nat := (11 * i + 5)%nat.

(** A token has been issued to [Ex.U1], then one to [Ex.U2]. *)
Definition db_token : Database :=
  final_db (run (create_token_for_user Ex.sch rng 1) Ex.db0 []).

Definition db_tokens : Database :=
  final_db (run (create_token_for_user Ex.sch rng' 2) db_token []).

Definition key1 : string := generate_secure_token rng 40.

Definition key2 : string := generate_secure_token rng' 40.

(** An upstream answer with no identifier, and a transcript with no
    [segments] key. *)
Definition infra_bare : VexaClient :=
  {| vc_request_bot := fun _ _ => inr ∅;
     vc_get_transcript := fun _ _ => inr {| segments := None |};
     vc_delete_meeting := fun _ _ => inr tt |}.

(** A meeting row whose attribute bag is NULL, linked to [Ex.U1]. *)
Definition db_null_data : Database :=
  {| users := [Ex.U1]; api_tokens := [];
     meetings := [{| meeting_id := 1; platform := "zoom";
                     platform_specific_id := "z-9"; status := "active";
                     data := None |}];
     user_meetings := [{| um_id := 1; um_user_id := 1; um_meeting_id := 1 |}];
     transcriptions := [];
     token_seq := 1; meeting_seq := 2; user_meeting_seq := 2;
     transcription_seq := 1 |}.

(** The same with an empty attribute bag. *)
Definition db_empty_data : Database :=
  {| users := [Ex.U1]; api_tokens := [];
     meetings := [{| meeting_id := 1; platform := "zoom";
                     platform_specific_id := "z-9"; status := "active";
                     data := Some ∅ |}];
     user_meetings := [{| um_id := 1; um_user_id := 1; um_meeting_id := 1 |}];
     transcriptions := [];
     token_seq := 1; meeting_seq := 2; user_meeting_seq := 2;
     transcription_seq := 1 |}.
End Ex2.

(** Steps of a handler: the operations of the monad are unfolded and the
    request is run up to its first query or upstream answer. *)
Ltac run_handler h :=
  unfold run, h, mbind, M_bind, bind, query, try_except, upstream; simpl.

Ltac run_writer h :=
  unfold run, h, refresh, mbind, M_bind, bind, query, try_except, upstream,
    db_add, commit; simpl.

(** ** Lists and keys *)

Lemma find_none_existsb {A} (f : A -> bool) (l : list A) :
  List.find f l = None -> existsb f l = false.
Proof.
  induction l as [|x l IH]; simpl; [reflexivity|].
  destruct (f x); [discriminate|]. exact IH.
Qed.

Lemma find_some_existsb {A} (f : A -> bool) (l : list A) x :
  List.find f l = Some x -> existsb f l = true.
Proof.
  induction l as [|y l IH]; simpl; [discriminate|].
  destruct (f y); [reflexivity|]. exact IH.
Qed.

Lemma find_some_holds {A} (f : A -> bool) (l : list A) x :
  List.find f l = Some x -> f x = true /\ x ∈ l.
Proof.
  induction l as [|y l IH]; simpl; [discriminate|].
  destruct (f y) eqn:E.
  - intros [= <-]. split; [exact E | left].
  - intros H. destruct (IH H) as [? ?]. split; [assumption | by right].
Qed.

Lemma filter_length_find_none {A} (f : A -> bool) (l : list A) :
  List.find f l = None -> List.length (List.filter f l) = 0%nat.
Proof.
  induction l as [|y l IH]; simpl; [reflexivity|].
  destruct (f y); [discriminate|]. exact IH.
Qed.

Lemma filter_length_find_some {A} (f : A -> bool) (l : list A) x :
  List.find f l = Some x -> (1 <= List.length (List.filter f l))%nat.
Proof.
  induction l as [|y l IH]; simpl; [discriminate|].
  destruct (f y); simpl; [lia|]. exact IH.
Qed.

Lemma filter_length_app {A} (f : A -> bool) (l1 l2 : list A) :
  List.length (List.filter f (l1 ++ l2))
  = (List.length (List.filter f l1) + List.length (List.filter f l2))%nat.
Proof. rewrite List.filter_app, List.length_app. reflexivity. Qed.

(** Rows whose keys are pairwise distinct: at most one matches a key. *)
Lemma NoDup_key_count {A K} (key : A -> K) (f : A -> bool) (k : K)
    (l : list A) :
  (forall x, f x = true -> key x = k) ->
  NoDup (key <$> l) ->
  (List.length (List.filter f l) <= 1)%nat.
Proof.
  intros Hf. induction l as [|x l IH]; simpl; [lia|].
  intros Hnd. apply NoDup_cons in Hnd as [Hx Hnd].
  destruct (f x) eqn:E; simpl; [|auto].
  assert (List.filter f l = []) as ->; [|simpl; lia].
  apply Hf in E.
  clear IH Hnd. induction l as [|y l IH]; simpl; [reflexivity|].
  destruct (f y) eqn:Ey.
  - exfalso. apply Hx. apply Hf in Ey. rewrite E, <- Ey. simpl. left.
  - apply IH. intros Hin. apply Hx. simpl. by right.
Qed.

Lemma has_key_natural_key p n m :
  has_key p n m = true <-> natural_key m = (p, n).
Proof.
  unfold has_key, natural_key. rewrite andb_true_iff, !String.eqb_eq.
  split; [intros [-> ->]; reflexivity | intros [= -> ->]; auto].
Qed.

Lemma is_link_link_pair uid mid l :
  is_link uid mid l = true <-> link_pair l = (uid, mid).
Proof.
  unfold is_link, link_pair. rewrite andb_true_iff, !Z.eqb_eq.
  split; [intros [-> ->]; reflexivity | intros [= -> ->]; auto].
Qed.

Lemma has_key_set_data p n mid d m :
  has_key p n (set_data mid d m) = has_key p n m.
Proof. unfold set_data. destruct (Z.eqb _ _); reflexivity. Qed.

Lemma find_fmap_set_data p n mid d (ms : list Meeting) :
  List.find (has_key p n) (set_data mid d <$> ms)
  = set_data mid d <$> List.find (has_key p n) ms.
Proof.
  induction ms as [|m ms IH]; simpl; [reflexivity|].
  rewrite has_key_set_data. destruct (has_key p n m); [reflexivity | exact IH].
Qed.

Lemma natural_key_fmap_set_data mid d (ms : list Meeting) :
  natural_key <$> (set_data mid d <$> ms) = natural_key <$> ms.
Proof.
  induction ms as [|m ms IH]; simpl; [reflexivity|]. f_equal; [|exact IH].
  unfold set_data. destruct (Z.eqb _ _); reflexivity.
Qed.

(** A unique natural key is held by exactly one row. *)
Lemma count_meetings_unique p n db m :
  db_wf db -> find_meeting p n db = Some m -> count_meetings p n db = 1%nat.
Proof.
  intros Hwf Hfind. unfold count_meetings.
  pose proof (filter_length_find_some _ _ _ Hfind).
  pose proof (NoDup_key_count natural_key (has_key p n) (p, n) (meetings db)
                (fun x => proj1 (has_key_natural_key p n x))
                (wf_natural_key db Hwf)).
  lia.
Qed.

(** A link references no identifier the sequence has yet to hand out. *)
Lemma no_link_to_next db :
  db_wf db ->
  List.filter (fun l => Z.eqb (um_meeting_id l) (meeting_seq db))
    (user_meetings db) = [].
Proof.
  intros Hwf. pose proof (wf_link_meeting db Hwf) as H.
  induction H as [|l ls Hl _ IH]; simpl; [reflexivity|].
  destruct (Z.eqb_spec (um_meeting_id l) (meeting_seq db)); [lia | exact IH].
Qed.

(** ** The unit of work *)

Lemma for_each_db_add {A} (f : A -> Pending) (xs : list A) (w : World) :
  for_each xs (fun x => db_add (f x)) w
  = (inr tt,
     {| w_db := w_db w; w_session := w_session w ++ (f <$> xs);
        w_calls := w_calls w; w_faults := w_faults w |}).
Proof.
  revert w. induction xs as [|x xs IH]; intros w; simpl.
  - rewrite app_nil_r. by destruct w.
  - unfold mbind, M_bind, bind, db_add at 1. rewrite IH. simpl.
    by rewrite <- app_assoc.
Qed.

Lemma flush_app sch (ops1 ops2 : list Pending) db :
  flush sch (ops1 ++ ops2) db
  = match flush sch ops1 db with
    | inl msg => inl msg
    | inr db' => flush sch ops2 db'
    end.
Proof.
  revert db. induction ops1 as [|op ops1 IH]; intros db; simpl; [reflexivity|].
  destruct (flush_one sch op db); [reflexivity | apply IH].
Qed.

Lemma flush_new_transcriptions sch mid segs db :
  flush sch (NewTranscription mid <$> segs) db
  = inr (append_segments db mid segs).
Proof.
  revert db. induction segs as [|seg segs IH]; intros db; simpl;
    [reflexivity | apply IH].
Qed.

(** The unit of work of a finalization always flushes: it violates none of
    the constraints. *)
Lemma flush_finalize sch m segs db :
  flush sch ((NewTranscription (meeting_id m) <$> segs)
               ++ [ModifiedMeetingData (meeting_id m) (archived_data (data m))])
        db
  = inr (archive db m segs).
Proof. rewrite flush_app, flush_new_transcriptions. reflexivity. Qed.

Lemma append_segments_meetings db mid segs :
  meetings (append_segments db mid segs) = meetings db.
Proof.
  revert db. induction segs as [|seg segs IH]; intros db; simpl;
    [reflexivity | by rewrite IH].
Qed.

Lemma append_segments_user_meetings db mid segs :
  user_meetings (append_segments db mid segs) = user_meetings db.
Proof.
  revert db. induction segs as [|seg segs IH]; intros db; simpl;
    [reflexivity | by rewrite IH].
Qed.

Lemma append_segments_meeting_seq db mid segs :
  meeting_seq (append_segments db mid segs) = meeting_seq db.
Proof.
  revert db. induction segs as [|seg segs IH]; intros db; simpl;
    [reflexivity | by rewrite IH].
Qed.

(** The rows a finalization appends carry the upstream segments, in their
    upstream order, under the identifier of the meeting. *)
Lemma append_segments_transcriptions db mid segs :
  exists rows,
    transcriptions (append_segments db mid segs)
    = (transcriptions db ++ rows)%list
    /\ from_orm <$> rows = segs
    /\ Forall (fun t => tr_meeting_id t = mid) rows.
Proof.
  revert db. induction segs as [|seg segs IH]; intros db; simpl.
  - exists []. by rewrite app_nil_r.
  - destruct (IH (insert_transcription db mid seg)) as (rows & Ht & Hs & Hm).
    eexists (_ :: rows). simpl in Ht. rewrite <- app_assoc in Ht.
    split; [exact Ht|]. split.
    + rewrite fmap_cons, Hs. by destruct seg.
    + by constructor.
Qed.

Lemma segments_of_rows mid (rows : list Transcription) :
  Forall (fun t => tr_meeting_id t = mid) rows ->
  from_orm <$> List.filter (fun t => Z.eqb (tr_meeting_id t) mid) rows
  = from_orm <$> rows.
Proof.
  induction 1 as [|t rows Ht _ IH]; [reflexivity|].
  cbn [List.filter]. rewrite Ht, Z.eqb_refl, !fmap_cons. f_equal. exact IH.
Qed.

(** ** [handle_webhook], path by path *)

Section Finalize.
Context (sch : Schema) (infra : VexaClient) (plat : Platform) (n : string).

#[local] Abbreviation payload :=
  {| wp_platform := plat; wp_native_meeting_id := n |}.

Lemma handle_webhook_unknown db faults :
  find_meeting (value plat) n db = None ->
  run (handle_webhook sch infra payload) db faults
  = (inl (HTTPException 404 "Meeting not found"), db, []).
Proof.
  intros Hfind. run_handler handle_webhook. rewrite Hfind. reflexivity.
Qed.

Lemma handle_webhook_upstream_fails db faults m msg :
  find_meeting (value plat) n db = Some m ->
  vc_get_transcript infra (value plat) n = inl msg ->
  run (handle_webhook sch infra payload) db faults
  = (inl (HTTPException 502 ("Infra API Error: " ++ msg)), db,
     [CallGetTranscript (value plat) n]).
Proof.
  intros Hfind Hget.
  run_handler handle_webhook. rewrite Hfind, Hget. reflexivity.
Qed.

Lemma handle_webhook_commit_fails db faults m t :
  find_meeting (value plat) n db = Some m ->
  vc_get_transcript infra (value plat) n = inr t ->
  run (handle_webhook sch infra payload) db (true :: faults)
  = (inl (HTTPException 500 "Error processing webhook: OperationalError"),
     db, [CallGetTranscript (value plat) n]).
Proof.
  intros Hfind Hget.
  run_handler handle_webhook. rewrite Hfind, Hget. rewrite for_each_db_add.
  reflexivity.
Qed.

Lemma handle_webhook_commits db faults m t :
  find_meeting (value plat) n db = Some m ->
  vc_get_transcript infra (value plat) n = inr t ->
  hd false faults = false ->
  run (handle_webhook sch infra payload) db faults
  = (match vc_delete_meeting infra (value plat) n with
     | inl msg => inl (HTTPException 502 ("Infra API Error: " ++ msg))
     | inr _ => inr "Webhook processed successfully"
     end,
     archive db m (default [] (segments t)),
     [CallGetTranscript (value plat) n; CallDeleteMeeting (value plat) n]).
Proof.
  intros Hfind Hget Hok.
  run_handler handle_webhook. rewrite Hfind, Hget. rewrite for_each_db_add.
  unfold db_add, commit. simpl.
  destruct faults as [|[] fs]; simpl in *; try discriminate;
    rewrite flush_finalize; destruct (vc_delete_meeting infra (value plat) n);
    reflexivity.
Qed.
End Finalize.

(** ** What a committed finalization leaves *)

Lemma archived_data_is_live d :
  archived_data d !! "is_live" = Some (JBool false).
Proof.
  unfold archived_data. rewrite lookup_insert_ne by discriminate.
  apply lookup_insert_eq.
Qed.

Lemma archived_data_transcript_cached d :
  archived_data d !! "transcript_cached" = Some (JBool true).
Proof. unfold archived_data. apply lookup_insert_eq. Qed.

(** Keys other than the two flags keep their value. *)
Lemma archived_data_other d k :
  k <> "is_live" -> k <> "transcript_cached" ->
  archived_data (Some d) !! k = d !! k.
Proof.
  intros H1 H2. unfold archived_data. simpl.
  rewrite !lookup_insert_ne by congruence. reflexivity.
Qed.

Lemma archive_find p n db m segs :
  find_meeting p n db = Some m ->
  exists m',
    find_meeting p n (archive db m segs) = Some m'
    /\ meeting_id m' = meeting_id m
    /\ natural_key m' = natural_key m
    /\ status m' = status m
    /\ archived m'.
Proof.
  intros Hfind. unfold find_meeting, archive. simpl.
  rewrite append_segments_meetings, find_fmap_set_data.
  unfold find_meeting in Hfind. rewrite Hfind. simpl.
  eexists. split; [reflexivity|]. unfold set_data. rewrite Z.eqb_refl. simpl.
  repeat split.
  exists (archived_data (data m)).
  auto using archived_data_is_live, archived_data_transcript_cached.
Qed.

Lemma archive_transcriptions db m segs :
  exists rows,
    transcriptions (archive db m segs) = (transcriptions db ++ rows)%list
    /\ from_orm <$> rows = segs
    /\ Forall (fun t => tr_meeting_id t = meeting_id m) rows.
Proof. unfold archive. simpl. apply append_segments_transcriptions. Qed.

Lemma archive_segments_of db m segs :
  segments_of (meeting_id m) (archive db m segs)
  = (segments_of (meeting_id m) db ++ segs)%list.
Proof.
  destruct (archive_transcriptions db m segs) as (rows & Ht & Hs & Hm).
  unfold segments_of. rewrite Ht, List.filter_app, fmap_app.
  by rewrite (segments_of_rows _ _ Hm), Hs.
Qed.

Lemma archive_user_meetings db m segs :
  user_meetings (archive db m segs) = user_meetings db.
Proof. unfold archive. simpl. apply append_segments_user_meetings. Qed.

Example request_bot_first :
  answer (run (request_bot Ex.sch Ex.infra Ex.meeting_data Ex.U1) Ex.db0 [])
  = inr Ex.the_meeting.
Proof. vm_compute. reflexivity. Qed.

(** The example of the specification: a second user requesting the same
    meeting gets the same row with no upstream call, and the database then
    holds one meeting and the links of both users. *)
Example two_users_share_the_meeting :
  let r := run (request_bot Ex.sch Ex.infra_down Ex.meeting_data Ex.U2)
               Ex.db_live [] in
  answer r = inr Ex.the_meeting
  /\ upstream_calls r = []
  /\ meeting_id <$> meetings (final_db r) = [1]
  /\ link_pair <$> user_meetings (final_db r) = [(1, 1); (2, 1)].
Proof. vm_compute. auto. Qed.

(** A finalization for a natural key that no meeting has: 404, nothing
    written, nothing asked upstream. *)
Example finalize_unknown_meeting :
  run (handle_webhook Ex.sch Ex.infra Ex.payload) Ex.db0 []
  = (inl (HTTPException 404 "Meeting not found"), Ex.db0, []).
Proof. vm_compute. reflexivity. Qed.

(** The example of the specification: segments fetched at 5.0 then 1.0 are
    stored in that order and read back with 1.0 first. *)
Example finalize_then_read :
  segments_of 1 Ex.db_archived = [Ex.seg5; Ex.seg1]
  /\ answer (run (get_transcript Ex.infra google_meet "abc-123" Ex.U1)
                 Ex.db_archived [])
     = inr (TranscriptionResponse [Ex.seg1; Ex.seg5]).
Proof. vm_compute. auto. Qed.

Example find_meeting_live :
  find_meeting "google_meet" "abc-123" Ex.db_live = Some Ex.the_meeting.
Proof. vm_compute. reflexivity. Qed.

(** ** Finalization *)

Lemma archive_fully_applied p n db m segs :
  find_meeting p n db = Some m ->
  fully_applied p n m segs db (archive db m segs).
Proof.
  intros Hfind. split; [apply archive_transcriptions|].
  destruct (archive_find p n db m segs Hfind) as (m' & ? & ? & ? & ? & ?).
  eauto.
Qed.

(** C1. A finalization of a registered meeting is all or nothing on the
    database.  Either the fetch of the transcript or the commit fails, the
    caller gets an error and the database is the one before the request (no
    segment, attributes unchanged); or both succeed and the database holds
    every segment of the upstream transcript together with [is_live = false]
    and [transcript_cached = true] on the meeting.  No other state is left. *)
Theorem finalize_all_or_nothing sch infra payload db faults m :
  let p := value (wp_platform payload) in
  let n := wp_native_meeting_id payload in
  let r := run (handle_webhook sch infra payload) db faults in
  find_meeting p n db = Some m ->
  ((exists msg, vc_get_transcript infra p n = inl msg) \/ hd false faults = true)
  /\ final_db r = db
  /\ (exists e, answer r = inl e)
  \/
  (exists t,
      vc_get_transcript infra p n = inr t
      /\ hd false faults = false
      /\ fully_applied p n m (default [] (segments t)) db (final_db r)).
Proof.
  destruct payload as [plat n]. simpl. intros Hfind.
  destruct (vc_get_transcript infra (value plat) n) as [msg|t] eqn:Hget.
  - left. rewrite (handle_webhook_upstream_fails _ _ _ _ _ _ _ _ Hfind Hget).
    unfold final_db, answer. simpl. eauto 6.
  - destruct faults as [|[] fs].
    + right. exists t.
      rewrite (handle_webhook_commits _ _ _ _ _ [] _ _ Hfind Hget eq_refl).
      unfold final_db. simpl. auto using archive_fully_applied.
    + left. rewrite (handle_webhook_commit_fails _ _ _ _ _ _ _ _ Hfind Hget).
      unfold final_db, answer. simpl. eauto 6.
    + right. exists t.
      rewrite (handle_webhook_commits _ _ _ _ _ (false :: fs) _ _ Hfind Hget
                 eq_refl).
      unfold final_db. simpl. auto using archive_fully_applied.
Qed.

Lemma finalize_all_or_nothing_witness :
  find_meeting "google_meet" "abc-123" Ex.db_shared = Some Ex.the_meeting
  /\ (((exists msg, vc_get_transcript Ex.infra "google_meet" "abc-123" = inl msg)
       \/ hd false [] = true)
      /\ final_db (run (handle_webhook Ex.sch Ex.infra Ex.payload)
                       Ex.db_shared []) = Ex.db_shared
      /\ (exists e, answer (run (handle_webhook Ex.sch Ex.infra Ex.payload)
                                Ex.db_shared []) = inl e)
      \/
      (exists t,
          vc_get_transcript Ex.infra "google_meet" "abc-123" = inr t
          /\ hd false [] = false
          /\ fully_applied "google_meet" "abc-123" Ex.the_meeting
               (default [] (segments t)) Ex.db_shared
               (final_db (run (handle_webhook Ex.sch Ex.infra Ex.payload)
                              Ex.db_shared [])))).
Proof.
  split; [vm_compute; reflexivity|].
  apply (finalize_all_or_nothing Ex.sch Ex.infra Ex.payload Ex.db_shared []
           Ex.the_meeting).
  vm_compute. reflexivity.
Defined.

(** C4, as the specification states it, fails on a concrete finalization: the
    transcript is fetched, the archival commits, the upstream deletion fails,
    and the webhook caller is answered 502 and not the success message. *)
Lemma cleanup_failure_is_surfaced :
  let r := run (handle_webhook Ex.sch Ex.infra_cleanup_fails Ex.payload)
               Ex.db_shared [] in
  vc_delete_meeting Ex.infra_cleanup_fails "google_meet" "abc-123"
  = inl "404 Not Found"
  /\ fully_applied "google_meet" "abc-123" Ex.the_meeting [Ex.seg5; Ex.seg1]
       Ex.db_shared (final_db r)
  /\ answer r = inl (HTTPException 502 "Infra API Error: 404 Not Found")
  /\ ~ (exists ok, answer r = inr ok).
Proof.
  assert (find_meeting "google_meet" "abc-123" Ex.db_shared
          = Some Ex.the_meeting) as Hfind by (vm_compute; reflexivity).
  cbv zeta. unfold Ex.payload. split; [reflexivity|].
  rewrite (handle_webhook_commits Ex.sch Ex.infra_cleanup_fails google_meet
             "abc-123" Ex.db_shared [] Ex.the_meeting Ex.transcript Hfind
             eq_refl eq_refl).
  unfold final_db, answer. simpl. split.
  - apply (archive_fully_applied "google_meet" "abc-123" _ _ _ Hfind).
  - split; [reflexivity | intros [ok Hok]; discriminate].
Qed.

(** C4, amended.  When the archival has committed and only the upstream
    deletion fails, the handler answers 502 with the upstream message, and the
    committed archival stays: the rollback it performs finds nothing to undo. *)
Theorem cleanup_failure_keeps_archival sch infra payload db faults m t msg :
  let p := value (wp_platform payload) in
  let n := wp_native_meeting_id payload in
  let r := run (handle_webhook sch infra payload) db faults in
  find_meeting p n db = Some m ->
  vc_get_transcript infra p n = inr t ->
  hd false faults = false ->
  vc_delete_meeting infra p n = inl msg ->
  answer r = inl (HTTPException 502 ("Infra API Error: " ++ msg))
  /\ http_status 200 (answer r) = 502
  /\ final_db r = archive db m (default [] (segments t))
  /\ fully_applied p n m (default [] (segments t)) db (final_db r)
  /\ upstream_calls r = [CallGetTranscript p n; CallDeleteMeeting p n].
Proof.
  destruct payload as [plat n]. simpl. intros Hfind Hget Hok Hdel.
  rewrite (handle_webhook_commits _ _ _ _ _ _ _ _ Hfind Hget Hok), Hdel.
  unfold final_db, answer, upstream_calls. simpl.
  repeat split; auto; apply (archive_fully_applied _ _ _ _ _ Hfind).
Qed.

Lemma cleanup_failure_keeps_archival_witness :
  (find_meeting "google_meet" "abc-123" Ex.db_shared = Some Ex.the_meeting
   /\ vc_get_transcript Ex.infra_cleanup_fails "google_meet" "abc-123"
      = inr Ex.transcript
   /\ hd false [] = false
   /\ vc_delete_meeting Ex.infra_cleanup_fails "google_meet" "abc-123"
      = inl "404 Not Found")
  /\ answer (run (handle_webhook Ex.sch Ex.infra_cleanup_fails Ex.payload)
                 Ex.db_shared [])
     = inl (HTTPException 502 "Infra API Error: 404 Not Found")
  /\ segments_of 1 (final_db (run (handle_webhook Ex.sch Ex.infra_cleanup_fails
                                     Ex.payload) Ex.db_shared []))
     = [Ex.seg5; Ex.seg1].
Proof.
  assert (find_meeting "google_meet" "abc-123" Ex.db_shared
          = Some Ex.the_meeting) as Hfind by (vm_compute; reflexivity).
  split; [repeat split; exact Hfind|].
  destruct (cleanup_failure_keeps_archival Ex.sch Ex.infra_cleanup_fails
              Ex.payload Ex.db_shared [] Ex.the_meeting Ex.transcript
              "404 Not Found" Hfind eq_refl eq_refl eq_refl)
    as (Hr & _ & Hdb & _).
  split; [exact Hr|]. rewrite Hdb. vm_compute. reflexivity.
Defined.

(** C9. Finalization has no guard against a second delivery.  Once a first
    delivery has archived the meeting ([transcript_cached] is true), a second
    delivery of the same payload whose fetch returns the same transcript
    succeeds again and appends every segment once more: the cache of the
    meeting holds the upstream list twice. *)
Theorem finalize_redelivery_duplicates sch infra1 infra2 payload db f1 f2 m t :
  let p := value (wp_platform payload) in
  let n := wp_native_meeting_id payload in
  let segs := default [] (segments t) in
  let r1 := run (handle_webhook sch infra1 payload) db f1 in
  let r2 := run (handle_webhook sch infra2 payload) (final_db r1) f2 in
  find_meeting p n db = Some m ->
  vc_get_transcript infra1 p n = inr t ->
  vc_get_transcript infra2 p n = inr t ->
  hd false f1 = false ->
  hd false f2 = false ->
  (exists m1, find_meeting p n (final_db r1) = Some m1
              /\ meeting_id m1 = meeting_id m /\ archived m1)
  /\ segments_of (meeting_id m) (final_db r1)
     = (segments_of (meeting_id m) db ++ segs)%list
  /\ segments_of (meeting_id m) (final_db r2)
     = (segments_of (meeting_id m) db ++ segs ++ segs)%list
  /\ List.length (transcriptions (final_db r2))
     = (List.length (transcriptions (final_db r1)) + List.length segs)%nat.
Proof.
  destruct payload as [plat n]. cbn [wp_platform wp_native_meeting_id].
  intros Hfind Hget1 Hget2 Hok1 Hok2.
  unfold final_db.
  rewrite (handle_webhook_commits _ _ _ _ _ _ _ _ Hfind Hget1 Hok1).
  cbn [fst snd].
  destruct (archive_find _ _ _ _ (default [] (segments t)) Hfind)
    as (m1 & Hfind1 & Hid & _ & _ & Harch).
  rewrite (handle_webhook_commits _ _ _ _ _ _ _ _ Hfind1 Hget2 Hok2).
  cbn [fst snd].
  split; [eauto|]. split; [apply archive_segments_of|]. split.
  - rewrite <- Hid at 1. rewrite archive_segments_of, Hid, archive_segments_of.
    by rewrite <- app_assoc.
  - destruct (archive_transcriptions (archive db m (default [] (segments t)))
                m1 (default [] (segments t))) as (rows & -> & Hrows & _).
    rewrite List.length_app. f_equal. rewrite <- Hrows.
    by rewrite length_fmap.
Qed.

Lemma finalize_redelivery_duplicates_witness :
  segments_of 1 Ex.db_archived = [Ex.seg5; Ex.seg1]
  /\ segments_of 1
       (final_db (run (handle_webhook Ex.sch Ex.infra Ex.payload)
                      Ex.db_archived []))
     = [Ex.seg5; Ex.seg1; Ex.seg5; Ex.seg1].
Proof.
  destruct (finalize_redelivery_duplicates Ex.sch Ex.infra Ex.infra Ex.payload
              Ex.db_shared [] [] Ex.the_meeting Ex.transcript)
    as (_ & H1 & H2 & _); try (vm_compute; reflexivity).
  split; [exact H1 | exact H2].
Defined.

(** ** [request_bot], path by path *)

Section RequestBot.
Context (sch : Schema) (infra : VexaClient) (plat : Platform) (n : string)
  (current_user : User).

#[local] Abbreviation meeting_data :=
  {| mc_platform := plat; mc_native_meeting_id := n |}.

Lemma request_bot_linked db faults em l :
  find_meeting (value plat) n db = Some em ->
  find_link (user_id current_user) (meeting_id em) db = Some l ->
  run (request_bot sch infra meeting_data current_user) db faults
  = (inr em, db, []).
Proof.
  intros Hfind Hlink. run_handler request_bot. rewrite Hfind. simpl.
  rewrite Hlink. reflexivity.
Qed.

Lemma request_bot_links db faults em :
  find_meeting (value plat) n db = Some em ->
  find_link (user_id current_user) (meeting_id em) db = None ->
  hd false faults = false ->
  run (request_bot sch infra meeting_data current_user) db faults
  = (inr em, insert_user_meeting db (user_id current_user) (meeting_id em), []).
Proof.
  intros Hfind Hlink Hok.
  run_writer request_bot. rewrite Hfind. simpl. rewrite Hlink. simpl.
  apply find_none_existsb in Hlink.
  destruct faults as [|[] fs]; simpl in *; try discriminate;
    rewrite Hlink, andb_false_r; reflexivity.
Qed.

Lemma request_bot_link_fails db faults em :
  find_meeting (value plat) n db = Some em ->
  find_link (user_id current_user) (meeting_id em) db = None ->
  run (request_bot sch infra meeting_data current_user) db (true :: faults)
  = (inl (SQLAlchemyError "OperationalError"), db, []).
Proof.
  intros Hfind Hlink.
  run_writer request_bot. rewrite Hfind. simpl. rewrite Hlink. reflexivity.
Qed.

Lemma request_bot_upstream_fails db faults msg :
  find_meeting (value plat) n db = None ->
  vc_request_bot infra (value plat) n = inl msg ->
  run (request_bot sch infra meeting_data current_user) db faults
  = (inl (HTTPException 502 ("Infra API error: " ++ msg)), db,
     [CallRequestBot (value plat) n]).
Proof.
  intros Hfind Hreq.
  run_handler request_bot. rewrite Hfind, Hreq. reflexivity.
Qed.

Lemma request_bot_create_fails db faults resp :
  find_meeting (value plat) n db = None ->
  vc_request_bot infra (value plat) n = inr resp ->
  run (request_bot sch infra meeting_data current_user) db (true :: faults)
  = (inl (SQLAlchemyError "OperationalError"), db,
     [CallRequestBot (value plat) n]).
Proof.
  intros Hfind Hreq.
  run_writer request_bot. rewrite Hfind, Hreq. reflexivity.
Qed.

(** The creation path once its first commit has succeeded: the link is
    committed in a second transaction, which meets a fault or not. *)
Lemma request_bot_creates db faults resp :
  db_wf db ->
  find_meeting (value plat) n db = None ->
  vc_request_bot infra (value plat) n = inr resp ->
  hd false faults = false ->
  run (request_bot sch infra meeting_data current_user) db faults
  = if hd false (tail faults)
    then (inl (SQLAlchemyError "OperationalError"),
          created db (value plat) n resp,
          [CallRequestBot (value plat) n])
    else (inr (new_meeting_row db (value plat) n resp),
          insert_user_meeting (created db (value plat) n resp)
            (user_id current_user) (meeting_seq db),
          [CallRequestBot (value plat) n]).
Proof.
  intros Hwf Hfind Hreq Hok.
  assert (existsb (is_link (user_id current_user) (meeting_seq db))
            (user_meetings db) = false) as Hfresh.
  { apply not_true_is_false. intros H. apply existsb_exists in H as (l & Hin & Hl).
    pose proof (wf_link_meeting db Hwf) as Hall.
    rewrite Forall_forall in Hall. apply list_elem_of_In, Hall in Hin.
    apply is_link_link_pair in Hl. injection Hl as _ Hl. lia. }
  run_writer request_bot. rewrite Hfind, Hreq. simpl.
  apply find_none_existsb in Hfind.
  destruct faults as [|[] fs]; simpl in *; try discriminate;
    rewrite Hfind, andb_false_r; simpl; rewrite last_snoc; simpl.
  - rewrite Hfresh, andb_false_r. reflexivity.
  - destruct fs as [|[] fs]; simpl; [|reflexivity|];
      rewrite Hfresh, andb_false_r; reflexivity.
Qed.
End RequestBot.

(** ** Requesting a bot *)

Lemma find_snoc {A} (f : A -> bool) (l : list A) (x : A) :
  List.find f l = None ->
  List.find f (l ++ [x]) = if f x then Some x else None.
Proof.
  induction l as [|y l IH]; simpl; [reflexivity|].
  destruct (f y); [discriminate | exact IH].
Qed.

Lemma find_snoc_some {A} (f : A -> bool) (l : list A) (x y : A) :
  List.find f l = Some y -> List.find f (l ++ [x]) = Some y.
Proof.
  induction l as [|z l IH]; simpl; [discriminate|].
  destruct (f z); [trivial | exact IH].
Qed.

Lemma has_key_new_meeting_row db p n resp :
  has_key p n (new_meeting_row db p n resp) = true.
Proof. unfold has_key. simpl. by rewrite !String.eqb_refl. Qed.

Lemma count_links_insert db uid mid uid' mid' :
  count_links uid' mid' (insert_user_meeting db uid mid)
  = (count_links uid' mid' db
     + if Z.eqb uid uid' && Z.eqb mid mid' then 1 else 0)%nat.
Proof.
  unfold count_links. simpl. rewrite filter_length_app. f_equal.
  simpl. unfold is_link at 1. simpl. by destruct (_ && _).
Qed.

(** C5. When no meeting has the natural key and the upstream provisioning
    fails, [request_bot] answers 502 with the upstream message and writes
    nothing: the database is the one before the request, with no meeting of
    that key and no link to one. *)
Theorem upstream_failure_creates_nothing
    sch infra meeting_data current_user db faults msg :
  let p := value (mc_platform meeting_data) in
  let n := mc_native_meeting_id meeting_data in
  let r := run (request_bot sch infra meeting_data current_user) db faults in
  find_meeting p n db = None ->
  vc_request_bot infra p n = inl msg ->
  answer r = inl (HTTPException 502 ("Infra API error: " ++ msg))
  /\ http_status 201 (answer r) = 502
  /\ final_db r = db
  /\ count_meetings p n (final_db r) = 0%nat
  /\ count_links_of_key p n (final_db r) = 0%nat.
Proof.
  destruct meeting_data as [plat n]. cbn [mc_platform mc_native_meeting_id].
  intros Hfind Hreq.
  rewrite (request_bot_upstream_fails _ _ _ _ _ _ _ _ Hfind Hreq).
  unfold answer, final_db. cbn [fst snd http_status].
  repeat split.
  - by apply filter_length_find_none.
  - unfold count_links_of_key.
    assert (forall mid, existsb (fun m => has_key (value plat) n m
                                          && Z.eqb (meeting_id m) mid)
                          (meetings db) = false) as Hnone.
    { intros mid. unfold find_meeting in Hfind.
      induction (meetings db) as [|m ms IH]; simpl in *; [reflexivity|].
      destruct (has_key (value plat) n m); [discriminate | auto]. }
    induction (user_meetings db) as [|l ls IH]; simpl; [reflexivity|].
    by rewrite Hnone.
Qed.

Lemma upstream_failure_creates_nothing_witness :
  (find_meeting "google_meet" "abc-123" Ex.db0 = None
   /\ vc_request_bot Ex.infra_down "google_meet" "abc-123"
      = inl "503 Service Unavailable")
  /\ answer (run (request_bot Ex.sch Ex.infra_down Ex.meeting_data Ex.U1)
                 Ex.db0 [])
     = inl (HTTPException 502 "Infra API error: 503 Service Unavailable")
  /\ final_db (run (request_bot Ex.sch Ex.infra_down Ex.meeting_data Ex.U1)
                   Ex.db0 []) = Ex.db0.
Proof.
  split; [split; reflexivity|].
  destruct (upstream_failure_creates_nothing Ex.sch Ex.infra_down
              Ex.meeting_data Ex.U1 Ex.db0 [] "503 Service Unavailable"
              eq_refl eq_refl) as (Hr & _ & Hdb & _).
  split; [exact Hr | exact Hdb].
Defined.

(** C10. In the creation path the meeting and the link of its requester are
    committed one after the other.  When the first commit succeeds and the
    second meets a storage fault, the request fails and leaves the new
    [Meeting] row stored with no [UserMeeting] row that references it. *)
Theorem creation_and_link_are_two_commits
    sch infra meeting_data current_user db faults resp :
  let p := value (mc_platform meeting_data) in
  let n := mc_native_meeting_id meeting_data in
  let r := run (request_bot sch infra meeting_data current_user) db faults in
  db_wf db ->
  find_meeting p n db = None ->
  vc_request_bot infra p n = inr resp ->
  hd false faults = false ->
  hd false (tail faults) = true ->
  answer r = inl (SQLAlchemyError "OperationalError")
  /\ http_status 201 (answer r) = 500
  /\ (exists m, find_meeting p n (final_db r) = Some m
                /\ count_links_to (meeting_id m) (final_db r) = 0%nat)
  /\ count_meetings p n (final_db r) = 1%nat
  /\ user_meetings (final_db r) = user_meetings db.
Proof.
  destruct meeting_data as [plat n]. cbn [mc_platform mc_native_meeting_id].
  intros Hwf Hfind Hreq Hok1 Hko2.
  rewrite (request_bot_creates _ _ _ _ _ _ _ _ Hwf Hfind Hreq Hok1), Hko2.
  unfold answer, final_db. cbn [fst snd http_status].
  split; [reflexivity|]. split; [reflexivity|]. split; [|split].
  - exists (new_meeting_row db (value plat) n resp). split.
    + unfold find_meeting, created. simpl.
      unfold find_meeting in Hfind. rewrite (find_snoc _ _ _ Hfind).
      fold (new_meeting_row db (value plat) n resp).
      by rewrite has_key_new_meeting_row.
    + unfold count_links_to, created. simpl.
      by rewrite (no_link_to_next db Hwf).
  - unfold count_meetings, created, find_meeting in *. simpl.
    rewrite filter_length_app, (filter_length_find_none _ _ Hfind). simpl.
    fold (new_meeting_row db (value plat) n resp).
    by rewrite has_key_new_meeting_row.
  - reflexivity.
Qed.

Lemma creation_and_link_are_two_commits_witness :
  exists m,
    find_meeting "google_meet" "abc-123"
      (final_db (run (request_bot Ex.sch Ex.infra Ex.meeting_data Ex.U1)
                     Ex.db0 [false; true])) = Some m
    /\ count_links_to (meeting_id m)
         (final_db (run (request_bot Ex.sch Ex.infra Ex.meeting_data Ex.U1)
                        Ex.db0 [false; true])) = 0%nat.
Proof.
  assert (db_wf Ex.db0) as Hwf.
  { split; simpl; constructor. }
  destruct (creation_and_link_are_two_commits Ex.sch Ex.infra Ex.meeting_data
              Ex.U1 Ex.db0 [false; true] {["id" := JInt 77]} Hwf
              eq_refl eq_refl eq_refl eq_refl) as (_ & _ & H & _).
  exact H.
Defined.

Lemma find_link_count db uid mid l :
  db_wf db -> find_link uid mid db = Some l -> count_links uid mid db = 1%nat.
Proof.
  intros Hwf Hfind. unfold count_links.
  pose proof (filter_length_find_some _ _ _ Hfind).
  pose proof (NoDup_key_count link_pair (is_link uid mid) (uid, mid)
                (user_meetings db)
                (fun x => proj1 (is_link_link_pair uid mid x))
                (wf_user_meeting db Hwf)).
  unfold find_link in *. lia.
Qed.

(** C2. A request for a natural key that already has a [Meeting] row makes no
    upstream call and leaves the table of meetings as it is: the key still
    leads to the same row, the only one of that key, and every link stored
    before is still stored.  Unless the insertion of a missing link meets a
    storage fault, the request returns that row and the requester is linked
    to it by exactly one row; on such a fault it fails and the database is the
    one before the request. *)
Theorem request_bot_existing_meeting
    sch infra meeting_data current_user db faults em :
  let p := value (mc_platform meeting_data) in
  let n := mc_native_meeting_id meeting_data in
  let uid := user_id current_user in
  let r := run (request_bot sch infra meeting_data current_user) db faults in
  db_wf db ->
  find_meeting p n db = Some em ->
  upstream_calls r = []
  /\ meetings (final_db r) = meetings db
  /\ find_meeting p n (final_db r) = Some em
  /\ count_meetings p n (final_db r) = 1%nat
  /\ (forall uid' mid',
         (1 <= count_links uid' mid' db)%nat ->
         (1 <= count_links uid' mid' (final_db r))%nat)
  /\ (forall uid' mid',
         (uid', mid') <> (uid, meeting_id em) ->
         count_links uid' mid' (final_db r) = count_links uid' mid' db)
  /\ (is_Some (find_link uid (meeting_id em) db) \/ hd false faults = false ->
      answer r = inr em
      /\ count_links uid (meeting_id em) (final_db r) = 1%nat)
  /\ (find_link uid (meeting_id em) db = None /\ hd false faults = true ->
      answer r = inl (SQLAlchemyError "OperationalError") /\ final_db r = db).
Proof.
  destruct meeting_data as [plat n]. cbn [mc_platform mc_native_meeting_id].
  intros Hwf Hfind.
  pose proof (count_meetings_unique _ _ _ _ Hwf Hfind) as Hone.
  destruct (find_link (user_id current_user) (meeting_id em) db) as [l|]
    eqn:Hlink.
  - rewrite (request_bot_linked _ _ _ _ _ _ _ _ _ Hfind Hlink).
    unfold answer, final_db, upstream_calls. cbn [fst snd].
    do 6 (split; [by auto|]). split.
    + intros _. split; [reflexivity|].
      apply (find_link_count _ _ _ _ Hwf Hlink).
    + intros [[=] _].
  - destruct (hd false faults) eqn:Hhd.
    + destruct faults as [|[] fs]; try discriminate.
      rewrite (request_bot_link_fails _ _ _ _ _ _ _ _ Hfind Hlink).
      unfold answer, final_db, upstream_calls. cbn [fst snd].
      do 6 (split; [by auto|]). split; [|by auto].
      intros [[? [=]]|[=]].
    + rewrite (request_bot_links _ _ _ _ _ _ _ _ Hfind Hlink Hhd).
      unfold answer, final_db, upstream_calls. cbn [fst snd].
      do 4 (split; [by auto|]). split; [|split; [|split]].
      * intros uid' mid' Hc. rewrite count_links_insert. lia.
      * intros uid' mid' Hne. rewrite count_links_insert.
        destruct (Z.eqb_spec (user_id current_user) uid');
          destruct (Z.eqb_spec (meeting_id em) mid'); simpl; try lia.
        subst. congruence.
      * intros _. split; [reflexivity|].
        rewrite count_links_insert, !Z.eqb_refl. simpl.
        unfold count_links. unfold find_link in Hlink.
        by rewrite (filter_length_find_none _ _ Hlink).
      * intros [_ [=]].
Qed.

Lemma db0_wf : db_wf Ex.db0.
Proof. split; simpl; constructor. Qed.

Lemma db_live_wf : db_wf Ex.db_live.
Proof.
  split; vm_compute; repeat constructor; intros H;
    repeat (apply elem_of_cons in H as [H|H]; [discriminate|]);
    by apply elem_of_nil in H.
Qed.

Lemma request_bot_existing_meeting_witness :
  let r := run (request_bot Ex.sch Ex.infra_down Ex.meeting_data Ex.U2)
               Ex.db_live [] in
  find_meeting "google_meet" "abc-123" Ex.db_live = Some Ex.the_meeting
  /\ upstream_calls r = []
  /\ answer r = inr Ex.the_meeting
  /\ count_meetings "google_meet" "abc-123" (final_db r) = 1%nat
  /\ count_links 2 1 (final_db r) = 1%nat
  /\ (1 <= count_links 1 1 (final_db r))%nat.
Proof.
  assert (find_meeting "google_meet" "abc-123" Ex.db_live
          = Some Ex.the_meeting) as Hfind by (vm_compute; reflexivity).
  destruct (request_bot_existing_meeting Ex.sch Ex.infra_down Ex.meeting_data
              Ex.U2 Ex.db_live [] Ex.the_meeting db_live_wf Hfind)
    as (Hcalls & _ & _ & Hone & Hkept & _ & Hlinked & _).
  destruct (Hlinked (or_intror eq_refl)) as [Hr Hl].
  cbv zeta. split; [exact Hfind|]. split; [exact Hcalls|].
  split; [exact Hr|]. split; [exact Hone|]. split; [exact Hl|].
  apply Hkept. vm_compute. lia.
Defined.

(** C3. Ensuring the link twice leaves one row.  When a request of a user for
    a meeting has succeeded, a second request of the same user for the same
    natural key succeeds too, whatever the upstream service and the storage do
    then: it returns the same meeting, calls nothing upstream, writes nothing,
    and exactly one [UserMeeting] row links the user to the meeting. *)
Theorem ensure_link_idempotent
    sch infra1 infra2 meeting_data current_user db f1 f2 m :
  let uid := user_id current_user in
  let r1 := run (request_bot sch infra1 meeting_data current_user) db f1 in
  let r2 := run (request_bot sch infra2 meeting_data current_user)
                (final_db r1) f2 in
  db_wf db ->
  answer r1 = inr m ->
  count_links uid (meeting_id m) (final_db r1) = 1%nat
  /\ answer r2 = inr m
  /\ upstream_calls r2 = []
  /\ final_db r2 = final_db r1
  /\ count_links uid (meeting_id m) (final_db r2) = 1%nat.
Proof.
  destruct meeting_data as [plat n]. cbv zeta. intros Hwf.
  assert (forall db1 l,
             find_meeting (value plat) n db1 = Some m ->
             find_link (user_id current_user) (meeting_id m) db1 = Some l ->
             count_links (user_id current_user) (meeting_id m) db1 = 1%nat ->
             let r2 := run (request_bot sch infra2
                              {| mc_platform := plat;
                                 mc_native_meeting_id := n |} current_user)
                           db1 f2 in
             count_links (user_id current_user) (meeting_id m) db1 = 1%nat
             /\ answer r2 = inr m
             /\ upstream_calls r2 = []
             /\ final_db r2 = db1
             /\ count_links (user_id current_user) (meeting_id m) (final_db r2)
                = 1%nat) as Hsecond.
  { intros db1 l Hfind1 Hlink1 Hone. cbv zeta.
    rewrite (request_bot_linked _ _ _ _ _ _ _ _ _ Hfind1 Hlink1).
    unfold answer, final_db, upstream_calls. cbn [fst snd]. auto. }
  cbv zeta in Hsecond. unfold answer, final_db, upstream_calls in *.
  destruct (find_meeting (value plat) n db) as [em|] eqn:Hfind.
  - destruct (find_link (user_id current_user) (meeting_id em) db) as [l|]
      eqn:Hlink.
    + rewrite (request_bot_linked _ _ _ _ _ _ _ _ _ Hfind Hlink).
      cbn [fst snd]. intros [= <-].
      apply (Hsecond db l Hfind Hlink), (find_link_count _ _ _ _ Hwf Hlink).
    + destruct (hd false f1) eqn:Hhd.
      * destruct f1 as [|[] fs]; try discriminate.
        rewrite (request_bot_link_fails _ _ _ _ _ _ _ _ Hfind Hlink).
        cbn [fst snd]. discriminate.
      * rewrite (request_bot_links _ _ _ _ _ _ _ _ Hfind Hlink Hhd).
        cbn [fst snd]. intros [= <-].
        eapply Hsecond.
        -- exact Hfind.
        -- unfold find_link in *. simpl. rewrite (find_snoc _ _ _ Hlink).
           unfold is_link. simpl. by rewrite !Z.eqb_refl.
        -- rewrite count_links_insert, !Z.eqb_refl. simpl.
           unfold count_links, find_link in *.
           by rewrite (filter_length_find_none _ _ Hlink).
  - destruct (vc_request_bot infra1 (value plat) n) as [msg|resp] eqn:Hreq.
    + rewrite (request_bot_upstream_fails _ _ _ _ _ _ _ _ Hfind Hreq).
      cbn [fst snd]. discriminate.
    + destruct (hd false f1) eqn:Hhd.
      * destruct f1 as [|[] fs]; try discriminate.
        rewrite (request_bot_create_fails _ _ _ _ _ _ _ _ Hfind Hreq).
        cbn [fst snd]. discriminate.
      * rewrite (request_bot_creates _ _ _ _ _ _ _ _ Hwf Hfind Hreq Hhd).
        destruct (hd false (tail f1)); cbn [fst snd]; [discriminate|].
        intros [= <-].
        pose proof (no_link_to_next db Hwf) as Hnext.
        assert (List.find (is_link (user_id current_user) (meeting_seq db))
                  (user_meetings db) = None) as Hnone.
        { destruct (List.find _ _) as [l|] eqn:Hl; [|reflexivity].
          apply find_some_holds in Hl as [Hl Hin].
          apply is_link_link_pair in Hl. injection Hl as _ Hl.
          assert (l ∈ List.filter
                        (fun l => Z.eqb (um_meeting_id l) (meeting_seq db))
                        (user_meetings db)) as Hin'.
          { apply list_elem_of_In, List.filter_In.
            split; [by apply list_elem_of_In | by apply Z.eqb_eq]. }
          rewrite Hnext in Hin'. by apply elem_of_nil in Hin'. }
        eapply Hsecond.
        -- unfold find_meeting, created in *. simpl.
           rewrite (find_snoc _ _ _ Hfind).
           fold (new_meeting_row db (value plat) n resp).
           by rewrite has_key_new_meeting_row.
        -- unfold find_link. simpl. rewrite (find_snoc _ _ _ Hnone).
           unfold is_link. simpl. by rewrite !Z.eqb_refl.
        -- rewrite count_links_insert, !Z.eqb_refl. simpl.
           unfold count_links. simpl.
           by rewrite (filter_length_find_none _ _ Hnone).
Qed.

Lemma ensure_link_idempotent_witness :
  let r1 := run (request_bot Ex.sch Ex.infra Ex.meeting_data Ex.U1)
                Ex.db0 [] in
  let r2 := run (request_bot Ex.sch Ex.infra_down Ex.meeting_data Ex.U1)
                (final_db r1) [true; true] in
  answer r1 = inr Ex.the_meeting
  /\ answer r2 = inr Ex.the_meeting
  /\ count_links 1 1 (final_db r2) = 1%nat.
Proof.
  assert (answer (run (request_bot Ex.sch Ex.infra Ex.meeting_data Ex.U1)
                      Ex.db0 []) = inr Ex.the_meeting) as H1
    by (vm_compute; reflexivity).
  destruct (ensure_link_idempotent Ex.sch Ex.infra Ex.infra_down
              Ex.meeting_data Ex.U1 Ex.db0 [] [true; true] Ex.the_meeting
              db0_wf H1) as (_ & Hr2 & _ & _ & Hone).
  cbv zeta. split; [exact H1|]. split; [exact Hr2 | exact Hone].
Defined.

(** ** Reading a transcript *)

Lemma insert_by_start_perm t l : insert_by_start t l ≡ₚ t :: l.
Proof.
  induction l as [|x l IH]; simpl; [reflexivity|].
  destruct (Qle_bool _ _); [reflexivity|].
  rewrite IH. apply Permutation_swap.
Qed.

Lemma order_by_start_time_perm l : order_by_start_time l ≡ₚ l.
Proof.
  induction l as [|x l IH]; simpl; [reflexivity|].
  by rewrite insert_by_start_perm, IH.
Qed.

Lemma insert_by_start_sorted t l :
  Sorted start_le l -> Sorted start_le (insert_by_start t l).
Proof.
  induction l as [|x l IH]; simpl; intros Hs.
  - repeat constructor.
  - destruct (Qle_bool (start_time t) (start_time x)) eqn:E.
    + constructor; [exact Hs|]. constructor. by apply Qle_bool_iff.
    + assert (start_le x t) as Hxt.
      { unfold start_le. apply Qlt_le_weak, Qnot_le_lt.
        intros H. apply Qle_bool_iff in H. congruence. }
      apply Sorted_inv in Hs as [Hs Hhd].
      constructor; [by apply IH|].
      destruct l as [|y l]; simpl; [by constructor|].
      destruct (Qle_bool (start_time t) (start_time y)); constructor;
        [exact Hxt | by apply HdRel_inv in Hhd].
Qed.

Lemma order_by_start_time_sorted l : Sorted start_le (order_by_start_time l).
Proof.
  induction l as [|x l IH]; simpl; [constructor|].
  by apply insert_by_start_sorted.
Qed.

Lemma start_le_trans a b c : start_le a b -> start_le b c -> start_le a c.
Proof. unfold start_le. apply Qle_trans. Qed.

Lemma from_orm_ascending (l : list Transcription) :
  Sorted start_le l -> StronglySorted seg_le (from_orm <$> l).
Proof.
  intros Hs. apply Sorted_StronglySorted in Hs; [|exact start_le_trans].
  induction Hs as [|x l _ IH Hall]; simpl; constructor; [exact IH|].
  apply Forall_fmap. exact Hall.
Qed.

Section Transcript.
Context (infra : VexaClient) (plat : Platform) (n : string)
  (current_user : User).

Lemma get_transcript_not_found db faults :
  find_meeting_of_user (value plat) n (user_id current_user) db = None ->
  run (get_transcript infra plat n current_user) db faults
  = (inl (HTTPException 404 "Meeting not found or you do not have access"),
     db, []).
Proof.
  intros Hfind. run_handler get_transcript. rewrite Hfind. reflexivity.
Qed.

Lemma get_transcript_cached db faults m d :
  find_meeting_of_user (value plat) n (user_id current_user) db = Some m ->
  data m = Some d ->
  truthy (dict_get d "is_live" (JBool false)) = false ->
  run (get_transcript infra plat n current_user) db faults
  = (inr (TranscriptionResponse (from_orm <$> transcripts_of (meeting_id m) db)),
     db, []).
Proof.
  intros Hfind Hd Hlive. run_handler get_transcript. rewrite Hfind. simpl.
  rewrite Hd, Hlive. reflexivity.
Qed.

Lemma get_transcript_live db faults m d :
  find_meeting_of_user (value plat) n (user_id current_user) db = Some m ->
  data m = Some d ->
  truthy (dict_get d "is_live" (JBool false)) = true ->
  run (get_transcript infra plat n current_user) db faults
  = (match vc_get_transcript infra (value plat) n with
     | inl msg => inl (HTTPException 502 ("Infra API error: " ++ msg))
     | inr t => inr (InfraResponse t)
     end, db, [CallGetTranscript (value plat) n]).
Proof.
  intros Hfind Hd Hlive.
  run_handler get_transcript. rewrite Hfind. simpl. rewrite Hd, Hlive.
  destruct (vc_get_transcript infra (value plat) n); reflexivity.
Qed.
End Transcript.

(** The meeting the natural key leads to is the one the join finds for a user
    linked to it. *)
Lemma find_meeting_of_linked_user p n uid db m l :
  find_meeting p n db = Some m ->
  find_link uid (meeting_id m) db = Some l ->
  find_meeting_of_user p n uid db = Some m.
Proof.
  unfold find_meeting, find_meeting_of_user, find_link.
  intros Hfind Hlink. apply find_some_existsb in Hlink.
  induction (meetings db) as [|x ms IH]; simpl in *; [discriminate|].
  destruct (has_key p n x); simpl.
  - injection Hfind as ->. by rewrite Hlink.
  - auto.
Qed.

Lemma NoDup_fmap_eq {A K} (key : A -> K) (l : list A) (x y : A) :
  NoDup (key <$> l) -> x ∈ l -> y ∈ l -> key x = key y -> x = y.
Proof.
  induction l as [|z l IH]; simpl; intros Hnd Hx Hy Hk.
  - by apply elem_of_nil in Hx.
  - apply NoDup_cons in Hnd as [Hz Hnd].
    apply elem_of_cons in Hx as [->|Hx]; apply elem_of_cons in Hy as [->|Hy];
      auto.
    + exfalso. apply Hz. rewrite Hk. by apply list_elem_of_fmap_2.
    + exfalso. apply Hz. rewrite <- Hk. by apply list_elem_of_fmap_2.
Qed.

(** With a unique natural key, a user with no link to the meeting of the key
    is found no meeting by the join. *)
Lemma find_meeting_of_unlinked_user p n uid db m :
  db_wf db ->
  m ∈ meetings db ->
  natural_key m = (p, n) ->
  count_links uid (meeting_id m) db = 0%nat ->
  find_meeting_of_user p n uid db = None.
Proof.
  intros Hwf Hin Hkey Hcount. unfold find_meeting_of_user.
  destruct (List.find _ _) as [m'|] eqn:Hfind; [exfalso | reflexivity].
  apply find_some_holds in Hfind as [Hm' Hin'].
  apply andb_true_iff in Hm' as [Hk Hl].
  apply has_key_natural_key in Hk.
  assert (m' = m) as ->.
  { apply (NoDup_fmap_eq natural_key (meetings db));
      [apply (wf_natural_key db Hwf) | done | done | congruence]. }
  unfold count_links in Hcount.
  apply existsb_exists in Hl as (l & Hl & Hlink).
  assert (In l (List.filter (is_link uid (meeting_id m)) (user_meetings db)))
    as Hf by (apply List.filter_In; auto).
  destruct (List.filter _ _); [exact Hf | discriminate].
Qed.

(** C6. For a user linked to a meeting that is not live, [get_transcript]
    answers from the cache alone: it returns the stored segments of the
    meeting, all of them and no other, in ascending order of [start_time]
    whatever the order of their rows in the table, and calls nothing
    upstream. *)
Theorem cached_transcript_is_ordered
    infra plat n current_user db faults m l d :
  let r := run (get_transcript infra plat n current_user) db faults in
  find_meeting (value plat) n db = Some m ->
  find_link (user_id current_user) (meeting_id m) db = Some l ->
  data m = Some d ->
  d !! "is_live" = Some (JBool false) ->
  exists segs,
    answer r = inr (TranscriptionResponse segs)
    /\ StronglySorted seg_le segs
    /\ segs ≡ₚ segments_of (meeting_id m) db
    /\ upstream_calls r = []
    /\ final_db r = db.
Proof.
  cbv zeta. intros Hfind Hlink Hd Hlive.
  pose proof (find_meeting_of_linked_user _ _ _ _ _ _ Hfind Hlink) as Hjoin.
  assert (truthy (dict_get d "is_live" (JBool false)) = false) as Hfalse
    by (unfold dict_get; rewrite Hlive; reflexivity).
  rewrite (get_transcript_cached _ _ _ _ _ _ _ _ Hjoin Hd Hfalse).
  unfold answer, final_db, upstream_calls. cbn [fst snd].
  eexists. split; [reflexivity|]. split; [|split; [|auto]].
  - apply from_orm_ascending, order_by_start_time_sorted.
  - unfold segments_of, transcripts_of.
    by rewrite order_by_start_time_perm.
Qed.

Lemma cached_transcript_is_ordered_witness :
  segments_of 1 Ex.db_archived = [Ex.seg5; Ex.seg1]
  /\ answer (run (get_transcript Ex.infra_down google_meet "abc-123" Ex.U2)
                 Ex.db_archived [])
     = inr (TranscriptionResponse [Ex.seg1; Ex.seg5])
  /\ exists segs,
      answer (run (get_transcript Ex.infra_down google_meet "abc-123" Ex.U2)
                  Ex.db_archived [])
      = inr (TranscriptionResponse segs)
      /\ StronglySorted seg_le segs
      /\ segs ≡ₚ segments_of 1 Ex.db_archived
      /\ upstream_calls
           (run (get_transcript Ex.infra_down google_meet "abc-123" Ex.U2)
                Ex.db_archived []) = []
      /\ final_db
           (run (get_transcript Ex.infra_down google_meet "abc-123" Ex.U2)
                Ex.db_archived []) = Ex.db_archived.
Proof.
  split; [vm_compute; reflexivity|]. split; [vm_compute; reflexivity|].
  apply (cached_transcript_is_ordered Ex.infra_down google_meet "abc-123"
           Ex.U2 Ex.db_archived []
           {| meeting_id := 1; platform := "google_meet";
              platform_specific_id := "abc-123"; status := "active";
              data := Some (archived_data (data Ex.the_meeting)) |}
           {| um_id := 2; um_user_id := 2; um_meeting_id := 1 |}
           (archived_data (data Ex.the_meeting)));
    vm_compute; reflexivity.
Defined.

(** C7. A user with no link to a meeting gets 404 from [get_transcript] for
    the natural key of that meeting, with no transcript, no upstream call and
    no write: the very answer the request gets from any database in which no
    meeting has that key. *)
Theorem unlinked_user_gets_not_found infra plat n current_user db faults m :
  let r := run (get_transcript infra plat n current_user) db faults in
  db_wf db ->
  m ∈ meetings db ->
  natural_key m = (value plat, n) ->
  count_links (user_id current_user) (meeting_id m) db = 0%nat ->
  answer r
  = inl (HTTPException 404 "Meeting not found or you do not have access")
  /\ http_status 200 (answer r) = 404
  /\ upstream_calls r = []
  /\ final_db r = db
  /\ (forall infra' db' faults',
         count_meetings (value plat) n db' = 0%nat ->
         answer (run (get_transcript infra' plat n current_user) db' faults')
         = answer r).
Proof.
  cbv zeta. intros Hwf Hin Hkey Hcount.
  rewrite (get_transcript_not_found _ _ _ _ _ _
             (find_meeting_of_unlinked_user _ _ _ _ _ Hwf Hin Hkey Hcount)).
  unfold answer, final_db, upstream_calls. cbn [fst snd http_status].
  do 4 (split; [reflexivity|]).
  intros infra' db' faults' Hnone.
  rewrite get_transcript_not_found; [reflexivity|].
  unfold find_meeting_of_user, count_meetings in *.
  induction (meetings db') as [|x ms IH]; simpl in *; [reflexivity|].
  destruct (has_key (value plat) n x); simpl in *; [discriminate | auto].
Qed.

Lemma db_archived_wf : db_wf Ex.db_archived.
Proof.
  split; vm_compute; repeat constructor; intros H;
    repeat (apply elem_of_cons in H as [H|H]; [discriminate|]);
    by apply elem_of_nil in H.
Qed.

Lemma unlinked_user_gets_not_found_witness :
  count_meetings "google_meet" "abc-123" Ex.db_archived = 1%nat
  /\ count_links 3 1 Ex.db_archived = 0%nat
  /\ answer (run (get_transcript Ex.infra google_meet "abc-123" Ex.U3)
                 Ex.db_archived [])
     = inl (HTTPException 404 "Meeting not found or you do not have access")
  /\ answer (run (get_transcript Ex.infra google_meet "abc-123" Ex.U3)
                 Ex.db0 [])
     = answer (run (get_transcript Ex.infra google_meet "abc-123" Ex.U3)
                   Ex.db_archived []).
Proof.
  split; [vm_compute; reflexivity|]. split; [vm_compute; reflexivity|].
  destruct (unlinked_user_gets_not_found Ex.infra google_meet "abc-123" Ex.U3
              Ex.db_archived []
              {| meeting_id := 1; platform := "google_meet";
                 platform_specific_id := "abc-123"; status := "active";
                 data := Some (archived_data (data Ex.the_meeting)) |}
              db_archived_wf)
    as (Hr & _ & _ & _ & Hsame).
  - vm_compute. left.
  - reflexivity.
  - vm_compute. reflexivity.
  - split; [exact Hr|]. apply Hsame. vm_compute. reflexivity.
Defined.

(** ** Issuing a token *)

Lemma generate_secure_token_length rng len :
  String.length (generate_secure_token rng len) = len.
Proof.
  unfold generate_secure_token.
  assert (forall l, String.length (string_of_list_ascii l) = List.length l)
    as Hlen by (induction l; simpl; congruence).
  by rewrite Hlen, List.length_map, List.length_seq.
Qed.

Lemma choice_alphabet_alnum r :
  is_alnum (choice (ascii_letters ++ digits) r) = true.
Proof.
  unfold choice.
  assert (forallb
            (fun k => match String.get k (ascii_letters ++ digits) with
                      | Some c => is_alnum c
                      | None => false
                      end)
            (List.seq 0 62) = true) as Hall by (vm_compute; reflexivity).
  rewrite forallb_forall in Hall.
  assert (String.length (ascii_letters ++ digits) = 62%nat) as ->
    by reflexivity.
  specialize (Hall (r mod 62)%nat).
  destruct (String.get (r mod 62) (ascii_letters ++ digits)).
  - apply Hall, in_seq. pose proof (Nat.mod_upper_bound r 62). lia.
  - apply Hall, in_seq. pose proof (Nat.mod_upper_bound r 62). lia.
Qed.

Lemma generate_secure_token_alnum rng len :
  forallb is_alnum (list_ascii_of_string (generate_secure_token rng len))
  = true.
Proof.
  unfold generate_secure_token. rewrite list_ascii_of_string_of_list_ascii.
  apply forallb_forall. intros c Hc. apply in_map_iff in Hc as (i & <- & _).
  apply choice_alphabet_alnum.
Qed.

(** The paths of [create_token_for_user]: a storage fault, a violated
    constraint, or the token stored under the next identifier. *)
Lemma create_token_for_user_run sch rng uid db faults :
  run (create_token_for_user sch rng uid) db faults
  = let tok := generate_secure_token rng 40 in
    if hd false faults
    then (inl (SQLAlchemyError "OperationalError"), db, [])
    else if fk_token_user sch
            && negb (existsb (fun u => Z.eqb (user_id u) uid) (users db))
    then (inl (SQLAlchemyError
                 "IntegrityError: api_tokens.user_id is not a user"), db, [])
    else if uq_token sch
            && existsb (fun t => String.eqb (token t) tok) (api_tokens db)
    then (inl (SQLAlchemyError "IntegrityError: duplicate token"), db, [])
    else (inr {| token_id := token_seq db; token := tok;
                 token_user_id := uid |},
          insert_token db tok uid, []).
Proof.
  unfold run, create_token_for_user, refresh, mbind, M_bind, bind, query,
    db_add, commit.
  cbv zeta. cbn [w_faults w_session w_db w_calls app].
  destruct faults as [|[] fs]; cbn [hd]; [|reflexivity|];
    cbn [flush flush_one];
    destruct (fk_token_user sch && _); try reflexivity;
    destruct (uq_token sch && _); try reflexivity;
    cbn [w_db insert_token api_tokens]; rewrite last_snoc; reflexivity.
Qed.

(** C8, on the code.  [create_token_for_user] never answers 404: its answer is
    the new token (201) or an exception of the storage that no handler
    catches (500).  For a user id that no row has, a schema with the foreign
    key answers 500 and one without it stores a token that no user owns. *)
Theorem create_token_never_not_found sch rng uid db faults :
  let r := run (create_token_for_user sch rng uid) db faults in
  http_status 201 (answer r) <> 404
  /\ (existsb (fun u => Z.eqb (user_id u) uid) (users db) = false ->
      (exists msg, answer r = inl (SQLAlchemyError msg)
                   /\ http_status 201 (answer r) = 500 /\ final_db r = db)
      \/ (fk_token_user sch = false
          /\ exists t, answer r = inr t /\ token_user_id t = uid
                       /\ t ∈ api_tokens (final_db r))).
Proof.
  cbv zeta. rewrite create_token_for_user_run. cbv zeta.
  unfold answer, final_db.
  destruct (hd false faults); cbn [fst snd http_status].
  { split; [discriminate | eauto 6]. }
  destruct (fk_token_user sch) eqn:Hfk; cbn [andb].
  - destruct (negb _) eqn:Hu; cbn [fst snd http_status].
    + split; [discriminate | eauto 6].
    + destruct (uq_token sch && _); cbn [fst snd http_status];
        (split; [discriminate|]); intros Hnone; rewrite Hnone in Hu;
        discriminate.
  - destruct (uq_token sch && _); cbn [fst snd http_status];
      (split; [discriminate|]); intros _; [eauto 6|].
    right. split; [reflexivity|]. eexists. split; [reflexivity|].
    split; [reflexivity|]. cbn [insert_token api_tokens].
    apply elem_of_app. right. left.
Qed.

(** C8, the failing request: a token for user 9 when the users are 1, 2 and 3,
    under a schema that declares the foreign key. *)
Example create_token_unknown_user :
  let r := run (create_token_for_user Ex.sch (fun i => (7 * i)%nat) 9)
               Ex.db0 [] in
  answer r
  = inl (SQLAlchemyError "IntegrityError: api_tokens.user_id is not a user")
  /\ http_status 201 (answer r) = 500
  /\ final_db r = Ex.db0.
Proof. vm_compute. auto. Qed.

(** X3. The other half of C8 holds on the code: for a stored user, without
    a storage fault and with a token string not yet stored, the token is
    persisted, bound to the user, and its string is 40 alphanumeric
    characters. *)
Lemma create_token_known_user sch rng uid db faults :
  let r := run (create_token_for_user sch rng uid) db faults in
  existsb (fun u => Z.eqb (user_id u) uid) (users db) = true ->
  hd false faults = false ->
  existsb (fun t => String.eqb (token t) (generate_secure_token rng 40))
    (api_tokens db) = false ->
  exists t,
    answer r = inr t
    /\ t ∈ api_tokens (final_db r)
    /\ token_user_id t = uid
    /\ String.length (token t) = 40%nat
    /\ forallb is_alnum (list_ascii_of_string (token t)) = true.
Proof.
  cbv zeta. intros Hu Hok Hfresh. rewrite create_token_for_user_run. cbv zeta.
  rewrite Hok, Hu, Hfresh, !andb_false_r.
  unfold answer, final_db. cbn [fst snd].
  eexists. split; [reflexivity|]. cbn [token token_user_id].
  split; [|auto using generate_secure_token_length,
             generate_secure_token_alnum].
  cbn [insert_token api_tokens]. apply elem_of_app. right. left.
Qed.

(** ** The invariant is kept by every request *)

Lemma NoDup_fmap_snoc {A K} (key : A -> K) (f : A -> bool) (l : list A) x :
  (forall y, key y = key x -> f y = true) ->
  List.find f l = None ->
  NoDup (key <$> l) ->
  NoDup (key <$> (l ++ [x])%list).
Proof.
  intros Hf Hnone Hnd. rewrite fmap_app. apply NoDup_app.
  split; [exact Hnd|]. split; [|apply NoDup_singleton].
  intros k Hk Hx. apply list_elem_of_fmap in Hk as (y & -> & Hy).
  simpl in Hx. apply list_elem_of_singleton in Hx.
  apply Hf in Hx. clear Hnd.
  induction l as [|z l IH]; simpl in *; [by apply elem_of_nil in Hy|].
  destruct (f z) eqn:E; [discriminate|].
  apply elem_of_cons in Hy as [->|Hy]; [congruence | auto].
Qed.

Lemma insert_user_meeting_wf db uid mid :
  db_wf db ->
  find_link uid mid db = None ->
  mid < meeting_seq db ->
  db_wf (insert_user_meeting db uid mid).
Proof.
  intros [H1 H2 H3 H4] Hnone Hlt. split; simpl; auto.
  - apply (NoDup_fmap_snoc link_pair (is_link uid mid)); auto.
    intros y Hy. by apply is_link_link_pair.
  - apply Forall_app. split; [exact H4|]. by apply Forall_singleton.
Qed.

Lemma created_wf db p n resp :
  db_wf db -> find_meeting p n db = None -> db_wf (created db p n resp).
Proof.
  intros [H1 H2 H3 H4] Hnone. split; simpl; auto.
  - apply (NoDup_fmap_snoc natural_key (has_key p n)); auto.
    intros y Hy. by apply has_key_natural_key.
  - apply Forall_app. split.
    + eapply Forall_impl; [exact H2|]. simpl. intros; lia.
    + apply Forall_singleton. simpl. lia.
  - eapply Forall_impl; [exact H4|]. simpl. intros; lia.
Qed.

Lemma archive_wf db m segs : db_wf db -> db_wf (archive db m segs).
Proof.
  intros [H1 H2 H3 H4]. unfold archive. split; simpl;
    rewrite ?append_segments_meetings, ?append_segments_user_meetings,
      ?append_segments_meeting_seq; auto.
  - by rewrite natural_key_fmap_set_data.
  - apply Forall_fmap. eapply Forall_impl; [exact H2|].
    intros x Hx. unfold set_data. simpl.
    by destruct (Z.eqb _ _).
Qed.

(** Whatever the upstream service answers and whichever commits fail, a
    request for a bot leaves a well-formed database well-formed. *)
Lemma request_bot_keeps_wf sch infra meeting_data current_user db faults :
  db_wf db ->
  db_wf (final_db (run (request_bot sch infra meeting_data current_user)
                       db faults)).
Proof.
  destruct meeting_data as [plat n]. intros Hwf. unfold final_db.
  destruct (find_meeting (value plat) n db) as [em|] eqn:Hfind.
  - destruct (find_link (user_id current_user) (meeting_id em) db) as [l|]
      eqn:Hlink.
    + by rewrite (request_bot_linked _ _ _ _ _ _ _ _ _ Hfind Hlink).
    + destruct (hd false faults) eqn:Hhd.
      * destruct faults as [|[] fs]; try discriminate.
        by rewrite (request_bot_link_fails _ _ _ _ _ _ _ _ Hfind Hlink).
      * rewrite (request_bot_links _ _ _ _ _ _ _ _ Hfind Hlink Hhd).
        cbn [fst snd]. apply insert_user_meeting_wf; auto.
        apply find_some_holds in Hfind as [_ Hin].
        pose proof (wf_meeting_seq db Hwf) as Hall.
        rewrite Forall_forall in Hall. by apply Hall.
  - destruct (vc_request_bot infra (value plat) n) as [msg|resp] eqn:Hreq.
    + by rewrite (request_bot_upstream_fails _ _ _ _ _ _ _ _ Hfind Hreq).
    + destruct (hd false faults) eqn:Hhd.
      * destruct faults as [|[] fs]; try discriminate.
        by rewrite (request_bot_create_fails _ _ _ _ _ _ _ _ Hfind Hreq).
      * rewrite (request_bot_creates _ _ _ _ _ _ _ _ Hwf Hfind Hreq Hhd).
        pose proof (created_wf db (value plat) n resp Hwf Hfind) as Hwf'.
        destruct (hd false (tail faults)); cbn [fst snd]; [exact Hwf'|].
        apply insert_user_meeting_wf; [exact Hwf'| |simpl; lia].
        unfold find_link. simpl.
        destruct (List.find _ _) as [l|] eqn:Hl; [exfalso | reflexivity].
        apply find_some_holds in Hl as [Hl Hin].
        apply is_link_link_pair in Hl. injection Hl as _ Hl.
        pose proof (wf_link_meeting db Hwf) as Hall.
        rewrite Forall_forall in Hall. apply Hall in Hin. lia.
Qed.

(** And so does a finalization. *)
Lemma handle_webhook_keeps_wf sch infra payload db faults :
  db_wf db ->
  db_wf (final_db (run (handle_webhook sch infra payload) db faults)).
Proof.
  destruct payload as [plat n]. intros Hwf. unfold final_db.
  destruct (find_meeting (value plat) n db) as [m|] eqn:Hfind.
  - destruct (vc_get_transcript infra (value plat) n) as [msg|t] eqn:Hget.
    + by rewrite (handle_webhook_upstream_fails _ _ _ _ _ _ _ _ Hfind Hget).
    + destruct (hd false faults) eqn:Hhd.
      * destruct faults as [|[] fs]; try discriminate.
        by rewrite (handle_webhook_commit_fails _ _ _ _ _ _ _ _ Hfind Hget).
      * rewrite (handle_webhook_commits _ _ _ _ _ _ _ _ Hfind Hget Hhd).
        cbn [fst snd]. by apply archive_wf.
  - by rewrite (handle_webhook_unknown _ _ _ _ _ _ Hfind).
Qed.

(** ** Authentication *)

Lemma get_current_user_run api_key db faults :
  run (get_current_user api_key) db faults
  = (match api_key with
     | None => inl (HTTPException 401 "Missing API Key")
     | Some key =>
         if String.eqb key ""
         then inl (HTTPException 401 "Missing API Key")
         else match find_token key db with
              | None => inl (HTTPException 403 "Invalid API Key")
              | Some t =>
                  match token_owner t db with
                  | None => inl (HTTPException 403 "Invalid API Key")
                  | Some u => inr u
                  end
              end
     end, db, []).
Proof.
  unfold run, get_current_user, mbind, M_bind, bind, query, raise.
  destruct api_key as [key|]; simpl; [|reflexivity].
  destruct (String.eqb key ""); simpl; [reflexivity|].
  destruct (find_token key db) as [t|]; simpl; [|reflexivity].
  destruct (token_owner t db); reflexivity.
Qed.

(** X1. Authentication is sound: a key is accepted only when it is not empty
    and a stored token carries it, and the user returned is a stored user,
    the one that token belongs to.  Nothing is written or asked upstream. *)
Theorem get_current_user_sound api_key db faults u :
  let r := run (get_current_user api_key) db faults in
  answer r = inr u ->
  (exists key t,
      api_key = Some key /\ key <> ""
      /\ t ∈ api_tokens db /\ token t = key
      /\ token_user_id t = user_id u /\ u ∈ users db)
  /\ final_db r = db
  /\ upstream_calls r = [].
Proof.
  cbv zeta. rewrite get_current_user_run.
  unfold answer, final_db, upstream_calls. cbn [fst snd].
  destruct api_key as [key|]; [|discriminate].
  destruct (String.eqb_spec key ""); [discriminate|].
  destruct (find_token key db) as [t|] eqn:Ht; [|discriminate].
  destruct (token_owner t db) as [u'|] eqn:Hu; [|discriminate].
  intros [= ->]. split; [|auto].
  apply find_some_holds in Ht as [Ht Hin].
  apply find_some_holds in Hu as [Hu Hin'].
  apply String.eqb_eq in Ht. apply Z.eqb_eq in Hu.
  exists key, t. auto 10.
Qed.

Lemma get_current_user_sound_witness :
  answer (run (get_current_user (Some Ex2.key2)) Ex2.db_tokens []) = inr Ex.U2
  /\ exists key t,
      Some Ex2.key2 = Some key /\ key <> ""
      /\ t ∈ api_tokens Ex2.db_tokens /\ token t = key
      /\ token_user_id t = user_id Ex.U2 /\ Ex.U2 ∈ users Ex2.db_tokens.
Proof.
  assert (answer (run (get_current_user (Some Ex2.key2)) Ex2.db_tokens [])
          = inr Ex.U2) as H by (vm_compute; reflexivity).
  split; [exact H|].
  exact (proj1 (get_current_user_sound (Some Ex2.key2) Ex2.db_tokens []
                  Ex.U2 H)).
Defined.

(** X2. How a key is turned down: 401 exactly when the header is missing or
    empty, whatever the tokens stored (an empty token string included); 403
    exactly when a key is given and no token carries it or the first token
    that does has no user row. *)
Theorem get_current_user_rejects api_key db faults :
  let r := run (get_current_user api_key) db faults in
  (http_status 200 (answer r) = 401 <-> not_str api_key = true)
  /\ (http_status 200 (answer r) = 403 <->
      exists key, api_key = Some key /\ key <> ""
                  /\ (find_token key db = None
                      \/ exists t, find_token key db = Some t
                                   /\ token_owner t db = None))
  /\ (http_status 200 (answer r) = 401
      \/ http_status 200 (answer r) = 403
      \/ exists u, answer r = inr u).
Proof.
  cbv zeta. rewrite get_current_user_run. unfold answer. cbn [fst snd].
  destruct api_key as [key|]; cbn [not_str http_status].
  - destruct (String.eqb_spec key "") as [->|Hne]; cbn [http_status].
    + split; [tauto|]. split; [|auto].
      split; [discriminate|]. intros (k & [= <-] & Hk & _). by destruct Hk.
    + destruct (find_token key db) as [t|] eqn:Ht; cbn [http_status].
      * destruct (token_owner t db) as [u|] eqn:Hu; cbn [http_status].
        -- split; [split; discriminate|]. split; [|eauto].
           split; [discriminate|].
           intros (k & [= <-] & _ & [H|(t' & H & H')]); congruence.
        -- split; [split; discriminate|]. split; [|auto].
           split; [|reflexivity]. intros _. exists key. eauto 7.
      * split; [split; discriminate|]. split; [|auto].
        split; [|reflexivity]. intros _. exists key. auto.
  - split; [tauto|]. split; [|auto].
    split; [discriminate|]. intros (k & [=] & _).
Qed.

(** ** Tokens *)

Lemma existsb_false_find_none {A} (f : A -> bool) (l : list A) :
  existsb f l = false -> List.find f l = None.
Proof.
  induction l as [|x l IH]; simpl; [reflexivity|].
  destruct (f x); [discriminate | exact IH].
Qed.

Lemma generate_secure_token_not_empty rng :
  String.eqb (generate_secure_token rng 40) "" = false.
Proof.
  apply String.eqb_neq. intros H.
  pose proof (generate_secure_token_length rng 40) as Hlen.
  rewrite H in Hlen. discriminate.
Qed.

(** The database an issue of a token leaves: the one before, or that one
    with the token appended. *)
Lemma create_token_for_user_final_db sch rng uid db faults :
  final_db (run (create_token_for_user sch rng uid) db faults) = db
  \/ final_db (run (create_token_for_user sch rng uid) db faults)
     = insert_token db (generate_secure_token rng 40) uid.
Proof.
  rewrite create_token_for_user_run. cbv zeta. unfold final_db.
  destruct (hd false faults); [by left|].
  destruct (fk_token_user sch && _); [by left|].
  destruct (uq_token sch && _); [by left | by right].
Qed.

Lemma create_token_known_user_witness :
  exists t,
    answer (run (create_token_for_user Ex.sch Ex2.rng 1) Ex.db0 []) = inr t
    /\ t ∈ api_tokens
             (final_db (run (create_token_for_user Ex.sch Ex2.rng 1) Ex.db0 []))
    /\ token_user_id t = 1
    /\ String.length (token t) = 40%nat
    /\ forallb is_alnum (list_ascii_of_string (token t)) = true.
Proof.
  apply (create_token_known_user Ex.sch Ex2.rng 1 Ex.db0 []); reflexivity.
Defined.

(** X4. A token that has been issued authenticates its user: when the user
    row exists, the commit meets no fault and the string drawn is not yet
    stored, the key returned by [create_token_for_user] is accepted by
    [get_current_user] on the database it leaves, as that user. *)
Theorem issued_token_authenticates sch rng uid db faults faults' u :
  let r := run (create_token_for_user sch rng uid) db faults in
  List.find (fun u => Z.eqb (user_id u) uid) (users db) = Some u ->
  hd false faults = false ->
  find_token (generate_secure_token rng 40) db = None ->
  exists t,
    answer r = inr t
    /\ token_user_id t = uid
    /\ answer (run (get_current_user (Some (token t))) (final_db r) faults')
       = inr u.
Proof.
  cbv zeta. intros Hu Hok Hfresh.
  rewrite create_token_for_user_run. cbv zeta.
  rewrite Hok, (find_some_existsb _ _ _ Hu),
    (find_none_existsb _ _ Hfresh), !andb_false_r.
  unfold answer at 1, final_db. cbn [fst snd].
  eexists. split; [reflexivity|]. split; [reflexivity|].
  rewrite get_current_user_run. unfold answer. cbn [fst snd token].
  rewrite generate_secure_token_not_empty.
  unfold find_token in *. cbn [insert_token api_tokens].
  rewrite (find_snoc _ _ _ Hfresh). cbn [token].
  rewrite String.eqb_refl.
  unfold token_owner. cbn [token_user_id users insert_token]. by rewrite Hu.
Qed.

Lemma issued_token_authenticates_witness :
  exists t,
    answer (run (create_token_for_user Ex.sch Ex2.rng' 2) Ex2.db_token [])
    = inr t
    /\ token_user_id t = 2
    /\ answer (run (get_current_user (Some (token t)))
                   (final_db (run (create_token_for_user Ex.sch Ex2.rng' 2)
                                  Ex2.db_token [])) [])
       = inr Ex.U2.
Proof.
  apply (issued_token_authenticates Ex.sch Ex2.rng' 2 Ex2.db_token [] []
           Ex.U2); vm_compute; reflexivity.
Defined.

(** X5. Issuing a token never changes whom an accepted key authenticates:
    whatever the outcome of [create_token_for_user] (also when the string
    drawn collides with a stored one), a key that [get_current_user] accepted
    before is accepted after, as the same user. *)
Theorem issuing_keeps_accepted_keys
    sch rng uid db faults api_key faults1 faults2 u :
  let db' := final_db (run (create_token_for_user sch rng uid) db faults) in
  answer (run (get_current_user api_key) db faults1) = inr u ->
  answer (run (get_current_user api_key) db' faults2) = inr u.
Proof.
  cbv zeta. rewrite !get_current_user_run. unfold answer. cbn [fst snd].
  destruct (create_token_for_user_final_db sch rng uid db faults) as [->| ->];
    [trivial|].
  destruct api_key as [key|]; [|trivial].
  destruct (String.eqb key ""); [trivial|].
  destruct (find_token key db) as [t|] eqn:Ht; [|discriminate].
  unfold find_token in *. cbn [insert_token api_tokens].
  by rewrite (find_snoc_some _ _ _ _ Ht).
Qed.

Lemma issuing_keeps_accepted_keys_witness :
  answer (run (get_current_user (Some Ex2.key1)) Ex2.db_token []) = inr Ex.U1
  /\ answer (run (get_current_user (Some Ex2.key1)) Ex2.db_tokens [])
     = inr Ex.U1.
Proof.
  assert (answer (run (get_current_user (Some Ex2.key1)) Ex2.db_token [])
          = inr Ex.U1) as H by (vm_compute; reflexivity).
  split; [exact H|].
  exact (issuing_keeps_accepted_keys Ex.sch Ex2.rng' 2 Ex2.db_token []
           (Some Ex2.key1) [] [] Ex.U1 H).
Defined.

(** The alphabet of a token has no repeated character: positions below its
    length that hold the same character are the same. *)
Lemma choice_alphabet_injective r1 r2 :
  choice (ascii_letters ++ digits) r1 = choice (ascii_letters ++ digits) r2 ->
  (r1 mod 62 = r2 mod 62)%nat.
Proof.
  unfold choice.
  assert (String.length (ascii_letters ++ digits) = 62%nat) as ->
    by reflexivity.
  assert (forallb
            (fun i =>
               forallb
                 (fun j =>
                    match String.get i (ascii_letters ++ digits),
                          String.get j (ascii_letters ++ digits) with
                    | Some a, Some b => implb (Ascii.eqb a b) (Nat.eqb i j)
                    | _, _ => false
                    end)
                 (List.seq 0 62))
            (List.seq 0 62) = true) as Hall by (vm_compute; reflexivity).
  rewrite forallb_forall in Hall.
  assert (In (r1 mod 62)%nat (List.seq 0 62)) as H1
    by (apply in_seq; pose proof (Nat.mod_upper_bound r1 62); lia).
  assert (In (r2 mod 62)%nat (List.seq 0 62)) as H2
    by (apply in_seq; pose proof (Nat.mod_upper_bound r2 62); lia).
  specialize (Hall _ H1). rewrite forallb_forall in Hall.
  specialize (Hall _ H2).
  destruct (String.get (r1 mod 62) _) as [a|]; [|discriminate].
  destruct (String.get (r2 mod 62) _) as [b|]; [|discriminate].
  intros ->. rewrite Ascii.eqb_refl in Hall. by apply Nat.eqb_eq.
Qed.

(** X6. Every position of a generated token carries its whole draw: two
    tokens of the same length are equal only when their draws agree modulo
    the 62 characters of the alphabet at every position. *)
Theorem generate_secure_token_injective rng1 rng2 len i :
  generate_secure_token rng1 len = generate_secure_token rng2 len ->
  (i < len)%nat ->
  (rng1 i mod 62 = rng2 i mod 62)%nat.
Proof.
  unfold generate_secure_token. intros Heq Hi.
  apply (f_equal list_ascii_of_string) in Heq.
  rewrite !list_ascii_of_string_of_list_ascii in Heq.
  apply choice_alphabet_injective.
  apply (f_equal (fun l => nth i l "000"%char)) in Heq.
  rewrite !(nth_indep _ "000"%char
              (choice (ascii_letters ++ digits) (rng1 0%nat))) in Heq
    by (rewrite List.length_map, List.length_seq; exact Hi).
  rewrite (map_nth (fun i => choice (ascii_letters ++ digits) (rng1 i))) in Heq.
  rewrite (nth_indep _ _ (choice (ascii_letters ++ digits) (rng2 0%nat)))
    in Heq by (rewrite List.length_map, List.length_seq; exact Hi).
  rewrite (map_nth (fun i => choice (ascii_letters ++ digits) (rng2 i))) in Heq.
  rewrite !seq_nth in Heq by exact Hi. exact Heq.
Qed.

Lemma generate_secure_token_injective_witness :
  generate_secure_token Ex2.rng 40
  = generate_secure_token (fun i => (Ex2.rng i + 62)%nat) 40
  /\ (Ex2.rng 5 mod 62 = (Ex2.rng 5 + 62) mod 62)%nat.
Proof.
  assert (generate_secure_token Ex2.rng 40
          = generate_secure_token (fun i => (Ex2.rng i + 62)%nat) 40) as H
    by (vm_compute; reflexivity).
  split; [exact H|].
  apply (generate_secure_token_injective Ex2.rng
           (fun i => (Ex2.rng i + 62)%nat) 40 5 H). lia.
Defined.

Lemma delete_token_run sch tid db faults :
  run (delete_token sch tid) db faults
  = if Nat.eqb (List.length
                  (List.filter (fun t => Z.eqb (token_id t) tid)
                     (api_tokens db))) 0
    then (inl (HTTPException 404 "Token not found"), db, [])
    else if hd false faults
    then (inl (SQLAlchemyError "OperationalError"), db, [])
    else (inr tt, without_token db tid, []).
Proof.
  unfold run, delete_token, execute_delete_token, commit_transaction, mbind,
    M_bind, bind, query, raise, commit.
  cbn [w_db w_session w_calls w_faults].
  destruct (Nat.eqb _ 0); [reflexivity|].
  destruct faults as [|[] fs]; reflexivity.
Qed.

(** X7. [delete_token] removes the tokens of the identifier or changes
    nothing, and what decides is stated.  When no token has the identifier it
    answers 404 and the database is the one before.  When one has it and the
    commit meets a storage fault, the [OperationalError] leaves the handler
    and every token stays.  When one has it and the commit meets no fault, it
    succeeds: no token of that identifier is left, every other token is
    kept, in order, and the other tables are untouched.  It answers 404 in no
    other case. *)
Theorem delete_token_all_or_nothing sch tid db faults :
  let r := run (delete_token sch tid) db faults in
  (http_status 204 (answer r) = 404
   <-> forall t, t ∈ api_tokens db -> token_id t <> tid)
  /\ ((forall t, t ∈ api_tokens db -> token_id t <> tid)
      /\ answer r = inl (HTTPException 404 "Token not found")
      /\ final_db r = db
      \/ (exists t, t ∈ api_tokens db /\ token_id t = tid)
         /\ hd false faults = true
         /\ answer r = inl (SQLAlchemyError "OperationalError")
         /\ final_db r = db
      \/ (exists t, t ∈ api_tokens db /\ token_id t = tid)
         /\ hd false faults = false
         /\ answer r = inr tt
         /\ api_tokens (final_db r)
            = List.filter (fun t => negb (Z.eqb (token_id t) tid))
                (api_tokens db)
         /\ (forall t, t ∈ api_tokens (final_db r) -> token_id t <> tid)
         /\ (forall t, t ∈ api_tokens db -> token_id t <> tid ->
                       t ∈ api_tokens (final_db r))
         /\ users (final_db r) = users db
         /\ meetings (final_db r) = meetings db
         /\ user_meetings (final_db r) = user_meetings db
         /\ transcriptions (final_db r) = transcriptions db)
  /\ upstream_calls r = [].
Proof.
  cbv zeta. rewrite delete_token_run. unfold answer, final_db, upstream_calls.
  destruct (List.filter (fun t => Z.eqb (token_id t) tid) (api_tokens db))
    as [|t0 ts] eqn:Hf; cbn [List.length Nat.eqb fst snd http_status].
  - assert (forall t, t ∈ api_tokens db -> token_id t <> tid) as Hnone.
    { intros t Hin Hid.
      assert (In t (List.filter (fun t => Z.eqb (token_id t) tid)
                      (api_tokens db))) as H
        by (apply List.filter_In; split;
            [by apply list_elem_of_In | by apply Z.eqb_eq]).
      by rewrite Hf in H. }
    split; [tauto|]. split; [|reflexivity]. left. auto.
  - assert (exists t, t ∈ api_tokens db /\ token_id t = tid) as Hsome.
    { exists t0.
      assert (In t0 (List.filter (fun t => Z.eqb (token_id t) tid)
                       (api_tokens db))) as H by (rewrite Hf; left; done).
      apply List.filter_In in H as [H1 H2].
      split; [by apply list_elem_of_In | by apply Z.eqb_eq]. }
    split.
    + destruct Hsome as (t & Hin & Hid).
      destruct (hd false faults); cbn [fst snd http_status];
        (split; [discriminate|]); intros H; by destruct (H t Hin).
    + destruct (hd false faults) eqn:Hhd; cbn [fst snd].
      * split; [|reflexivity]. right. left. auto.
      * split; [|reflexivity]. right. right.
        do 4 (split; [done|]). split; [|split; [|done]].
        -- intros t Ht Heq. cbn [without_token api_tokens] in Ht.
           apply list_elem_of_In, List.filter_In in Ht as [_ Ht].
           apply negb_true_iff, Z.eqb_neq in Ht. contradiction.
        -- intros t Hin Hne. cbn [without_token api_tokens].
           apply list_elem_of_In, List.filter_In.
           split; [by apply list_elem_of_In|].
           by apply negb_true_iff, Z.eqb_neq.
Qed.

Lemma find_filter_keep {A} (f g : A -> bool) (l : list A) x :
  List.find f l = Some x -> g x = true ->
  List.find f (List.filter g l) = Some x.
Proof.
  intros Hfind Hx. induction l as [|y l IH]; simpl in *; [discriminate|].
  destruct (f y) eqn:Hy.
  - injection Hfind as ->. rewrite Hx. simpl. by rewrite Hy.
  - destruct (g y); simpl; [rewrite Hy|]; auto.
Qed.

Lemma find_filter_none {A} (f g : A -> bool) (l : list A) :
  (forall y, y ∈ l -> f y = true -> g y = false) ->
  List.find f (List.filter g l) = None.
Proof.
  induction l as [|y l IH]; simpl; intros H; [reflexivity|].
  destruct (g y) eqn:Hg; simpl.
  - destruct (f y) eqn:Hf.
    + rewrite (H y) in Hg; [discriminate | left | exact Hf].
    + apply IH. intros z Hz. apply H. by right.
  - apply IH. intros z Hz. apply H. by right.
Qed.

(** X8. A revoked token no longer authenticates.  When the tokens that carry
    a key all have the identifier deleted and the commit meets no fault, the
    key is turned down afterwards with 403, while a key carried only by
    tokens of other identifiers is accepted as before. *)
Theorem revoked_token_is_rejected sch db faults faults' key t :
  let r := run (delete_token sch (token_id t)) db faults in
  find_token key db = Some t ->
  key <> "" ->
  (forall t', t' ∈ api_tokens db -> token t' = key ->
              token_id t' = token_id t) ->
  hd false faults = false ->
  answer r = inr tt
  /\ answer (run (get_current_user (Some key)) (final_db r) faults')
     = inl (HTTPException 403 "Invalid API Key")
  /\ (forall key' f1 f2 u,
         (forall t', t' ∈ api_tokens db -> token t' = key' ->
                     token_id t' <> token_id t) ->
         answer (run (get_current_user (Some key')) db f1) = inr u ->
         answer (run (get_current_user (Some key')) (final_db r) f2) = inr u).
Proof.
  cbv zeta. intros Hfind Hne Hall Hok.
  rewrite delete_token_run, Hok.
  pose proof (find_some_holds _ _ _ Hfind) as [Hkey Hin].
  destruct (List.filter (fun t0 => Z.eqb (token_id t0) (token_id t))
              (api_tokens db)) as [|t0 ts] eqn:Hf.
  { assert (In t (List.filter (fun t0 => Z.eqb (token_id t0) (token_id t))
                    (api_tokens db))) as H
      by (apply List.filter_In; split;
          [by apply list_elem_of_In | apply Z.eqb_refl]).
    by rewrite Hf in H. }
  cbn [List.length Nat.eqb]. unfold answer at 1, final_db. cbn [fst snd].
  split; [reflexivity|]. split.
  - rewrite get_current_user_run. unfold answer. cbn [fst snd].
    apply String.eqb_neq in Hne. rewrite Hne.
    unfold find_token. cbn [without_token api_tokens].
    rewrite find_filter_none; [reflexivity|].
    intros y Hy Hyk. apply String.eqb_eq in Hyk.
    rewrite (Hall y Hy Hyk). by rewrite Z.eqb_refl.
  - intros key' f1 f2 u Hother. rewrite !get_current_user_run.
    unfold answer. cbn [fst snd].
    destruct (String.eqb key' ""); [trivial|].
    destruct (find_token key' db) as [t'|] eqn:Ht'; [|discriminate].
    unfold find_token in *. cbn [without_token api_tokens].
    pose proof (find_some_holds _ _ _ Ht') as [Hk' Hin'].
    apply String.eqb_eq in Hk'.
    rewrite (find_filter_keep _ _ _ _ Ht'); [trivial|].
    apply negb_true_iff, Z.eqb_neq. by apply Hother.
Qed.

Lemma revoked_token_is_rejected_witness :
  answer (run (get_current_user (Some Ex2.key1)) Ex2.db_tokens []) = inr Ex.U1
  /\ answer (run (delete_token Ex.sch 1) Ex2.db_tokens []) = inr tt
  /\ answer (run (get_current_user (Some Ex2.key1))
                 (final_db (run (delete_token Ex.sch 1) Ex2.db_tokens [])) [])
     = inl (HTTPException 403 "Invalid API Key")
  /\ answer (run (get_current_user (Some Ex2.key2))
                 (final_db (run (delete_token Ex.sch 1) Ex2.db_tokens [])) [])
     = inr Ex.U2.
Proof.
  split; [vm_compute; reflexivity|].
  destruct (revoked_token_is_rejected Ex.sch Ex2.db_tokens [] [] Ex2.key1
              {| token_id := 1; token := Ex2.key1; token_user_id := 1 |})
    as (Hdel & Hrej & Hkeep).
  - vm_compute. reflexivity.
  - vm_compute. discriminate.
  - intros t' Hin Hkey. vm_compute in Hin.
    apply elem_of_cons in Hin as [->|Hin]; [reflexivity|].
    apply list_elem_of_singleton in Hin as ->. vm_compute in Hkey.
    discriminate.
  - reflexivity.
  - split; [exact Hdel|]. split; [exact Hrej|].
    apply (Hkeep Ex2.key2 [] [] Ex.U2); [|vm_compute; reflexivity].
    intros t' Hin Hkey. vm_compute in Hin.
    apply elem_of_cons in Hin as [->|Hin]; [vm_compute in Hkey; discriminate|].
    apply list_elem_of_singleton in Hin as ->. vm_compute. discriminate.
Defined.


Lemma get_user_run uid db faults :
  run (get_user uid) db faults
  = (match List.find (fun u => Z.eqb (user_id u) uid) (users db) with
     | None => inl (HTTPException 404 "User not found")
     | Some u =>
         inr (u, List.filter (fun t => Z.eqb (token_user_id t) (user_id u))
                   (api_tokens db))
     end, db, []).
Proof.
  unfold run, get_user, mbind, M_bind, bind, query, raise. simpl.
  destruct (List.find _ (users db)); reflexivity.
Qed.

(** X9. [get_user] shows the tokens issued to the user.  After a successful
    [create_token_for_user] for an identifier that a user row has, [get_user]
    on that identifier returns that row with a list of tokens that holds the
    new token and only tokens bound to that identifier. *)
Theorem get_user_lists_issued_token sch rng uid db faults faults' t :
  let r := run (create_token_for_user sch rng uid) db faults in
  answer r = inr t ->
  is_Some (List.find (fun u => Z.eqb (user_id u) uid) (users db)) ->
  exists u tokens,
    answer (run (get_user uid) (final_db r) faults') = inr (u, tokens)
    /\ user_id u = uid
    /\ u ∈ users db
    /\ t ∈ tokens
    /\ Forall (fun t' => token_user_id t' = uid) tokens.
Proof.
  cbv zeta. rewrite create_token_for_user_run. cbv zeta.
  unfold answer at 1, final_db.
  destruct (hd false faults); [discriminate|].
  destruct (fk_token_user sch && _); [discriminate|].
  destruct (uq_token sch && _); [discriminate|].
  cbn [fst snd]. intros [= <-] [u Hu].
  rewrite get_user_run. unfold answer. cbn [fst snd insert_token users].
  rewrite Hu. apply find_some_holds in Hu as [Hid Hin].
  apply Z.eqb_eq in Hid.
  eexists _, _. split; [reflexivity|]. split; [exact Hid|].
  split; [exact Hin|]. cbn [api_tokens]. split.
  - apply list_elem_of_In, List.filter_In. split.
    + apply in_or_app. right. by left.
    + cbn [token_user_id]. rewrite Hid. apply Z.eqb_refl.
  - apply Forall_forall. intros t' Ht'.
    apply list_elem_of_In, List.filter_In in Ht' as [_ Ht'].
    apply Z.eqb_eq in Ht'. congruence.
Qed.

Lemma get_user_lists_issued_token_witness :
  exists u tokens,
    answer (run (get_user 2) Ex2.db_tokens []) = inr (u, tokens)
    /\ user_id u = 2
    /\ u ∈ users Ex2.db_token
    /\ {| token_id := 2; token := Ex2.key2; token_user_id := 2 |} ∈ tokens
    /\ Forall (fun t' => token_user_id t' = 2) tokens.
Proof.
  apply (get_user_lists_issued_token Ex.sch Ex2.rng' 2 Ex2.db_token [] []
           {| token_id := 2; token := Ex2.key2; token_user_id := 2 |}).
  - vm_compute. reflexivity.
  - vm_compute. eauto.
Defined.

(** [get_user] answers 404 exactly when no user row has the identifier,
    and a token whose user is unknown is never listed under another user. *)
Theorem get_user_not_found_iff uid db faults :
  let r := run (get_user uid) db faults in
  (http_status 200 (answer r) = 404
   <-> forall u, u ∈ users db -> user_id u <> uid)
  /\ final_db r = db
  /\ (forall u tokens t,
         answer r = inr (u, tokens) -> t ∈ tokens ->
         user_id u = uid /\ token_user_id t = uid /\ t ∈ api_tokens db).
Proof.
  cbv zeta. rewrite get_user_run. unfold answer, final_db. cbn [fst snd].
  destruct (List.find _ (users db)) as [u|] eqn:Hu; cbn [http_status].
  - apply find_some_holds in Hu as [Hid Hin]. apply Z.eqb_eq in Hid.
    split; [|split; [reflexivity|]].
    + split; [discriminate|]. intros H. by destruct (H u Hin).
    + intros u' tokens t [= <- <-] Ht.
      apply list_elem_of_In, List.filter_In in Ht as [Ht1 Ht2].
      apply Z.eqb_eq in Ht2. rewrite Ht2.
      repeat split; [exact Hid | exact Hid | by apply list_elem_of_In].
  - split; [|split; [reflexivity | discriminate]].
    split; [|reflexivity]. intros _ u Hin Hid.
    apply find_none_existsb in Hu.
    assert (existsb (fun u => Z.eqb (user_id u) uid) (users db) = true) as H.
    { apply existsb_exists. exists u.
      split; [by apply list_elem_of_In | by apply Z.eqb_eq]. }
    congruence.
Qed.

(** ** The admin guard *)

(** X10. The admin guard lets a request through only when the server has a
    non-empty admin token and the header carries exactly it.  With no token
    configured it answers 500 whatever the header, so that a missing header
    never matches a missing configuration. *)
Theorem verify_admin_token_accepts_iff ADMIN_API_TOKEN admin_api_key :
  (verify_admin_token ADMIN_API_TOKEN admin_api_key = inr tt
   <-> exists t, t <> "" /\ ADMIN_API_TOKEN = Some t /\ admin_api_key = Some t)
  /\ (http_status 200 (verify_admin_token ADMIN_API_TOKEN admin_api_key) = 500
      <-> not_str ADMIN_API_TOKEN = true)
  /\ (http_status 200 (verify_admin_token ADMIN_API_TOKEN admin_api_key) = 403
      <-> not_str ADMIN_API_TOKEN = false
          /\ admin_api_key <> ADMIN_API_TOKEN).
Proof.
  unfold verify_admin_token.
  destruct ADMIN_API_TOKEN as [t|]; cbn [not_str].
  - destruct (String.eqb_spec t "") as [->|Ht]; cbn [http_status].
    + split; [|split; [tauto|]].
      * split; [discriminate|]. intros (t & Ht & [= <-] & _). by destruct Ht.
      * split; [discriminate | intros [[=] _]].
    + destruct admin_api_key as [k|]; cbn [not_str str_ne orb].
      * destruct (String.eqb_spec k "") as [->|Hk]; cbn [orb http_status].
        -- split; [|split; [split; discriminate|]].
           ++ split; [discriminate|]. intros (t' & _ & [= <-] & [= <-]).
              by destruct Ht.
           ++ split; [|reflexivity]. intros _. split; congruence.
        -- destruct (String.eqb_spec k t) as [->|Hkt]; cbn [negb http_status].
           ++ split; [|split; [split; discriminate|]].
              ** split; [eauto|reflexivity].
              ** split; [discriminate|]. intros [_ H]. by destruct H.
           ++ split; [|split; [split; discriminate|]].
              ** split; [discriminate|]. intros (t' & _ & [= <-] & [= <-]).
                 by destruct Hkt.
              ** split; [|reflexivity]. intros _. split; congruence.
      * split; [|split; [split; discriminate|]].
        -- split; [discriminate|]. intros (t' & _ & _ & [=]).
        -- split; [|reflexivity]. intros _. split; congruence.
  - cbn [http_status]. split; [|split; [tauto|]].
    + split; [discriminate|]. intros (t & _ & [=] & _).
    + split; [discriminate | intros [[=] _]].
Qed.

(** ** More on requesting a bot *)

(** The outcomes of [request_bot] on a well-formed database: nothing is
    written; or a link to the meeting found is appended; or the meeting is
    created and the request fails before the link; or the meeting and the
    link are created. *)
Lemma request_bot_cases sch infra plat n current_user db faults :
  let p := value plat in
  let uid := user_id current_user in
  let r := run (request_bot sch infra
                  {| mc_platform := plat; mc_native_meeting_id := n |}
                  current_user) db faults in
  db_wf db ->
  (final_db r = db
   /\ upstream_calls r
      = match find_meeting p n db with
        | Some _ => []
        | None => [CallRequestBot p n]
        end
   /\ forall m, answer r = inr m ->
                find_meeting p n db = Some m
                /\ is_Some (find_link uid (meeting_id m) db))
  \/ (exists em,
         find_meeting p n db = Some em
         /\ find_link uid (meeting_id em) db = None
         /\ answer r = inr em
         /\ upstream_calls r = []
         /\ final_db r = insert_user_meeting db uid (meeting_id em))
  \/ (exists resp,
         find_meeting p n db = None
         /\ vc_request_bot infra p n = inr resp
         /\ upstream_calls r = [CallRequestBot p n]
         /\ (answer r = inl (SQLAlchemyError "OperationalError")
             /\ final_db r = created db p n resp
             \/ answer r = inr (new_meeting_row db p n resp)
                /\ final_db r
                   = insert_user_meeting (created db p n resp) uid
                       (meeting_seq db))).
Proof.
  cbv zeta. intros Hwf. unfold answer, final_db, upstream_calls.
  destruct (find_meeting (value plat) n db) as [em|] eqn:Hfind.
  - destruct (find_link (user_id current_user) (meeting_id em) db) as [l|]
      eqn:Hlink.
    + left. rewrite (request_bot_linked _ _ _ _ _ _ _ _ _ Hfind Hlink).
      cbn [fst snd]. repeat split; try congruence.
      injection H as <-. eauto.
    + destruct (hd false faults) eqn:Hhd.
      * destruct faults as [|[] fs]; try discriminate. left.
        rewrite (request_bot_link_fails _ _ _ _ _ _ _ _ Hfind Hlink).
        cbn [fst snd]. repeat split; discriminate.
      * right. left. exists em.
        rewrite (request_bot_links _ _ _ _ _ _ _ _ Hfind Hlink Hhd).
        cbn [fst snd]. auto.
  - destruct (vc_request_bot infra (value plat) n) as [msg|resp] eqn:Hreq.
    + left. rewrite (request_bot_upstream_fails _ _ _ _ _ _ _ _ Hfind Hreq).
      cbn [fst snd]. repeat split; discriminate.
    + destruct (hd false faults) eqn:Hhd.
      * destruct faults as [|[] fs]; try discriminate. left.
        rewrite (request_bot_create_fails _ _ _ _ _ _ _ _ Hfind Hreq).
        cbn [fst snd]. repeat split; discriminate.
      * right. right. exists resp.
        rewrite (request_bot_creates _ _ _ _ _ _ _ _ Hwf Hfind Hreq Hhd).
        destruct (hd false (tail faults)); cbn [fst snd]; auto 7.
Qed.

(** X11. [request_bot] only appends.  Whatever the upstream service answers
    and whichever commits fail, the request leaves every stored meeting and
    link in place and unchanged, adds at most one meeting and one link after
    them, and touches no user, token or cached segment. *)
Theorem request_bot_only_appends
    sch infra meeting_data current_user db faults :
  let r := run (request_bot sch infra meeting_data current_user) db faults in
  db_wf db ->
  exists ms ls,
    meetings (final_db r) = (meetings db ++ ms)%list
    /\ user_meetings (final_db r) = (user_meetings db ++ ls)%list
    /\ (List.length ms <= 1)%nat
    /\ (List.length ls <= 1)%nat
    /\ Forall (fun l => um_user_id l = user_id current_user) ls
    /\ users (final_db r) = users db
    /\ api_tokens (final_db r) = api_tokens db
    /\ transcriptions (final_db r) = transcriptions db.
Proof.
  destruct meeting_data as [plat n]. cbv zeta. intros Hwf.
  destruct (request_bot_cases sch infra plat n current_user db faults Hwf)
    as [(-> & _)|[(em & _ & _ & _ & _ & ->)
                 |(resp & _ & _ & _ & [[_ ->]|[_ ->]])]].
  - exists [], []. rewrite !app_nil_r. repeat split; auto.
  - eexists [], [_]. rewrite app_nil_r.
    cbn [insert_user_meeting meetings user_meetings users api_tokens
           transcriptions List.length].
    repeat split; auto.
  - eexists [_], []. rewrite app_nil_r.
    cbn [created insert_meeting meetings user_meetings users api_tokens
           transcriptions List.length].
    repeat split; auto.
  - eexists [_], [_].
    cbn [created insert_meeting insert_user_meeting meetings user_meetings
           users api_tokens transcriptions List.length].
    repeat split; auto.
Qed.

Lemma request_bot_only_appends_witness :
  exists ms ls,
    meetings (final_db (run (request_bot Ex.sch Ex.infra Ex.meeting_data Ex.U2)
                            Ex.db_live [true]))
    = (meetings Ex.db_live ++ ms)%list
    /\ user_meetings
         (final_db (run (request_bot Ex.sch Ex.infra Ex.meeting_data Ex.U2)
                        Ex.db_live [true]))
       = (user_meetings Ex.db_live ++ ls)%list
    /\ (List.length ms <= 1)%nat
    /\ (List.length ls <= 1)%nat
    /\ Forall (fun l => um_user_id l = user_id Ex.U2) ls
    /\ users (final_db (run (request_bot Ex.sch Ex.infra Ex.meeting_data Ex.U2)
                            Ex.db_live [true])) = users Ex.db_live
    /\ api_tokens
         (final_db (run (request_bot Ex.sch Ex.infra Ex.meeting_data Ex.U2)
                        Ex.db_live [true])) = api_tokens Ex.db_live
    /\ transcriptions
         (final_db (run (request_bot Ex.sch Ex.infra Ex.meeting_data Ex.U2)
                        Ex.db_live [true])) = transcriptions Ex.db_live.
Proof.
  exact (request_bot_only_appends Ex.sch Ex.infra Ex.meeting_data Ex.U2
           Ex.db_live [true] db_live_wf).
Defined.

Lemma find_link_next_none db uid :
  db_wf db ->
  List.find (is_link uid (meeting_seq db)) (user_meetings db) = None.
Proof.
  intros Hwf. destruct (List.find _ _) as [l|] eqn:Hl; [exfalso | reflexivity].
  apply find_some_holds in Hl as [Hl Hin].
  apply is_link_link_pair in Hl. injection Hl as _ Hl.
  pose proof (wf_link_meeting db Hwf) as Hall.
  rewrite Forall_forall in Hall. apply Hall in Hin. lia.
Qed.

Lemma find_meeting_created db p n resp :
  find_meeting p n db = None ->
  find_meeting p n (created db p n resp) = Some (new_meeting_row db p n resp).
Proof.
  intros Hfind. unfold find_meeting, created in *. simpl.
  rewrite (find_snoc _ _ _ Hfind).
  fold (new_meeting_row db p n resp). by rewrite has_key_new_meeting_row.
Qed.

Lemma count_links_created db p n resp uid :
  db_wf db -> count_links uid (meeting_seq db) (created db p n resp) = 0%nat.
Proof.
  intros Hwf. unfold count_links, created. cbn [insert_meeting user_meetings].
  exact (filter_length_find_none _ _ (find_link_next_none db uid Hwf)).
Qed.

(** X12. The creation path, when the upstream service provisions the bot and
    both commits succeed: the meeting returned is stored under the next
    identifier with status [active], [is_live] true and the upstream
    identifier (null when the upstream answer has no [id]); the natural key
    leads to it, the requester is linked to it by one row, and one upstream
    call was made. *)
Theorem request_bot_creates_live_meeting
    sch infra meeting_data current_user db faults resp :
  let p := value (mc_platform meeting_data) in
  let n := mc_native_meeting_id meeting_data in
  let r := run (request_bot sch infra meeting_data current_user) db faults in
  db_wf db ->
  find_meeting p n db = None ->
  vc_request_bot infra p n = inr resp ->
  hd false faults = false ->
  hd false (tail faults) = false ->
  exists m d,
    answer r = inr m
    /\ meeting_id m = meeting_seq db
    /\ natural_key m = (p, n)
    /\ status m = "active"
    /\ data m = Some d
    /\ d !! "is_live" = Some (JBool true)
    /\ d !! "infra_meeting_id" = Some (default JNull (resp !! "id"))
    /\ find_meeting p n (final_db r) = Some m
    /\ count_links (user_id current_user) (meeting_id m) (final_db r) = 1%nat
    /\ count_links_to (meeting_id m) (final_db r) = 1%nat
    /\ upstream_calls r = [CallRequestBot p n].
Proof.
  destruct meeting_data as [plat n]. cbn [mc_platform mc_native_meeting_id].
  intros Hwf Hfind Hreq Hok1 Hok2.
  rewrite (request_bot_creates _ _ _ _ _ _ _ _ Hwf Hfind Hreq Hok1), Hok2.
  unfold answer, final_db, upstream_calls. cbn [fst snd].
  eexists _, _. split; [reflexivity|].
  cbn [new_meeting_row meeting_id natural_key platform platform_specific_id
         status data].
  do 4 (split; [reflexivity|]).
  split; [by rewrite lookup_insert_ne, lookup_singleton_eq|].
  split; [by rewrite lookup_insert_eq|].
  split; [exact (find_meeting_created db (value plat) n resp Hfind)|].
  split; [|split; [|reflexivity]].
  - rewrite count_links_insert, !Z.eqb_refl. simpl.
    unfold count_links. simpl.
    by rewrite (filter_length_find_none _ _ (find_link_next_none db _ Hwf)).
  - unfold count_links_to. simpl. rewrite List.filter_app.
    rewrite (no_link_to_next db Hwf). simpl. by rewrite Z.eqb_refl.
Qed.

Lemma request_bot_creates_live_meeting_witness :
  exists m d,
    answer (run (request_bot Ex.sch Ex2.infra_bare Ex.meeting_data Ex.U1)
                Ex.db0 []) = inr m
    /\ meeting_id m = 1
    /\ status m = "active"
    /\ data m = Some d
    /\ d !! "is_live" = Some (JBool true)
    /\ d !! "infra_meeting_id" = Some JNull.
Proof.
  destruct (request_bot_creates_live_meeting Ex.sch Ex2.infra_bare
              Ex.meeting_data Ex.U1 Ex.db0 [] ∅ db0_wf
              eq_refl eq_refl eq_refl eq_refl)
    as (m & d & Hr & Hid & _ & Hst & Hd & Hlive & Hinfra & _).
  exists m, d. auto 7.
Defined.

(** X13. Two users, one meeting.  When a first user's request creates the
    meeting, a request of another user for the same natural key returns the
    same row without calling the upstream service again: one meeting of that
    key is stored, each of the two users is linked to it by one row, two
    rows reference it, and the upstream service was asked once in all. *)
Theorem two_users_one_meeting
    sch infra1 infra2 meeting_data u1 u2 db f1 f2 m :
  let p := value (mc_platform meeting_data) in
  let n := mc_native_meeting_id meeting_data in
  let r1 := run (request_bot sch infra1 meeting_data u1) db f1 in
  let r2 := run (request_bot sch infra2 meeting_data u2) (final_db r1) f2 in
  db_wf db ->
  find_meeting p n db = None ->
  answer r1 = inr m ->
  user_id u1 <> user_id u2 ->
  hd false f2 = false ->
  answer r2 = inr m
  /\ count_meetings p n (final_db r2) = 1%nat
  /\ count_links (user_id u1) (meeting_id m) (final_db r2) = 1%nat
  /\ count_links (user_id u2) (meeting_id m) (final_db r2) = 1%nat
  /\ count_links_to (meeting_id m) (final_db r2) = 2%nat
  /\ (upstream_calls r1 ++ upstream_calls r2)%list = [CallRequestBot p n].
Proof.
  destruct meeting_data as [plat n]. cbn [mc_platform mc_native_meeting_id].
  intros Hwf Hfind Hr1 Hne Hok2. revert Hr1.
  unfold answer, final_db, upstream_calls.
  destruct (vc_request_bot infra1 (value plat) n) as [msg|resp] eqn:Hreq.
  { rewrite (request_bot_upstream_fails _ _ _ _ _ _ _ _ Hfind Hreq).
    cbn [fst snd]. discriminate. }
  destruct (hd false f1) eqn:Hhd.
  { destruct f1 as [|[] fs]; try discriminate.
    rewrite (request_bot_create_fails _ _ _ _ _ _ _ _ Hfind Hreq).
    cbn [fst snd]. discriminate. }
  rewrite (request_bot_creates _ _ _ _ _ _ _ _ Hwf Hfind Hreq Hhd).
  destruct (hd false (tail f1)); cbn [fst snd]; [discriminate|].
  intros [= <-].
  set (db1 := insert_user_meeting (created db (value plat) n resp)
                (user_id u1) (meeting_seq db)).
  assert (find_meeting (value plat) n db1
          = Some (new_meeting_row db (value plat) n resp)) as Hfind1
    by exact (find_meeting_created db (value plat) n resp Hfind).
  assert (find_link (user_id u2)
            (meeting_id (new_meeting_row db (value plat) n resp)) db1
          = None) as Hlink1.
  { unfold find_link, db1. simpl.
    rewrite (find_snoc _ _ _ (find_link_next_none db _ Hwf)).
    unfold is_link. simpl.
    destruct (Z.eqb_spec (user_id u1) (user_id u2)); [contradiction | done]. }
  rewrite (request_bot_links _ _ _ _ _ _ _ _ Hfind1 Hlink1 Hok2).
  cbn [fst snd]. split; [reflexivity|]. split; [|split; [|split; [|split]]].
  - unfold count_meetings, db1, created. simpl.
    unfold find_meeting in Hfind.
    rewrite filter_length_app, (filter_length_find_none _ _ Hfind). simpl.
    fold (new_meeting_row db (value plat) n resp).
    by rewrite has_key_new_meeting_row.
  - cbn [new_meeting_row meeting_id]. unfold db1.
    rewrite !count_links_insert, (count_links_created _ _ _ _ _ Hwf),
      !Z.eqb_refl.
    destruct (Z.eqb_spec (user_id u2) (user_id u1)); [congruence | done].
  - cbn [new_meeting_row meeting_id]. unfold db1.
    rewrite !count_links_insert, (count_links_created _ _ _ _ _ Hwf),
      !Z.eqb_refl.
    destruct (Z.eqb_spec (user_id u1) (user_id u2)); [congruence | done].
  - unfold count_links_to. simpl. rewrite !List.filter_app.
    rewrite (no_link_to_next db Hwf). simpl. by rewrite Z.eqb_refl.
  - reflexivity.
Qed.

Lemma two_users_one_meeting_witness :
  let r1 := run (request_bot Ex.sch Ex.infra Ex.meeting_data Ex.U1)
                Ex.db0 [] in
  let r2 := run (request_bot Ex.sch Ex.infra_down Ex.meeting_data Ex.U2)
                (final_db r1) [] in
  answer r1 = inr Ex.the_meeting
  /\ answer r2 = inr Ex.the_meeting
  /\ count_meetings "google_meet" "abc-123" (final_db r2) = 1%nat
  /\ count_links_to 1 (final_db r2) = 2%nat
  /\ (upstream_calls r1 ++ upstream_calls r2)%list
     = [CallRequestBot "google_meet" "abc-123"].
Proof.
  assert (answer (run (request_bot Ex.sch Ex.infra Ex.meeting_data Ex.U1)
                      Ex.db0 []) = inr Ex.the_meeting) as H1
    by (vm_compute; reflexivity).
  destruct (two_users_one_meeting Ex.sch Ex.infra Ex.infra_down
              Ex.meeting_data Ex.U1 Ex.U2 Ex.db0 [] [] Ex.the_meeting
              db0_wf eq_refl H1)
    as (Hr2 & Hone & _ & _ & Htwo & Hcalls); [discriminate | reflexivity |].
  cbv zeta. auto 6.
Defined.

(** ** Listing the meetings of a user *)

Lemma meetings_of_user_elem uid db m :
  m ∈ meetings_of_user uid db
  <-> m ∈ meetings db
      /\ existsb (is_link uid (meeting_id m)) (user_meetings db) = true.
Proof.
  unfold meetings_of_user. rewrite list_elem_of_In, in_flat_map. split.
  - intros (x & Hx & Hm). apply list_elem_of_In in Hm.
    apply list_elem_of_fmap in Hm as (l & -> & Hl).
    split; [by apply list_elem_of_In|].
    apply list_elem_of_In, List.filter_In in Hl as [Hin Hl].
    apply existsb_exists. eauto.
  - intros [Hm Hl]. exists m. split; [by apply list_elem_of_In|].
    apply existsb_exists in Hl as (l & Hin & Hl).
    apply list_elem_of_In, list_elem_of_fmap. exists l. split; [reflexivity|].
    apply list_elem_of_In, List.filter_In. auto.
Qed.

Lemma existsb_count_links uid mid db :
  existsb (is_link uid mid) (user_meetings db) = true
  <-> (1 <= count_links uid mid db)%nat.
Proof.
  unfold count_links.
  induction (user_meetings db) as [|l ls IH]; simpl; [split; [done | lia]|].
  destruct (is_link uid mid l); simpl; [split; [lia | done] | exact IH].
Qed.

(** With unique links the join gives each linked meeting once. *)
Lemma meetings_of_user_filter uid db :
  NoDup (link_pair <$> user_meetings db) ->
  meetings_of_user uid db
  = List.filter
      (fun m => existsb (is_link uid (meeting_id m)) (user_meetings db))
      (meetings db).
Proof.
  intros Hnd. unfold meetings_of_user.
  induction (meetings db) as [|m ms IH]; simpl; [reflexivity|].
  rewrite IH. clear IH.
  pose proof (NoDup_key_count link_pair (is_link uid (meeting_id m))
                (uid, meeting_id m) (user_meetings db)
                (fun x => proj1 (is_link_link_pair uid (meeting_id m) x)) Hnd)
    as Hle.
  destruct (existsb _ _) eqn:He.
  - apply existsb_count_links in He. unfold count_links in He.
    destruct (List.filter _ (user_meetings db)) as [|l [|l' ls]];
      simpl in *; [lia | reflexivity | lia].
  - destruct (List.filter _ (user_meetings db)) as [|l ls] eqn:Hf;
      [reflexivity|].
    assert (existsb (is_link uid (meeting_id m)) (user_meetings db) = true)
      as H; [|congruence].
    apply existsb_count_links. unfold count_links. rewrite Hf. simpl. lia.
Qed.

(** X14. [get_meetings] lists the meetings the user is linked to: on a
    well-formed database each stored meeting that a link row joins to the
    user appears, once, and nothing else does; the database is left as it
    is. *)
Theorem get_meetings_lists_linked_meetings current_user db faults :
  let r := run (get_meetings current_user) db faults in
  db_wf db ->
  exists ms,
    answer r = inr ms
    /\ NoDup ms
    /\ (forall m, m ∈ ms
                  <-> m ∈ meetings db
                      /\ count_links (user_id current_user) (meeting_id m) db
                         = 1%nat)
    /\ final_db r = db
    /\ upstream_calls r = [].
Proof.
  cbv zeta. intros Hwf. exists (meetings_of_user (user_id current_user) db).
  split; [reflexivity|]. split; [|split; [|split; reflexivity]].
  - rewrite (meetings_of_user_filter _ _ (wf_user_meeting db Hwf)).
    apply NoDup_ListNoDup, List.NoDup_filter, NoDup_ListNoDup.
    apply (NoDup_fmap_1 natural_key), (wf_natural_key db Hwf).
  - intros m. rewrite meetings_of_user_elem, existsb_count_links.
    pose proof (NoDup_key_count link_pair
                  (is_link (user_id current_user) (meeting_id m))
                  (user_id current_user, meeting_id m) (user_meetings db)
                  (fun x => proj1 (is_link_link_pair _ _ x))
                  (wf_user_meeting db Hwf)) as Hle.
    unfold count_links in *. split; intros [? ?]; split; auto; lia.
Qed.

Lemma get_meetings_lists_linked_meetings_witness :
  exists ms,
    answer (run (get_meetings Ex.U2) Ex.db_archived []) = inr ms
    /\ NoDup ms
    /\ (forall m, m ∈ ms
                  <-> m ∈ meetings Ex.db_archived
                      /\ count_links (user_id Ex.U2) (meeting_id m)
                           Ex.db_archived = 1%nat)
    /\ final_db (run (get_meetings Ex.U2) Ex.db_archived []) = Ex.db_archived
    /\ upstream_calls (run (get_meetings Ex.U2) Ex.db_archived []) = [].
Proof.
  exact (get_meetings_lists_linked_meetings Ex.U2 Ex.db_archived []
           db_archived_wf).
Defined.

Lemma filter_is_link_snoc_other uid uid' mid mid' (ls : list UserMeeting) k :
  uid <> uid' ->
  List.filter (is_link uid' mid')
    (ls ++ [{| um_id := k; um_user_id := uid; um_meeting_id := mid |}])
  = List.filter (is_link uid' mid') ls.
Proof.
  intros Hne. rewrite List.filter_app. simpl. unfold is_link at 2. simpl.
  destruct (Z.eqb_spec uid uid'); [contradiction|]. simpl. apply app_nil_r.
Qed.

Lemma meetings_of_user_insert_other db uid uid' mid :
  uid <> uid' ->
  meetings_of_user uid' (insert_user_meeting db uid mid)
  = meetings_of_user uid' db.
Proof.
  intros Hne. unfold meetings_of_user. simpl.
  induction (meetings db) as [|m ms IH]; simpl; [reflexivity|].
  by rewrite IH, filter_is_link_snoc_other.
Qed.

Lemma meetings_of_user_created db p n resp uid :
  db_wf db ->
  meetings_of_user uid (created db p n resp) = meetings_of_user uid db.
Proof.
  intros Hwf. unfold meetings_of_user, created. simpl.
  rewrite flat_map_app. simpl.
  pose proof (find_link_next_none db uid Hwf) as Hnone.
  assert (List.filter (is_link uid (meeting_seq db)) (user_meetings db) = [])
    as ->.
  { pose proof (filter_length_find_none _ _ Hnone) as Hlen.
    by destruct (List.filter _ _). }
  simpl. by rewrite app_nil_r.
Qed.

(** X15. A successful [request_bot] shows in the meetings of the requester
    and in no one else's: [get_meetings] then lists the meeting returned for
    the requester, and answers every other user what it answered before. *)
Theorem request_bot_shows_in_meetings
    sch infra meeting_data current_user db faults m :
  let r := run (request_bot sch infra meeting_data current_user) db faults in
  db_wf db ->
  answer r = inr m ->
  (exists ms, answer (run (get_meetings current_user) (final_db r) []) = inr ms
              /\ m ∈ ms)
  /\ (forall other f1 f2,
         user_id other <> user_id current_user ->
         answer (run (get_meetings other) (final_db r) f1)
         = answer (run (get_meetings other) db f2)).
Proof.
  destruct meeting_data as [plat n]. cbv zeta. intros Hwf.
  assert (forall db' u f, answer (run (get_meetings u) db' f)
                          = inr (meetings_of_user (user_id u) db')) as Hrun
    by reflexivity.
  destruct (request_bot_cases sch infra plat n current_user db faults Hwf)
    as [(-> & _ & Hm)|[(em & Hfind & _ & -> & _ & ->)
                      |(resp & Hfind & _ & _ & [[-> _]|[-> ->]])]].
  - intros Hr. destruct (Hm m Hr) as [Hfind [l Hl]]. split.
    + eexists. split; [apply Hrun|]. apply meetings_of_user_elem.
      apply find_some_holds in Hfind as [_ Hin].
      split; [exact Hin | exact (find_some_existsb _ _ _ Hl)].
    + intros. by rewrite !Hrun.
  - intros [= <-]. split.
    + eexists. split; [apply Hrun|]. apply meetings_of_user_elem.
      apply find_some_holds in Hfind as [_ Hin]. split; [exact Hin|].
      simpl. rewrite existsb_app. simpl. unfold is_link at 2. simpl.
      rewrite !Z.eqb_refl. simpl. apply orb_true_r.
    + intros other f1 f2 Hne. rewrite !Hrun. f_equal.
      apply meetings_of_user_insert_other. congruence.
  - discriminate.
  - intros [= <-]. split.
    + eexists. split; [apply Hrun|]. apply meetings_of_user_elem. split.
      * simpl. apply elem_of_app. right. left.
      * simpl. rewrite existsb_app. simpl. unfold is_link at 2. simpl.
        rewrite !Z.eqb_refl. simpl. apply orb_true_r.
    + intros other f1 f2 Hne. rewrite !Hrun. f_equal.
      rewrite meetings_of_user_insert_other by congruence.
      by apply meetings_of_user_created.
Qed.

Lemma request_bot_shows_in_meetings_witness :
  (exists ms, answer (run (get_meetings Ex.U2) Ex.db_shared []) = inr ms
              /\ Ex.the_meeting ∈ ms)
  /\ answer (run (get_meetings Ex.U3) Ex.db_shared [])
     = answer (run (get_meetings Ex.U3) Ex.db_live []).
Proof.
  destruct (request_bot_shows_in_meetings Ex.sch Ex.infra Ex.meeting_data
              Ex.U2 Ex.db_live [] Ex.the_meeting db_live_wf)
    as [Hmine Hothers]; [vm_compute; reflexivity|].
  split; [exact Hmine|]. apply (Hothers Ex.U3 [] []). discriminate.
Defined.

(** ** More on finalization *)

(** X16. A finalization for a natural key that no meeting has answers 404
    whatever the upstream service would say: it asks nothing upstream and
    writes nothing. *)
Theorem finalize_unknown_key sch infra payload db faults :
  let p := value (wp_platform payload) in
  let n := wp_native_meeting_id payload in
  let r := run (handle_webhook sch infra payload) db faults in
  count_meetings p n db = 0%nat ->
  answer r = inl (HTTPException 404 "Meeting not found")
  /\ upstream_calls r = []
  /\ final_db r = db.
Proof.
  destruct payload as [plat n]. cbn [wp_platform wp_native_meeting_id].
  intros Hnone.
  assert (find_meeting (value plat) n db = None) as Hfind.
  { unfold find_meeting, count_meetings in *.
    induction (meetings db) as [|x ms IH]; simpl in *; [reflexivity|].
    destruct (has_key (value plat) n x); simpl in *; [discriminate | auto]. }
  by rewrite (handle_webhook_unknown _ _ _ _ _ _ Hfind).
Qed.

Lemma finalize_unknown_key_witness :
  answer (run (handle_webhook Ex.sch Ex.infra Ex.payload) Ex.db0 [])
  = inl (HTTPException 404 "Meeting not found")
  /\ upstream_calls (run (handle_webhook Ex.sch Ex.infra Ex.payload) Ex.db0 [])
     = []
  /\ final_db (run (handle_webhook Ex.sch Ex.infra Ex.payload) Ex.db0 [])
     = Ex.db0.
Proof.
  exact (finalize_unknown_key Ex.sch Ex.infra Ex.payload Ex.db0 [] eq_refl).
Defined.

Lemma archive_meetings db m segs :
  meetings (archive db m segs)
  = set_data (meeting_id m) (archived_data (data m)) <$> meetings db.
Proof. unfold archive. simpl. by rewrite append_segments_meetings. Qed.

(** X17. What a committed finalization leaves alone.  The meeting keeps its
    identifier, its natural key and its [status] column (still the one it
    had: the handler never writes it), and every attribute other than the
    two flags, the upstream identifier among them.  Meetings of another
    identifier, links, users and tokens are untouched. *)
Theorem finalize_keeps_the_rest sch infra payload db faults m t :
  let p := value (wp_platform payload) in
  let n := wp_native_meeting_id payload in
  let r := run (handle_webhook sch infra payload) db faults in
  find_meeting p n db = Some m ->
  vc_get_transcript infra p n = inr t ->
  hd false faults = false ->
  (exists m' d',
      find_meeting p n (final_db r) = Some m'
      /\ meeting_id m' = meeting_id m
      /\ natural_key m' = natural_key m
      /\ status m' = status m
      /\ data m' = Some d'
      /\ forall k, k <> "is_live" -> k <> "transcript_cached" ->
                   d' !! k = default ∅ (data m) !! k)
  /\ (forall x, x ∈ meetings db -> meeting_id x <> meeting_id m ->
                x ∈ meetings (final_db r))
  /\ List.length (meetings (final_db r)) = List.length (meetings db)
  /\ user_meetings (final_db r) = user_meetings db
  /\ users (final_db r) = users db
  /\ api_tokens (final_db r) = api_tokens db.
Proof.
  destruct payload as [plat n]. cbn [wp_platform wp_native_meeting_id].
  intros Hfind Hget Hok.
  rewrite (handle_webhook_commits _ _ _ _ _ _ _ _ Hfind Hget Hok).
  unfold final_db. cbn [fst snd]. split; [|split; [|split; [|split; [|split]]]].
  - unfold find_meeting in *. rewrite archive_meetings, find_fmap_set_data.
    rewrite Hfind. simpl. unfold set_data. rewrite Z.eqb_refl.
    eexists _, _. do 5 (split; [reflexivity|]).
    intros k H1 H2. unfold archived_data.
    by rewrite !lookup_insert_ne by congruence.
  - intros x Hin Hne. rewrite archive_meetings.
    apply list_elem_of_fmap. exists x. split; [|exact Hin].
    unfold set_data. by destruct (Z.eqb_spec (meeting_id x) (meeting_id m)).
  - by rewrite archive_meetings, length_fmap.
  - apply archive_user_meetings.
  - unfold archive. simpl. clear.
    generalize (default [] (segments t)). intros segs. revert db.
    induction segs as [|seg segs IH]; intros db; simpl;
      [reflexivity | by rewrite IH].
  - unfold archive. simpl. clear.
    generalize (default [] (segments t)). intros segs. revert db.
    induction segs as [|seg segs IH]; intros db; simpl;
      [reflexivity | by rewrite IH].
Qed.

Lemma finalize_keeps_the_rest_witness :
  exists m' d',
    find_meeting "google_meet" "abc-123" Ex.db_archived = Some m'
    /\ status m' = "active"
    /\ data m' = Some d'
    /\ d' !! "infra_meeting_id" = Some (JInt 77)
    /\ d' !! "is_live" = Some (JBool false).
Proof.
  destruct (finalize_keeps_the_rest Ex.sch Ex.infra Ex.payload Ex.db_shared []
              Ex.the_meeting Ex.transcript)
    as ((m' & d' & Hfind & _ & _ & Hst & Hd & Hk) & _);
    try (vm_compute; reflexivity).
  exists m', d'. split; [exact Hfind|]. split; [exact Hst|].
  split; [exact Hd|]. split.
  - rewrite Hk by discriminate. vm_compute. reflexivity.
  - change Ex.db_archived
      with (final_db (run (handle_webhook Ex.sch Ex.infra Ex.payload)
                          Ex.db_shared [])) in Hfind.
    vm_compute in Hfind. injection Hfind as <-. injection Hd as <-.
    vm_compute. reflexivity.
Defined.

(** What a linked user reads once the archival of a meeting is committed:
    the cache, sorted, and nothing from upstream. *)
Lemma read_after_archive infra plat n current_user db faults m l segs :
  find_meeting (value plat) n db = Some m ->
  find_link (user_id current_user) (meeting_id m) db = Some l ->
  run (get_transcript infra plat n current_user) (archive db m segs) faults
  = (inr (TranscriptionResponse
            (from_orm <$> transcripts_of (meeting_id m) (archive db m segs))),
     archive db m segs, []).
Proof.
  intros Hfind Hlink.
  destruct (archive_find _ _ _ _ segs Hfind)
    as (m' & Hfind' & Hid & _ & _ & (d & Hd & Hlive & _)).
  assert (find_link (user_id current_user) (meeting_id m') (archive db m segs)
          = Some l) as Hlink'.
  { unfold find_link. by rewrite archive_user_meetings, Hid. }
  rewrite (get_transcript_cached _ _ _ _ _ _ _ d
             (find_meeting_of_linked_user _ _ _ _ _ _ Hfind' Hlink') Hd).
  - by rewrite Hid.
  - unfold dict_get. by rewrite Hlive.
Qed.



(** ** More on reading a transcript *)

Lemma get_transcript_no_data infra plat n current_user db faults m :
  find_meeting_of_user (value plat) n (user_id current_user) db = Some m ->
  data m = None ->
  run (get_transcript infra plat n current_user) db faults
  = (inl (AttributeError "'NoneType' object has no attribute 'get'"), db, []).
Proof.
  intros Hfind Hd. run_handler get_transcript. rewrite Hfind. simpl.
  rewrite Hd. reflexivity.
Qed.

(** X19. While a meeting is live, [get_transcript] hands a linked user what
    the upstream service answers, as it is, or 502 with the upstream message
    when that call fails.  It asks upstream once, writes nothing and never
    serves the local cache, whatever segments it holds. *)
Theorem live_transcript_is_proxied
    infra plat n current_user db faults m l d :
  let r := run (get_transcript infra plat n current_user) db faults in
  find_meeting (value plat) n db = Some m ->
  find_link (user_id current_user) (meeting_id m) db = Some l ->
  data m = Some d ->
  truthy (dict_get d "is_live" (JBool false)) = true ->
  answer r
  = match vc_get_transcript infra (value plat) n with
    | inl msg => inl (HTTPException 502 ("Infra API error: " ++ msg))
    | inr t => inr (InfraResponse t)
    end
  /\ (forall segs, answer r <> inr (TranscriptionResponse segs))
  /\ upstream_calls r = [CallGetTranscript (value plat) n]
  /\ final_db r = db.
Proof.
  cbv zeta. intros Hfind Hlink Hd Hlive.
  rewrite (get_transcript_live _ _ _ _ _ _ _ _
             (find_meeting_of_linked_user _ _ _ _ _ _ Hfind Hlink) Hd Hlive).
  unfold answer, final_db, upstream_calls. cbn [fst snd].
  split; [reflexivity|]. split; [|auto].
  intros segs. destruct (vc_get_transcript infra (value plat) n); discriminate.
Qed.

Lemma live_transcript_is_proxied_witness :
  answer (run (get_transcript Ex.infra google_meet "abc-123" Ex.U1)
              Ex.db_live [])
  = inr (InfraResponse Ex.transcript)
  /\ answer (run (get_transcript Ex.infra_down google_meet "abc-123" Ex.U1)
                 Ex.db_live [])
     = inl (HTTPException 502 "Infra API error: 503 Service Unavailable").
Proof.
  split.
  - apply (live_transcript_is_proxied Ex.infra google_meet "abc-123" Ex.U1
             Ex.db_live [] Ex.the_meeting
             {| um_id := 1; um_user_id := 1; um_meeting_id := 1 |}
             (<["infra_meeting_id" := JInt 77]> {["is_live" := JBool true]}));
      vm_compute; reflexivity.
  - apply (live_transcript_is_proxied Ex.infra_down google_meet "abc-123"
             Ex.U1 Ex.db_live [] Ex.the_meeting
             {| um_id := 1; um_user_id := 1; um_meeting_id := 1 |}
             (<["infra_meeting_id" := JInt 77]> {["is_live" := JBool true]}));
      vm_compute; reflexivity.
Defined.

(** X20. A meeting row whose attribute bag is NULL breaks [get_transcript]:
    for a linked user the handler raises an [AttributeError] that nothing
    catches (500), with no upstream call and no write; [handle_webhook]
    guards that case, and once it has finalized the meeting the same read
    is served from the cache. *)
Theorem transcript_of_meeting_without_data
    sch infra infra' payload current_user db faults faults' m l t :
  let plat := wp_platform payload in
  let n := wp_native_meeting_id payload in
  let r := run (get_transcript infra' plat n current_user) db faults' in
  let db' := final_db (run (handle_webhook sch infra payload) db faults) in
  find_meeting (value plat) n db = Some m ->
  find_link (user_id current_user) (meeting_id m) db = Some l ->
  data m = None ->
  vc_get_transcript infra (value plat) n = inr t ->
  hd false faults = false ->
  answer r = inl (AttributeError "'NoneType' object has no attribute 'get'")
  /\ http_status 200 (answer r) = 500
  /\ upstream_calls r = []
  /\ final_db r = db
  /\ exists segs,
      answer (run (get_transcript infra' plat n current_user) db' faults')
      = inr (TranscriptionResponse segs).
Proof.
  destruct payload as [plat n]. cbn [wp_platform wp_native_meeting_id].
  intros Hfind Hlink Hd Hget Hok.
  rewrite (get_transcript_no_data _ _ _ _ _ _ _
             (find_meeting_of_linked_user _ _ _ _ _ _ Hfind Hlink) Hd).
  rewrite (handle_webhook_commits _ _ _ _ _ _ _ _ Hfind Hget Hok).
  unfold final_db at 2. cbn [fst snd].
  rewrite (read_after_archive _ _ _ _ _ _ _ _ _ Hfind Hlink).
  unfold answer, final_db, upstream_calls. cbn [fst snd http_status].
  eauto 7.
Qed.

Lemma transcript_of_meeting_without_data_witness :
  answer (run (get_transcript Ex.infra zoom "z-9" Ex.U1) Ex2.db_null_data [])
  = inl (AttributeError "'NoneType' object has no attribute 'get'")
  /\ exists segs,
      answer (run (get_transcript Ex.infra zoom "z-9" Ex.U1)
                  (final_db (run (handle_webhook Ex.sch Ex.infra
                                    {| wp_platform := zoom;
                                       wp_native_meeting_id := "z-9" |})
                                 Ex2.db_null_data [])) [])
      = inr (TranscriptionResponse segs).
Proof.
  destruct (transcript_of_meeting_without_data Ex.sch Ex.infra Ex.infra
              {| wp_platform := zoom; wp_native_meeting_id := "z-9" |}
              Ex.U1 Ex2.db_null_data [] []
              {| meeting_id := 1; platform := "zoom";
                 platform_specific_id := "z-9"; status := "active";
                 data := None |}
              {| um_id := 1; um_user_id := 1; um_meeting_id := 1 |}
              Ex.transcript eq_refl eq_refl eq_refl eq_refl eq_refl)
    as (Hr & _ & _ & _ & Hafter).
  split; [exact Hr | exact Hafter].
Defined.

(** X21. A meeting whose attribute bag has no [is_live] key counts as not
    live: a linked user is served the cached segments of the meeting, sorted
    by [start_time], and the upstream service is not asked. *)
Theorem absent_is_live_reads_cache
    infra plat n current_user db faults m l d :
  let r := run (get_transcript infra plat n current_user) db faults in
  find_meeting (value plat) n db = Some m ->
  find_link (user_id current_user) (meeting_id m) db = Some l ->
  data m = Some d ->
  d !! "is_live" = None ->
  exists segs,
    answer r = inr (TranscriptionResponse segs)
    /\ StronglySorted seg_le segs
    /\ segs ≡ₚ segments_of (meeting_id m) db
    /\ upstream_calls r = []
    /\ final_db r = db.
Proof.
  cbv zeta. intros Hfind Hlink Hd Hlive.
  assert (truthy (dict_get d "is_live" (JBool false)) = false) as Hfalse
    by (unfold dict_get; rewrite Hlive; reflexivity).
  rewrite (get_transcript_cached _ _ _ _ _ _ _ _
             (find_meeting_of_linked_user _ _ _ _ _ _ Hfind Hlink) Hd Hfalse).
  unfold answer, final_db, upstream_calls. cbn [fst snd].
  eexists. split; [reflexivity|]. split; [|split; [|auto]].
  - apply from_orm_ascending, order_by_start_time_sorted.
  - unfold segments_of, transcripts_of. by rewrite order_by_start_time_perm.
Qed.

Lemma absent_is_live_reads_cache_witness :
  exists segs,
    answer (run (get_transcript Ex.infra_down zoom "z-9" Ex.U1)
                Ex2.db_empty_data []) = inr (TranscriptionResponse segs)
    /\ StronglySorted seg_le segs
    /\ segs ≡ₚ segments_of 1 Ex2.db_empty_data
    /\ upstream_calls (run (get_transcript Ex.infra_down zoom "z-9" Ex.U1)
                           Ex2.db_empty_data []) = []
    /\ final_db (run (get_transcript Ex.infra_down zoom "z-9" Ex.U1)
                     Ex2.db_empty_data []) = Ex2.db_empty_data.
Proof.
  apply (absent_is_live_reads_cache Ex.infra_down zoom "z-9" Ex.U1
           Ex2.db_empty_data []
           {| meeting_id := 1; platform := "zoom";
              platform_specific_id := "z-9"; status := "active";
              data := Some ∅ |}
           {| um_id := 1; um_user_id := 1; um_meeting_id := 1 |} ∅);
    reflexivity.
Defined.

(** ** The life of a meeting, end to end *)

(** X22. Request, finalize, read.  A user requests a bot for a new natural
    key and the creation commits; while the meeting is live a read by that
    user is answered by the upstream service.  Once the webhook has fetched
    a transcript and its archival has committed, the same read returns
    exactly the segments of that transcript, in ascending order of
    [start_time], without asking upstream. *)
Theorem request_finalize_read
    sch infra1 infra2 infra3 plat n current_user db f1 f2 f3 resp t :
  let p := value plat in
  let r1 := run (request_bot sch infra1
                   {| mc_platform := plat; mc_native_meeting_id := n |}
                   current_user) db f1 in
  let live := run (get_transcript infra3 plat n current_user) (final_db r1)
                  f3 in
  let r2 := run (handle_webhook sch infra2
                   {| wp_platform := plat; wp_native_meeting_id := n |})
                (final_db r1) f2 in
  let r3 := run (get_transcript infra3 plat n current_user) (final_db r2)
                f3 in
  db_wf db ->
  transcripts_wf db ->
  find_meeting p n db = None ->
  vc_request_bot infra1 p n = inr resp ->
  hd false f1 = false ->
  hd false (tail f1) = false ->
  vc_get_transcript infra2 p n = inr t ->
  hd false f2 = false ->
  (answer live
   = match vc_get_transcript infra3 p n with
     | inl msg => inl (HTTPException 502 ("Infra API error: " ++ msg))
     | inr t' => inr (InfraResponse t')
     end)
  /\ exists segs,
      answer r3 = inr (TranscriptionResponse segs)
      /\ StronglySorted seg_le segs
      /\ segs ≡ₚ default [] (segments t)
      /\ upstream_calls r3 = [].
Proof.
  cbv zeta. intros Hwf Htr Hfind Hreq Hok1 Hok1' Hget Hok2.
  unfold final_db.
  rewrite (request_bot_creates _ _ _ _ _ _ _ _ Hwf Hfind Hreq Hok1), Hok1'.
  cbn [fst snd].
  set (m := new_meeting_row db (value plat) n resp).
  set (db1 := insert_user_meeting (created db (value plat) n resp)
                (user_id current_user) (meeting_seq db)).
  assert (find_meeting (value plat) n db1 = Some m) as Hfind1
    by exact (find_meeting_created db (value plat) n resp Hfind).
  assert (find_link (user_id current_user) (meeting_id m) db1
          = Some {| um_id := user_meeting_seq db;
                    um_user_id := user_id current_user;
                    um_meeting_id := meeting_seq db |}) as Hlink1.
  { unfold find_link, db1. simpl.
    rewrite (find_snoc _ _ _ (find_link_next_none db _ Hwf)).
    unfold is_link. simpl. by rewrite !Z.eqb_refl. }
  split.
  - rewrite (get_transcript_live _ _ _ _ _ _ _ _
               (find_meeting_of_linked_user _ _ _ _ _ _ Hfind1 Hlink1)
               eq_refl); [reflexivity|].
    unfold dict_get. by rewrite lookup_insert_ne, lookup_singleton_eq.
  - rewrite (handle_webhook_commits _ _ _ _ _ _ _ _ Hfind1 Hget Hok2).
    cbn [fst snd].
    rewrite (read_after_archive _ _ _ _ _ _ _ _ _ Hfind1 Hlink1).
    unfold answer, upstream_calls. cbn [fst snd].
    eexists. split; [reflexivity|]. split; [|split; [|reflexivity]].
    + apply from_orm_ascending, order_by_start_time_sorted.
    + unfold transcripts_of. rewrite order_by_start_time_perm.
      fold (segments_of (meeting_id m) (archive db1 m (default [] (segments t)))).
      rewrite archive_segments_of.
      assert (segments_of (meeting_id m) db1 = []) as ->; [|reflexivity].
      unfold segments_of, db1. simpl.
      induction Htr as [|x xs Hx _ IH]; simpl; [reflexivity|].
      destruct (Z.eqb_spec (tr_meeting_id x) (meeting_seq db)); [lia | exact IH].
Qed.

Lemma request_finalize_read_witness :
  answer (run (get_transcript Ex.infra google_meet "abc-123" Ex.U1)
              Ex.db_live []) = inr (InfraResponse Ex.transcript)
  /\ exists segs,
      answer (run (get_transcript Ex.infra google_meet "abc-123" Ex.U1)
                  (final_db (run (handle_webhook Ex.sch Ex.infra Ex.payload)
                                 Ex.db_live [])) [])
      = inr (TranscriptionResponse segs)
      /\ StronglySorted seg_le segs
      /\ segs ≡ₚ [Ex.seg5; Ex.seg1].
Proof.
  destruct (request_finalize_read Ex.sch Ex.infra Ex.infra Ex.infra
              google_meet "abc-123" Ex.U1 Ex.db0 [] [] []
              {["id" := JInt 77]} Ex.transcript db0_wf)
    as (Hlive & segs & Hr & Hs & Hp & _);
    try reflexivity; [constructor|].
  split; [exact Hlive|]. exists segs. auto.
Defined.

(** ** Sequences of requests *)

Lemma get_transcript_reads_only infra plat n current_user db faults :
  final_db (run (get_transcript infra plat n current_user) db faults) = db.
Proof.
  destruct (find_meeting_of_user (value plat) n (user_id current_user) db)
    as [m|] eqn:Hfind.
  - destruct (data m) as [d|] eqn:Hd.
    + destruct (truthy (dict_get d "is_live" (JBool false))) eqn:Hl.
      * by rewrite (get_transcript_live _ _ _ _ _ _ _ _ Hfind Hd Hl).
      * by rewrite (get_transcript_cached _ _ _ _ _ _ _ _ Hfind Hd Hl).
    + by rewrite (get_transcript_no_data _ _ _ _ _ _ _ Hfind Hd).
  - by rewrite (get_transcript_not_found _ _ _ _ _ _ Hfind).
Qed.

(** The database a request leaves differs from the one before at most by
    one of the writes of the handlers. *)
Lemma serve_cases sch rq faults db :
  db_wf db ->
  serve sch rq faults db = db
  \/ (exists uid mid, mid < meeting_seq db
                      /\ find_link uid mid db = None
                      /\ serve sch rq faults db
                         = insert_user_meeting db uid mid)
  \/ (exists p n resp, find_meeting p n db = None
                       /\ serve sch rq faults db = created db p n resp)
  \/ (exists p n resp uid,
         find_meeting p n db = None
         /\ serve sch rq faults db
            = insert_user_meeting (created db p n resp) uid (meeting_seq db))
  \/ (exists p n m segs, find_meeting p n db = Some m
                         /\ serve sch rq faults db = archive db m segs)
  \/ (exists tok uid, serve sch rq faults db = insert_token db tok uid)
  \/ (exists tid, serve sch rq faults db = without_token db tid).
Proof.
  intros Hwf. destruct rq as [infra [plat n] u|infra [plat n]|infra plat n u
                             |rng uid|tid]; cbn [serve].
  - destruct (request_bot_cases sch infra plat n u db faults Hwf)
      as [(-> & _)|[(em & Hfind & Hlink & _ & _ & ->)
                   |(resp & Hfind & _ & _ & [[_ ->]|[_ ->]])]].
    + by left.
    + right. left. exists (user_id u), (meeting_id em).
      split; [|auto]. apply find_some_holds in Hfind as [_ Hin].
      pose proof (wf_meeting_seq db Hwf) as Hall.
      rewrite Forall_forall in Hall. by apply Hall.
    + right. right. left. eauto.
    + right. right. right. left. eauto 6.
  - unfold final_db.
    destruct (find_meeting (value plat) n db) as [m|] eqn:Hfind.
    + destruct (vc_get_transcript infra (value plat) n) as [msg|t] eqn:Hget.
      * left. by rewrite (handle_webhook_upstream_fails _ _ _ _ _ _ _ _
                            Hfind Hget).
      * destruct (hd false faults) eqn:Hhd.
        -- destruct faults as [|[] fs]; try discriminate. left.
           by rewrite (handle_webhook_commit_fails _ _ _ _ _ _ _ _ Hfind Hget).
        -- do 4 right. left.
           rewrite (handle_webhook_commits _ _ _ _ _ _ _ _ Hfind Hget Hhd).
           cbn [fst snd]. eauto 6.
    + left. by rewrite (handle_webhook_unknown _ _ _ _ _ _ Hfind).
  - left. apply get_transcript_reads_only.
  - destruct (create_token_for_user_final_db sch rng uid db faults)
      as [->| ->]; [by left|]. do 5 right. left. eauto.
  - unfold final_db. rewrite delete_token_run.
    destruct (Nat.eqb _ 0); [by left|].
    destruct (hd false faults); [by left|]. do 6 right. eauto.
Qed.

Lemma serve_keeps_wf sch rq faults db :
  db_wf db -> db_wf (serve sch rq faults db).
Proof.
  intros Hwf.
  destruct (serve_cases sch rq faults db Hwf)
    as [->|[(uid & mid & Hlt & Hlink & ->)
           |[(p & n & resp & Hfind & ->)
            |[(p & n & resp & uid & Hfind & ->)
             |[(p & n & m & segs & _ & ->)
              |[(tok & uid & ->)|(tid & ->)]]]]]].
  - exact Hwf.
  - by apply insert_user_meeting_wf.
  - by apply created_wf.
  - apply insert_user_meeting_wf; [by apply created_wf| |simpl; lia].
    unfold find_link. simpl. apply find_link_next_none, Hwf.
  - by apply archive_wf.
  - destruct Hwf. by split.
  - destruct Hwf. by split.
Qed.

(** X23. The invariant of the data model holds along every run: requests for
    bots, finalizations, reads, issues and revocations of tokens, in any
    order, with any upstream answers and any storage faults, take a
    well-formed database to a well-formed one (natural keys and links stay
    unique, identifiers stay below the sequence). *)
Theorem serve_all_keeps_wf sch rqs db :
  db_wf db -> db_wf (serve_all sch rqs db).
Proof.
  unfold serve_all. revert db.
  induction rqs as [|[rq faults] rqs IH]; intros db Hwf; simpl; [exact Hwf|].
  apply IH, serve_keeps_wf, Hwf.
Qed.

Lemma serve_all_keeps_wf_witness :
  db_wf (serve_all Ex.sch
           [(RequestBot Ex.infra Ex.meeting_data Ex.U1, [false; true]);
            (RequestBot Ex.infra_down Ex.meeting_data Ex.U2, []);
            (Webhook Ex.infra_cleanup_fails Ex.payload, []);
            (Webhook Ex.infra Ex.payload, [true]);
            (CreateToken Ex2.rng 9, []);
            (DeleteToken 4, [])]
           Ex.db0).
Proof. exact (serve_all_keeps_wf Ex.sch _ Ex.db0 db0_wf). Defined.

Lemma set_data_archived mid m0 m :
  (archived m -> archived (set_data mid (archived_data (data m0)) m))
  /\ meeting_id (set_data mid (archived_data (data m0)) m) = meeting_id m
  /\ status (set_data mid (archived_data (data m0)) m) = status m.
Proof.
  unfold set_data. destruct (Z.eqb (meeting_id m) mid); simpl; [|auto].
  split; [|auto]. intros _. exists (archived_data (data m0)).
  auto using archived_data_is_live, archived_data_transcript_cached.
Qed.

Lemma serve_keeps_registered sch rq faults db p n m :
  db_wf db ->
  find_meeting p n db = Some m ->
  exists m',
    find_meeting p n (serve sch rq faults db) = Some m'
    /\ meeting_id m' = meeting_id m
    /\ status m' = status m
    /\ (archived m -> archived m').
Proof.
  intros Hwf Hfind.
  destruct (serve_cases sch rq faults db Hwf)
    as [->|[(uid & mid & _ & _ & ->)
           |[(p' & n' & resp & _ & ->)
            |[(p' & n' & resp & uid & _ & ->)
             |[(p' & n' & m0 & segs & _ & ->)
              |[(tok & uid & ->)|(tid & ->)]]]]]];
    unfold find_meeting in *; simpl; eauto.
  - rewrite (find_snoc_some _ _ _ _ Hfind). eauto.
  - rewrite (find_snoc_some _ _ _ _ Hfind). eauto.
  - rewrite append_segments_meetings, find_fmap_set_data, Hfind. simpl.
    destruct (set_data_archived (meeting_id m0) m0 m) as (? & ? & ?). eauto.
Qed.

(** X24. Nothing undoes an archival.  Along every run of requests, a meeting
    that is registered under a natural key stays registered under it, with
    the same identifier and the same [status]; and once it is archived
    ([is_live] false and [transcript_cached] true) it is archived ever
    after: no handler sets a meeting live again. *)
Theorem archived_is_permanent sch rqs db p n m :
  db_wf db ->
  find_meeting p n db = Some m ->
  exists m',
    find_meeting p n (serve_all sch rqs db) = Some m'
    /\ meeting_id m' = meeting_id m
    /\ status m' = status m
    /\ (archived m -> archived m').
Proof.
  unfold serve_all. revert db m.
  induction rqs as [|[rq faults] rqs IH]; intros db m Hwf Hfind; simpl;
    [eauto|].
  destruct (serve_keeps_registered sch rq faults db p n m Hwf Hfind)
    as (m1 & Hfind1 & Hid1 & Hst1 & Harch1).
  destruct (IH _ m1 (serve_keeps_wf sch rq faults db Hwf) Hfind1)
    as (m' & Hfind' & Hid' & Hst' & Harch').
  exists m'. split; [exact Hfind'|]. split; [congruence|].
  split; [congruence | auto].
Qed.

Lemma archived_is_permanent_witness :
  exists m',
    find_meeting "google_meet" "abc-123"
      (serve_all Ex.sch
         [(RequestBot Ex.infra Ex.meeting_data Ex.U3, []);
          (Webhook Ex.infra Ex.payload, []);
          (GetTranscript Ex.infra google_meet "abc-123" Ex.U3, [])]
         Ex.db_archived) = Some m'
    /\ meeting_id m' = 1
    /\ status m' = "active"
    /\ archived m'.
Proof.
  destruct (archive_find "google_meet" "abc-123" Ex.db_shared Ex.the_meeting
              [Ex.seg5; Ex.seg1])
    as (m & Hfind & Hid & _ & Hst & Harch); [vm_compute; reflexivity|].
  destruct (archived_is_permanent Ex.sch
              [(RequestBot Ex.infra Ex.meeting_data Ex.U3, []);
               (Webhook Ex.infra Ex.payload, []);
               (GetTranscript Ex.infra google_meet "abc-123" Ex.U3, [])]
              Ex.db_archived "google_meet" "abc-123" m db_archived_wf Hfind)
    as (m' & Hfind' & Hid' & Hst' & Harch').
  exists m'. split; [exact Hfind'|].
  split; [rewrite Hid', Hid; reflexivity|].
  split; [rewrite Hst', Hst; reflexivity | auto].
Defined.

Lemma kept_refl x : kept x x.
Proof. unfold kept. auto. Qed.

Lemma kept_trans x y z : kept x y -> kept y z -> kept x z.
Proof.
  unfold kept. intros (Hi & Hk & Hs & Hd) (Hi' & Hk' & Hs' & Hd').
  split; [congruence|]. split; [congruence|]. split; [congruence|].
  destruct Hd' as [Hd'|Hz]; [|by right].
  destruct Hd as [Hd|(d & Hy & Hl & Hc)]; [left; congruence|].
  right. exists d. rewrite Hd'. auto.
Qed.

Lemma kept_set_data mid m0 x :
  kept x (set_data mid (archived_data (data m0)) x).
Proof.
  unfold kept, set_data, natural_key.
  destruct (Z.eqb (meeting_id x) mid); simpl; [|auto].
  do 3 (split; [reflexivity|]). right. exists (archived_data (data m0)).
  auto using archived_data_is_live, archived_data_transcript_cached.
Qed.

Lemma Forall2_kept_refl (ms : list Meeting) : Forall2 kept ms ms.
Proof. induction ms; constructor; auto using kept_refl. Qed.

Lemma Forall2_kept_trans (l1 l2 l3 : list Meeting) :
  Forall2 kept l1 l2 -> Forall2 kept l2 l3 -> Forall2 kept l1 l3.
Proof.
  intros H12. revert l3.
  induction H12 as [|x y l1 l2 Hxy _ IH]; intros l3 H23.
  - inversion H23. constructor.
  - inversion H23 as [|y' z l2' l3' Hyz H23']; subst.
    constructor; [exact (kept_trans _ _ _ Hxy Hyz) | by apply IH].
Qed.

Lemma serve_only_appends sch rq faults db :
  db_wf db ->
  exists rows ls old new,
    transcriptions (serve sch rq faults db) = (transcriptions db ++ rows)%list
    /\ user_meetings (serve sch rq faults db) = (user_meetings db ++ ls)%list
    /\ meetings (serve sch rq faults db) = (old ++ new)%list
    /\ Forall2 kept (meetings db) old.
Proof.
  intros Hwf.
  destruct (serve_cases sch rq faults db Hwf)
    as [->|[(uid & mid & _ & _ & ->)
           |[(p' & n' & resp & _ & ->)
            |[(p' & n' & resp & uid & _ & ->)
             |[(p' & n' & m0 & segs & _ & ->)
              |[(tok & uid & ->)|(tid & ->)]]]]]].
  - exists [], [], (meetings db), []. rewrite !app_nil_r.
    auto using Forall2_kept_refl.
  - eexists [], [_], (meetings db), []. rewrite !app_nil_r. simpl.
    auto using Forall2_kept_refl.
  - eexists [], [], (meetings db), [_]. rewrite !app_nil_r. simpl.
    auto using Forall2_kept_refl.
  - eexists [], [_], (meetings db), [_]. rewrite !app_nil_r. simpl.
    auto using Forall2_kept_refl.
  - destruct (archive_transcriptions db m0 segs) as (rows & Ht & _).
    exists rows, [], (meetings (archive db m0 segs)), [].
    rewrite !app_nil_r, archive_user_meetings, archive_meetings.
    split; [exact Ht|]. split; [reflexivity|]. split; [reflexivity|].
    apply Forall2_fmap_r, Forall_Forall2_diag, Forall_forall.
    intros x _. apply kept_set_data.
  - exists [], [], (meetings db), []. rewrite !app_nil_r. simpl.
    auto using Forall2_kept_refl.
  - exists [], [], (meetings db), []. rewrite !app_nil_r. simpl.
    auto using Forall2_kept_refl.
Qed.

(** X25. Segments, links and meetings are never taken back.  Along every run
    of requests to [request_bot], [handle_webhook], [get_transcript],
    [create_token_for_user] and [delete_token], the transcript table and the
    link table only grow at their end: every cached segment and every link
    stays, unchanged and in place.  Every meeting row stays in place too,
    with its identifier, its natural key and its [status]; its attribute bag
    is the one it had or holds the two flags of an archival; new meetings
    come after the old ones. *)
Theorem serve_all_only_appends sch rqs db :
  db_wf db ->
  exists rows ls old new,
    transcriptions (serve_all sch rqs db) = (transcriptions db ++ rows)%list
    /\ user_meetings (serve_all sch rqs db) = (user_meetings db ++ ls)%list
    /\ meetings (serve_all sch rqs db) = (old ++ new)%list
    /\ Forall2 kept (meetings db) old.
Proof.
  unfold serve_all. revert db.
  induction rqs as [|[rq faults] rqs IH]; intros db Hwf; simpl.
  - exists [], [], (meetings db), []. rewrite !app_nil_r.
    auto using Forall2_kept_refl.
  - destruct (serve_only_appends sch rq faults db Hwf)
      as (rows1 & ls1 & old1 & new1 & Ht1 & Hl1 & Hm1 & Hk1).
    destruct (IH _ (serve_keeps_wf sch rq faults db Hwf))
      as (rows & ls & old & new & Ht & Hl & Hm & Hk).
    rewrite Hm1 in Hk.
    apply Forall2_app_inv_l in Hk as (old' & mid' & Hold & _ & ->).
    exists (rows1 ++ rows)%list, (ls1 ++ ls)%list, old', (mid' ++ new)%list.
    rewrite Ht, Hl, Hm, Ht1, Hl1, !app_assoc.
    do 3 (split; [reflexivity|]).
    exact (Forall2_kept_trans _ _ _ Hk1 Hold).
Qed.

Lemma serve_all_only_appends_witness :
  exists rows ls old new,
    transcriptions
      (serve_all Ex.sch
         [(Webhook Ex.infra Ex.payload, []);
          (RequestBot Ex.infra Ex.meeting_data Ex.U3, []);
          (DeleteToken 1, [])]
         Ex.db_shared) = (transcriptions Ex.db_shared ++ rows)%list
    /\ user_meetings
         (serve_all Ex.sch
            [(Webhook Ex.infra Ex.payload, []);
             (RequestBot Ex.infra Ex.meeting_data Ex.U3, []);
             (DeleteToken 1, [])]
            Ex.db_shared) = (user_meetings Ex.db_shared ++ ls)%list
    /\ meetings
         (serve_all Ex.sch
            [(Webhook Ex.infra Ex.payload, []);
             (RequestBot Ex.infra Ex.meeting_data Ex.U3, []);
             (DeleteToken 1, [])]
            Ex.db_shared) = (old ++ new)%list
    /\ Forall2 kept (meetings Ex.db_shared) old.
Proof.
  apply (serve_all_only_appends Ex.sch
           [(Webhook Ex.infra Ex.payload, []);
            (RequestBot Ex.infra Ex.meeting_data Ex.U3, []);
            (DeleteToken 1, [])]
           Ex.db_shared).
  split; vm_compute; repeat constructor; intros H;
    repeat (apply elem_of_cons in H as [H|H]; [discriminate|]);
    by apply elem_of_nil in H.
Defined.
